(** * Support-triage pipeline: a shallow embedding and its properties

    The development follows the Python sources of the repository:
    [triage_engine.py], [guardian.py], [opportunity.py],
    [response_generator.py], [main.py] and [report_builder.py].

    Conventions of the embedding.
    - A Python object is a [value]; a [dict] with string keys is a
      [gmap string value]; a pandas row is read like a dict
      ([ticket['k']] raises [KeyError], [ticket.get(k, d)] does not).
    - A Python [str] is a [string] whose characters stand for code points
      below 256.
    - A computation that may raise is an [outcome]; [try_except] is the
      [try ... except Exception] block.
    - Text assembled by an f-string is represented by the sequence of the
      values interpolated into it; the constant text of the template is
      dropped, the exceptions raised while the holes are evaluated are kept.
    - Logging is not modelled, except that the arguments of a logged
      f-string are evaluated (and may raise) where the source evaluates them.
    - The external collaborators (text-completion client, [json.loads],
      mail client, process environment, knowledge-base files, float
      formatting) are variables of a section. *)

From Stdlib Require Import ZArith QArith Qpower Bool List Lia Ascii String.
From stdpp Require Import base option gmap strings list.

#[local] Set Warnings "-register-all".
Local Open Scope string_scope.
Local Open Scope Z_scope.

(** ** Python values *)

(** A float is NaN, an infinity, or the dyadic number [m * 2^e]; every
    finite binary64 value has this form. *)
Inductive pyfloat :=
| FNan
| FInf (negative : bool)
| FFin (m e : Z).

Inductive value :=
| VNone
| VBool (b : bool)
| VInt (z : Z)
| VFloat (f : pyfloat)
| VStr (s : string)
| VList (l : list value)
| VDict (d : gmap string value).

Abbreviation dict := (gmap string value).

(** ** Exceptions and the [outcome] monad *)

Inductive exn :=
| KeyError (k : string)
| TypeError
| AttributeError
| ValueError
| IndexError
| ZeroDivisionError
| JSONDecodeError (msg : string)
| OtherError (msg : string).

Inductive outcome (A : Type) :=
| Ret (a : A)
| Raise (e : exn).

Arguments Ret {A} a.
Arguments Raise {A} e.

Definition bind {A B : Type} (m : outcome A) (k : A -> outcome B) : outcome B :=
  match m with
  | Ret a => k a
  | Raise e => Raise e
  end.

Notation "'let*' x ':=' m 'in' k" := (bind m (fun x => k))
  (at level 10, x pattern, m at level 100, k at level 200).

(** [try: m except Exception as e: h e] *)
Definition try_except {A : Type} (m : outcome A) (h : exn -> outcome A) : outcome A :=
  match m with
  | Ret a => Ret a
  | Raise e => h e
  end.

Definition returns {A : Type} (m : outcome A) : Prop := exists a, m = Ret a.

(** ** Operations on values *)

(** [d[k]] on a dict (or a pandas row). *)
Definition getitem (d : dict) (k : string) : outcome value :=
  match d !! k with
  | Some v => Ret v
  | None => Raise (KeyError k)
  end.

(** [d.get(k, dflt)] on a dict (or a pandas row). *)
Definition dict_get (d : dict) (k : string) (dflt : value) : value :=
  default dflt (d !! k).

(** [v[k]] with a string key on an arbitrary object: only a dict can be
    indexed by a string. *)
Definition subscript (v : value) (k : string) : outcome value :=
  match v with
  | VDict d => getitem d k
  | _ => Raise TypeError
  end.

(** [v.get(k, dflt)] on an arbitrary object: only a dict has the method. *)
Definition method_get (v : value) (k : string) (dflt : value) : outcome value :=
  match v with
  | VDict d => Ret (dict_get d k dflt)
  | _ => Raise AttributeError
  end.

(** [v[k] = x] on an arbitrary object with a string key. *)
Definition setitem (v : value) (k : string) (x : value) : outcome dict :=
  match v with
  | VDict d => Ret (<[k := x]> d)
  | _ => Raise TypeError
  end.

(** Comparison of a float with an integer is exact in Python. *)
Definition float_ge_int (f : pyfloat) (n : Z) : bool :=
  match f with
  | FNan => false
  | FInf negative => negb negative
  | FFin m e => if 0 <=? e then n <=? m * 2 ^ e else n * 2 ^ (- e) <=? m
  end.

(** [v >= n] for an integer literal [n]; [bool] is a subclass of [int]. *)
Definition py_ge_int (v : value) (n : Z) : outcome bool :=
  match v with
  | VBool b => Ret (n <=? (if b then 1 else 0))
  | VInt z => Ret (n <=? z)
  | VFloat f => Ret (float_ge_int f n)
  | _ => Raise TypeError
  end.

(** Truth value of an object, as tested by [if v:]. *)
Definition truthy (v : value) : bool :=
  match v with
  | VNone => false
  | VBool b => b
  | VInt z => negb (z =? 0)
  | VFloat (FFin m _) => negb (m =? 0)
  | VFloat _ => true
  | VStr s => negb (String.eqb s "")
  | VList l => match l with [] => false | _ => true end
  | VDict d => negb (Nat.eqb (size d) 0)
  end.

(** [s in l] for a [str] [s] and a list of objects: a string equals only
    an equal string. *)
Definition str_in (s : string) (l : list value) : bool :=
  existsb (fun v => match v with VStr t => String.eqb s t | _ => false end) l.

(** [v in [s1, ..., sn]] for an object [v] and a list of string literals. *)
Definition value_in_strs (v : value) (l : list string) : bool :=
  match v with
  | VStr s => existsb (String.eqb s) l
  | _ => false
  end.

(** Looking [key] up in a literal table with string keys: hashing an
    unhashable key raises, a key that is not a string is never found. *)
Definition table_lookup (table : list (string * string)) (key : value)
  : outcome (option string) :=
  match key with
  | VList _ | VDict _ => Raise TypeError
  | VStr s =>
      Ret (match find (fun kv => String.eqb (fst kv) s) table with
           | Some kv => Some (snd kv)
           | None => None
           end)
  | _ => Ret None
  end.

(** [table.get(key, dflt)] *)
Definition table_get (table : list (string * string)) (key : value) (dflt : string)
  : outcome string :=
  let* found := table_lookup table key in
  Ret (default dflt found).

(** Sequencing a fallible function over a list, as a comprehension or a
    [for] loop does: the first failure aborts. *)
Fixpoint map_outcome {A B : Type} (f : A -> outcome B) (l : list A) : outcome (list B) :=
  match l with
  | [] => Ret []
  | x :: l' =>
      let* y := f x in
      let* ys := map_outcome f l' in
      Ret (y :: ys)
  end.

(** [[x for x in l if p x]] with a fallible test. *)
Fixpoint filter_outcome {A : Type} (p : A -> outcome bool) (l : list A) : outcome (list A) :=
  match l with
  | [] => Ret []
  | x :: l' =>
      let* b := p x in
      let* ys := filter_outcome p l' in
      Ret (if b then x :: ys else ys)
  end.

(** ** Python strings *)

(** [str.isspace] on the code points below 256: tab to carriage return,
    the four separators 28 to 31, space, NEL and the no-break space. *)
Definition isspace (c : ascii) : bool :=
  let n := Z.of_N (N_of_ascii c) in
  ((9 <=? n) && (n <=? 13)) || ((28 <=? n) && (n <=? 32)) || (n =? 133) || (n =? 160).

Fixpoint lstrip (s : string) : string :=
  match s with
  | EmptyString => EmptyString
  | String c s' => if isspace c then lstrip s' else s
  end.

Fixpoint rstrip (s : string) : string :=
  match s with
  | EmptyString => EmptyString
  | String c s' =>
      match rstrip s' with
      | EmptyString => if isspace c then EmptyString else String c EmptyString
      | r => String c r
      end
  end.

(** [s.strip()] *)
Definition strip (s : string) : string := rstrip (lstrip s).

(** [s.startswith(p)] *)
Fixpoint startswith (s p : string) {struct p} : bool :=
  match p with
  | EmptyString => true
  | String a p' =>
      match s with
      | EmptyString => false
      | String b s' => Ascii.eqb a b && startswith s' p'
      end
  end.

(** [s[n:]] *)
Fixpoint slice_from (n : nat) (s : string) : string :=
  match n, s with
  | O, _ => s
  | S n', String _ s' => slice_from n' s'
  | S _, EmptyString => EmptyString
  end.

(** [s[:n]] *)
Fixpoint slice_to (n : nat) (s : string) : string :=
  match n, s with
  | S n', String c s' => String c (slice_to n' s')
  | _, _ => EmptyString
  end.

(** [s.split(sep)] for a non-empty separator: the pieces between the
    leftmost non-overlapping occurrences of [sep]. [skip] counts the
    characters of a separator that are still to be passed over. *)
Fixpoint split_from (sep : string) (skip : nat) (s : string) {struct s} : list string :=
  match s with
  | EmptyString => [EmptyString]
  | String c s' =>
      match skip with
      | S k => split_from sep k s'
      | O =>
          if startswith s sep
          then EmptyString :: split_from sep (String.length sep - 1) s'
          else match split_from sep O s' with
               | piece :: rest => String c piece :: rest
               | [] => [String c EmptyString]
               end
      end
  end.

Definition split (s sep : string) : list string := split_from sep O s.

(** [l[i]] on a list of strings. *)
Definition index (l : list string) (i : nat) : outcome string :=
  match nth_error l i with
  | Some s => Ret s
  | None => Raise IndexError
  end.

(** [sep.join(l)] on strings. *)
Fixpoint join (sep : string) (l : list string) : string :=
  match l with
  | [] => ""
  | [s] => s
  | s :: l' => s +:+ sep +:+ join sep l'
  end.

Fixpoint chars (s : string) : list string :=
  match s with
  | EmptyString => []
  | String c s' => String c EmptyString :: chars s'
  end.

(** The argument of [sep.join(v)] must be an iterable of strings: a list
    of strings, a string (its characters), or a dict (its keys). *)
Definition strs_of_iterable (v : value) : outcome (list string) :=
  match v with
  | VList l => map_outcome (fun x => match x with VStr s => Ret s | _ => Raise TypeError end) l
  | VStr s => Ret (chars s)
  | VDict d => Ret (map fst (map_to_list d))
  | _ => Raise TypeError
  end.

(** [s] occurs in [t] as a substring. *)
Fixpoint occurs (s t : string) : bool :=
  startswith t s ||
  match t with
  | EmptyString => false
  | String _ t' => occurs s t'
  end.

(** ** Text assembled by f-strings *)

(** One interpolated hole of a template. *)
Inductive fragment :=
| FStr (v : value)          (* [{v}]: the text [str(v)] *)
| FThousands (v : value)    (* [{v:,}]: a number with thousands separators *)
| FTitle (s : string)       (* [{s.title()}] *)
| FUpper (s : string)       (* [{s.upper()}] *)
| FText (s : string)        (* a string computed by the program *)
| FNested (l : list fragment). (* the text returned by a helper *)

(** [{v:,}] accepts numbers only. *)
Definition format_thousands (v : value) : outcome fragment :=
  match v with
  | VBool _ | VInt _ | VFloat _ => Ret (FThousands v)
  | VStr _ => Raise ValueError
  | _ => Raise TypeError
  end.

(** [{v.title()}] needs a string. *)
Definition str_title (v : value) : outcome fragment :=
  match v with
  | VStr s => Ret (FTitle s)
  | _ => Raise AttributeError
  end.

(** ** The external collaborators *)

Inductive stage :=
| PriorityStage
| RoutingStage
| GuardianStage
| OpportunityStage
| DraftStage.

(** A request to the text-completion service. *)
Record prompt := {
  prompt_stage : stage;
  prompt_holes : list fragment;
  max_tokens : Z
}.

(** A message handed to the mail client. *)
Record mail := {
  from_email : string;
  to_emails : string;
  subject : list fragment;
  html_content : list fragment
}.

Definition default_team : string := "Integrations & API Team".

Definition valid_priorities : list string := ["P0"; "P1"; "P2"; "P3"].

Section Pipeline.

(** [client.messages.create(...).content[0].text]: the text of the
    completion, or whatever exception the call or the access raises. *)
Variable messages_create : prompt -> outcome string.

(** [json.loads]: the parsed object, [JSONDecodeError] with its
    description, or another exception. *)
Variable json_loads : string -> outcome value.

(** [os.environ] *)
Variable environ : gmap string string.

(** [sendgrid_client.send(Mail(...)).status_code] *)
Variable sendgrid_send : mail -> outcome Z.

(** A knowledge-base file: [None] when it does not exist, otherwise the
    outcome of [json.load] on it. *)
Variable read_json_file : string -> option (outcome value).

(** *** triage_engine.py *)

Definition priority_prompt (subject description channel : value) : prompt :=
  {| prompt_stage := PriorityStage;
     prompt_holes := [FStr subject; FStr description; FStr channel];
     max_tokens := 10 |}.

Definition classify_priority (ticket : dict) : outcome value :=
  let* subject := getitem ticket "subject" in
  let* description := getitem ticket "description" in
  let* channel := getitem ticket "channel" in
  try_except
    (let* text := messages_create (priority_prompt subject description channel) in
     let priority := strip text in
     let priority :=
       if negb (existsb (String.eqb priority) valid_priorities)
       then "P2" else priority in
     Ret (VStr priority))
    (fun _ => Ret (dict_get ticket "actual_priority" (VStr "P2"))).

(** One line of [agent_descriptions]. *)
Definition agent_description (agent : value) : outcome fragment :=
  let* name := subscript agent "name" in
  let* description := subscript agent "description" in
  let* specialties := subscript agent "specialties" in
  let* strs := strs_of_iterable specialties in
  Ret (FNested [FStr name; FStr description; FText (join ", " strs)]).

Definition routing_prompt (subject description : value)
    (agent_descriptions : list fragment) : prompt :=
  {| prompt_stage := RoutingStage;
     prompt_holes := [FStr subject; FStr description; FNested agent_descriptions];
     max_tokens := 10 |}.

Definition route_to_agent (ticket : dict) (agents : list value) : outcome string :=
  let* agent_descriptions := map_outcome agent_description agents in
  let* subject := getitem ticket "subject" in
  let* description := getitem ticket "description" in
  try_except
    (let* text :=
       messages_create (routing_prompt subject description agent_descriptions) in
     let agent_name := strip text in
     let* valid_agents := map_outcome (fun agent => subscript agent "name") agents in
     Ret (if negb (str_in agent_name valid_agents) then default_team else agent_name))
    (fun _ => Ret default_team).

(** *** The markdown-fence removal shared by guardian.py and opportunity.py *)

(** From [if result_text.startswith(FENCE)] to the second [strip()]. *)
Definition remove_code_fence (result_text : string) : outcome string :=
  let* result_text :=
    if startswith result_text "```" then
      let* inner := index (split result_text "```") 1 in
      Ret (if startswith inner "json" then slice_from 4 inner else inner)
    else Ret result_text in
  Ret (strip result_text).

(** *** guardian.py *)

Definition guardian_parse_fallback (msg : string) : dict :=
  <["risk_score" := VInt 5]>
  (<["is_high_risk" := VBool false]>
  (<["sentiment" := VStr "neutral"]>
  (<["evidence" := VStr ""]>
  (<["reasoning" := VStr ("JSON parse error: " +:+ msg)]> ∅)))).

Definition guardian_failure_fallback : dict :=
  <["risk_score" := VInt 0]>
  (<["is_high_risk" := VBool false]>
  (<["sentiment" := VStr "neutral"]>
  (<["evidence" := VStr ""]>
  (<["reasoning" := VStr "Analysis failed"]> ∅)))).

Definition guardian_prompt (ticket_text customer_mrr ticket_priority : value) : prompt :=
  {| prompt_stage := GuardianStage;
     prompt_holes := [FStr ticket_text; FStr customer_mrr; FStr ticket_priority];
     max_tokens := 300 |}.

(** The body of the outer [try] of [analyze_churn_risk]. *)
Definition analyze_churn_risk_try (ticket_text customer_mrr ticket_priority : value)
  : outcome dict :=
  let* text := messages_create (guardian_prompt ticket_text customer_mrr ticket_priority) in
  let result_text := strip text in
  let* result_text := remove_code_fence result_text in
  match json_loads result_text with
  | Raise (JSONDecodeError msg) => Ret (guardian_parse_fallback msg)
  | Raise e => Raise e
  | Ret result =>
      let* risk_score := method_get result "risk_score" (VInt 0) in
      let* high := py_ge_int risk_score 7 in
      setitem result "is_high_risk" (VBool high)
  end.

Definition analyze_churn_risk (ticket_text customer_mrr ticket_priority : value) : dict :=
  match analyze_churn_risk_try ticket_text customer_mrr ticket_priority with
  | Ret result => result
  | Raise _ => guardian_failure_fallback
  end.

(** [os.environ.get(name)] followed by [if not address]. *)
Definition recipient (name : string) : option string :=
  match environ !! name with
  | Some address => if String.eqb address "" then None else Some address
  | None => None
  end.

(** The [try] block around the delivery, common to both alerts. *)
Definition deliver (message : mail) : outcome bool :=
  try_except
    (let* status_code := sendgrid_send message in
     Ret ((status_code =? 200) || (status_code =? 202)))
    (fun _ => Ret false).

Definition send_guardian_alert (ticket guardian_result : dict) : outcome bool :=
  match recipient "GUARDIAN_EMAIL" with
  | None => Ret false
  | Some kam_email =>
      let* ticket_id := getitem ticket "ticket_id" in
      let subject := [FStr ticket_id] in
      let* ticket_id := getitem ticket "ticket_id" in
      let* customer_name := getitem ticket "customer_name" in
      let* mrr := getitem ticket "mrr" in
      let* mrr := format_thousands mrr in
      let* risk_score := getitem guardian_result "risk_score" in
      let* sentiment := getitem guardian_result "sentiment" in
      let* sentiment := str_title sentiment in
      let* evidence := getitem guardian_result "evidence" in
      let* reasoning := getitem guardian_result "reasoning" in
      let* ticket_subject := getitem ticket "subject" in
      let* description := getitem ticket "description" in
      let html_content :=
        [FStr ticket_id; FStr customer_name; mrr; FStr risk_score; sentiment;
         FStr evidence; FStr reasoning; FStr ticket_subject; FStr description] in
      deliver {| from_email := kam_email; to_emails := kam_email;
                 subject := subject; html_content := html_content |}
  end.

(** *** opportunity.py *)

Definition opportunity_parse_fallback (msg : string) : dict :=
  <["has_business_intent" := VBool false]>
  (<["intent_type" := VNone]>
  (<["confidence" := VInt 0]>
  (<["evidence" := VStr ""]>
  (<["reasoning" := VStr ("JSON parse error: " +:+ msg)]> ∅)))).

Definition opportunity_failure_fallback : dict :=
  <["has_business_intent" := VBool false]>
  (<["intent_type" := VNone]>
  (<["confidence" := VInt 0]>
  (<["evidence" := VStr ""]>
  (<["reasoning" := VStr "Analysis failed"]> ∅)))).

Definition opportunity_prompt (ticket_text : value) : prompt :=
  {| prompt_stage := OpportunityStage;
     prompt_holes := [FStr ticket_text];
     max_tokens := 300 |}.

(** The body of the outer [try] of [detect_business_intent]. *)
Definition detect_business_intent_try (ticket_text : value) : outcome dict :=
  let* text := messages_create (opportunity_prompt ticket_text) in
  let result_text := strip text in
  let* result_text := remove_code_fence result_text in
  match json_loads result_text with
  | Raise (JSONDecodeError msg) => Ret (opportunity_parse_fallback msg)
  | Raise e => Raise e
  | Ret result =>
      let* confidence := method_get result "confidence" (VInt 0) in
      let* intent := py_ge_int confidence 6 in
      setitem result "has_business_intent" (VBool intent)
  end.

Definition detect_business_intent (ticket_text : value) : dict :=
  match detect_business_intent_try ticket_text with
  | Ret result => result
  | Raise _ => opportunity_failure_fallback
  end.

Definition intent_type_display : list (string * string) :=
  [("pricing_request", "Pricing Inquiry");
   ("upgrade", "Upgrade Interest");
   ("expansion", "Capacity Expansion");
   ("custom_service", "Custom Service Request")].

Definition approaches : list (string * string) :=
  [("pricing_request",
    "Provide detailed pricing breakdown, highlight ROI and value proposition");
   ("upgrade",
    "Showcase enterprise features, offer demo of advanced capabilities, discuss migration path");
   ("expansion",
    "Present volume discount options, discuss scalability roadmap, flexible payment terms");
   ("custom_service",
    "Schedule technical consultation, gather detailed requirements, prepare custom proposal")].

Definition get_approach_recommendation (intent_type : value) : outcome string :=
  table_get approaches intent_type
    "Understand specific needs and provide tailored solution".

Definition send_opportunity_alert (ticket opportunity_result : dict) : outcome bool :=
  match recipient "OPPORTUNITY_EMAIL" with
  | None => Ret false
  | Some sales_email =>
      let* intent_display :=
        table_get intent_type_display
          (dict_get opportunity_result "intent_type" VNone) "Business Inquiry" in
      let* ticket_id := getitem ticket "ticket_id" in
      let subject := [FText intent_display; FStr ticket_id] in
      let* ticket_id := getitem ticket "ticket_id" in
      let* customer_name := getitem ticket "customer_name" in
      let* mrr := getitem ticket "mrr" in
      let* mrr := format_thousands mrr in
      let* confidence := getitem opportunity_result "confidence" in
      let* evidence := getitem opportunity_result "evidence" in
      let* ticket_subject := getitem ticket "subject" in
      let* description := getitem ticket "description" in
      let* reasoning := getitem opportunity_result "reasoning" in
      let* approach :=
        get_approach_recommendation (dict_get opportunity_result "intent_type" VNone) in
      let html_content :=
        [FStr ticket_id; FStr customer_name; mrr; FText intent_display;
         FStr confidence; FStr evidence; FStr ticket_subject; FStr description;
         FStr reasoning; FText approach] in
      deliver {| from_email := sales_email; to_emails := sales_email;
                 subject := subject; html_content := html_content |}
  end.

(** *** response_generator.py *)

(** One FAQ file of [load_knowledge_base]: skipped when absent. *)
Definition load_faq (category file : string) : outcome (list (string * value)) :=
  match read_json_file file with
  | Some loaded => let* articles := loaded in Ret [(category, articles)]
  | None => Ret []
  end.

Definition load_knowledge_base : outcome (list (string * value)) :=
  let* shopify := load_faq "shopify" "shopify_faq.json" in
  let* payments := load_faq "payments" "payments_faq.json" in
  Ret (shopify ++ payments)%list.

(** [articles.items()] *)
Definition items (v : value) : outcome (list (string * value)) :=
  match v with
  | VDict d => Ret (map_to_list d)
  | _ => Raise AttributeError
  end.

(** The lines that one category adds to [kb_context]. *)
Definition category_context (entry : string * value) : outcome fragment :=
  let* articles := items (snd entry) in
  let* questions :=
    map_outcome (fun kv => let* q := subscript (snd kv) "question" in Ret (FStr q))
      articles in
  Ret (FNested (FUpper (fst entry) :: questions)).

Definition draft_prompt (subject description customer_name : value)
    (assigned_agent : string) (kb_context : list fragment) : prompt :=
  {| prompt_stage := DraftStage;
     prompt_holes := [FStr subject; FStr description; FStr customer_name;
                      FText assigned_agent; FNested kb_context];
     max_tokens := 600 |}.

Definition generate_draft_response (ticket : dict) (assigned_agent : string)
  : outcome value :=
  let* kb := load_knowledge_base in
  let* kb_context := map_outcome category_context kb in
  let* subject := getitem ticket "subject" in
  let* description := getitem ticket "description" in
  let* customer_name := getitem ticket "customer_name" in
  try_except
    (let* text :=
       messages_create
         (draft_prompt subject description customer_name assigned_agent kb_context) in
     let draft := strip text in
     Ret (VStr draft))
    (fun _ => Ret VNone).

(** *** main.py *)

(** Steps 1 to 4 of [process_ticket]: the priority, the team, and the
    result record as it stands before the draft step. *)
Definition process_ticket_steps_1_to_4 (ticket : dict) (agents : list value)
  : outcome (value * string * dict) :=
  let* ticket_id := getitem ticket "ticket_id" in
  let* _ := getitem ticket "subject" in
  let* customer_name := getitem ticket "customer_name" in
  let* subject := getitem ticket "subject" in
  let* description := getitem ticket "description" in
  let* channel := getitem ticket "channel" in
  let* mrr := getitem ticket "mrr" in
  let* timestamp := getitem ticket "timestamp" in
  let result : dict :=
    <["timestamp" := timestamp]>
    (<["mrr" := mrr]>
    (<["channel" := channel]>
    (<["description" := description]>
    (<["subject" := subject]>
    (<["customer_name" := customer_name]>
    (<["ticket_id" := ticket_id]> ∅)))))) in
  (* Step 1: classify priority *)
  let* priority := classify_priority ticket in
  let result := <["assigned_priority" := priority]> result in
  (* Step 2: route to agent *)
  let* assigned_agent := route_to_agent ticket agents in
  let result := <["assigned_agent" := VStr assigned_agent]> result in
  (* Step 3: guardian check *)
  let* ticket_text := getitem ticket "description" in
  let* customer_mrr := getitem ticket "mrr" in
  let guardian_result := analyze_churn_risk ticket_text customer_mrr priority in
  let result := <["guardian" := VDict guardian_result]> result in
  let* is_high_risk := getitem guardian_result "is_high_risk" in
  let* result :=
    if truthy is_high_risk then
      let* _ := getitem guardian_result "risk_score" in
      let* email_sent := send_guardian_alert ticket guardian_result in
      (* [result['guardian']] is the object [guardian_result] itself *)
      Ret (<["guardian" := VDict (<["email_sent" := VBool email_sent]> guardian_result)]>
             result)
    else Ret result in
  (* Step 4: opportunity check *)
  let* ticket_text := getitem ticket "description" in
  let opportunity_result := detect_business_intent ticket_text in
  let result := <["opportunity" := VDict opportunity_result]> result in
  let* has_business_intent := getitem opportunity_result "has_business_intent" in
  let* result :=
    if truthy has_business_intent then
      let* _ := getitem opportunity_result "intent_type" in
      let* email_sent := send_opportunity_alert ticket opportunity_result in
      Ret (<["opportunity" :=
               VDict (<["email_sent" := VBool email_sent]> opportunity_result)]> result)
    else Ret result in
  Ret (priority, assigned_agent, result).

(** Step 5 follows: the draft, for P2 and P3 only. *)
Definition process_ticket (ticket : dict) (agents : list value) : outcome dict :=
  let* steps := process_ticket_steps_1_to_4 ticket agents in
  match steps with
  | (priority, assigned_agent, result) =>
      if value_in_strs priority ["P2"; "P3"] then
        let* draft := generate_draft_response ticket assigned_agent in
        Ret (<["draft_response" := draft]> result)
      else Ret result
  end.

End Pipeline.

(** ** Summaries: [generate_metrics] of main.py and report_builder.py *)

(** [s.lower()] on the code points below 256. *)
Definition lower_char (c : ascii) : ascii :=
  let n := Z.of_N (N_of_ascii c) in
  if ((65 <=? n) && (n <=? 90)) || ((192 <=? n) && (n <=? 214)) || ((216 <=? n) && (n <=? 222))
  then ascii_of_N (Z.to_N (n + 32)) else c.

Fixpoint lower (s : string) : string :=
  match s with
  | EmptyString => EmptyString
  | String c s' => String (lower_char c) (lower s')
  end.

(** [v.lower()] needs a string. *)
Definition method_lower (v : value) : outcome string :=
  match v with
  | VStr s => Ret (lower s)
  | _ => Raise AttributeError
  end.

(** [s.replace('_', ' ')] *)
Fixpoint replace_underscores (s : string) : string :=
  match s with
  | EmptyString => EmptyString
  | String c s' =>
      String (if Ascii.eqb c "_" then " "%char else c) (replace_underscores s')
  end.

(** [v.replace('_', ' ').title()] needs a string. *)
Definition replace_title (v : value) : outcome fragment :=
  match v with
  | VStr s => Ret (FTitle (replace_underscores s))
  | _ => Raise AttributeError
  end.

(** [v[:n]] *)
Definition slice_value (v : value) (n : nat) : outcome value :=
  match v with
  | VStr s => Ret (VStr (slice_to n s))
  | VList l => Ret (VList (firstn n l))
  | _ => Raise TypeError
  end.

(** [r[outer][inner]] *)
Definition getitem2 (r : dict) (outer inner : string) : outcome value :=
  let* o := getitem r outer in
  subscript o inner.

(** [r[outer].get(inner, dflt)] *)
Definition getitem_get (r : dict) (outer inner : string) (dflt : value) : outcome value :=
  let* o := getitem r outer in
  method_get o inner dflt.

(** A file written by the run. *)
Inductive document :=
| JsonDoc (v : value)
| HtmlDoc (html : list fragment).

Definition team_mapping : list (string * string) :=
  [("Integrations & API Team", "integrations-api-team");
   ("Data & Analytics Team", "data-analytics-team");
   ("Compliance & Operations Team", "compliance-operations-team")].

Definition priority_colors : list (string * string) :=
  [("P0", "bg-red-100 text-red-800");
   ("P1", "bg-orange-100 text-orange-800");
   ("P2", "bg-blue-100 text-blue-800");
   ("P3", "bg-green-100 text-green-800")].

Definition priority_labels : list (string * string) :=
  [("P0", "P0 - Critical");
   ("P1", "P1 - High");
   ("P2", "P2 - Medium");
   ("P3", "P3 - Low")].

Section Report.

(** The text of [f"{a/b*100:.Nf}"] for [b <> 0]: float division and
    formatting are left to the platform. *)
Variable format_percent : nat -> nat -> nat -> string.

(** [datetime.now().strftime(...)] *)
Variable now : string.

(** [f"{a/total*100:.Nf}"] *)
Definition percent (digits a total : nat) : outcome string :=
  if Nat.eqb total 0 then Raise ZeroDivisionError
  else Ret (format_percent digits a total).

Definition is_guardian_alert (r : dict) : outcome bool :=
  let* v := getitem_get r "guardian" "is_high_risk" (VBool false) in
  Ret (truthy v).

Definition is_opportunity_alert (r : dict) : outcome bool :=
  let* v := getitem_get r "opportunity" "has_business_intent" (VBool false) in
  Ret (truthy v).

(** [r.get('draft_response') is not None] *)
Definition has_draft (r : dict) : bool :=
  match dict_get r "draft_response" VNone with
  | VNone => false
  | _ => true
  end.

(** *** main.py: generate_metrics *)

Definition generate_metrics (results : list dict) : outcome dict :=
  let total := length results in
  let* guardian_alerts := filter_outcome is_guardian_alert results in
  let guardian_alerts := length guardian_alerts in
  let* opportunity_alerts := filter_outcome is_opportunity_alert results in
  let opportunity_alerts := length opportunity_alerts in
  let auto_resolved := length (filter has_draft results) in
  let* rate := percent 1 auto_resolved total in
  Ret (<["total_tickets" := VInt (Z.of_nat total)]>
      (<["guardian_alerts" := VInt (Z.of_nat guardian_alerts)]>
      (<["opportunity_alerts" := VInt (Z.of_nat opportunity_alerts)]>
      (<["auto_resolved" := VInt (Z.of_nat auto_resolved)]>
      (<["auto_resolved_rate" := VStr (rate +:+ "%")]> ∅))))).

(** *** report_builder.py *)

Definition zendesk_call (ticket : dict) : outcome value :=
  let solve := truthy (dict_get ticket "draft_response" VNone) in
  let action := if solve then "solve" else "assign" in
  let* assigned_agent := getitem ticket "assigned_agent" in
  let* assigned_team := table_get team_mapping assigned_agent "integrations-api-team" in
  let* ticket_id := getitem ticket "ticket_id" in
  let* assigned_priority := getitem ticket "assigned_priority" in
  let* priority := method_lower assigned_priority in
  let* assigned_priority := getitem ticket "assigned_priority" in
  let* priority_tag := method_lower assigned_priority in
  let tags := [VStr assigned_team; VStr priority_tag] in
  let custom_fields : list value := [] in
  let* high := getitem_get ticket "guardian" "is_high_risk" VNone in
  let* extended :=
    if truthy high then
      let* risk_score := getitem2 ticket "guardian" "risk_score" in
      Ret ((tags ++ [VStr "churn-risk"])%list,
           (custom_fields ++
            [VDict (<["id" := VInt 360001]> (<["value" := risk_score]> ∅))])%list)
    else Ret (tags, custom_fields) in
  let tags := fst extended in
  let custom_fields := snd extended in
  let* intent := getitem_get ticket "opportunity" "has_business_intent" VNone in
  let* extended :=
    if truthy intent then
      let* intent_type := getitem2 ticket "opportunity" "intent_type" in
      Ret ((tags ++ [VStr "upsell-opportunity"])%list,
           (custom_fields ++
            [VDict (<["id" := VInt 360002]> (<["value" := intent_type]> ∅))])%list)
    else Ret (tags, custom_fields) in
  let tags := fst extended in
  let custom_fields := snd extended in
  let ticket_payload : dict :=
    <["id" := ticket_id]>
    (<["status" := VStr (if solve then "solved" else "open")]>
    (<["priority" := VStr priority]>
    (<["assignee" := VStr assigned_team]>
    (<["tags" := VList tags]>
    (<["custom_fields" := VList custom_fields]> ∅))))) in
  let* ticket_payload :=
    if solve then
      let* body := getitem ticket "draft_response" in
      Ret (<["comment" :=
               VDict (<["body" := body]> (<["public" := VBool true]> ∅))]> ticket_payload)
    else Ret ticket_payload in
  let* ticket_id := getitem ticket "ticket_id" in
  let* endpoint_id := getitem ticket "ticket_id" in
  Ret (VDict
    (<["ticket_id" := ticket_id]>
    (<["action" := VStr action]>
    (<["api_endpoint" := VList [VStr "PUT /api/v2/tickets/"; endpoint_id; VStr ".json"]]>
    (<["api_payload" := VDict (<["ticket" := VDict ticket_payload]> ∅)]> ∅))))).

Definition generate_zendesk_api_calls (results : list dict) : outcome (list value) :=
  map_outcome zendesk_call results.

Definition guardian_card (ticket : dict) : outcome fragment :=
  let* ticket_id := getitem ticket "ticket_id" in
  let* customer_name := getitem ticket "customer_name" in
  let* mrr := getitem ticket "mrr" in
  let* mrr := format_thousands mrr in
  let* risk_score := getitem2 ticket "guardian" "risk_score" in
  let* evidence := getitem2 ticket "guardian" "evidence" in
  Ret (FNested [FStr ticket_id; FStr customer_name; mrr; FStr risk_score; FStr evidence]).

Definition generate_guardian_section (alerts : list dict) : outcome fragment :=
  match alerts with
  | [] => Ret (FNested [])
  | _ => let* cards := map_outcome guardian_card alerts in Ret (FNested cards)
  end.

Definition opportunity_card (ticket : dict) : outcome fragment :=
  let* intent_type := getitem2 ticket "opportunity" "intent_type" in
  let* intent_display := replace_title intent_type in
  let* ticket_id := getitem ticket "ticket_id" in
  let* customer_name := getitem ticket "customer_name" in
  let* mrr := getitem ticket "mrr" in
  let* mrr := format_thousands mrr in
  let* confidence := getitem2 ticket "opportunity" "confidence" in
  let* evidence := getitem2 ticket "opportunity" "evidence" in
  Ret (FNested [FStr ticket_id; FStr customer_name; mrr; intent_display;
                FStr confidence; FStr evidence]).

Definition generate_opportunity_section (alerts : list dict) : outcome fragment :=
  match alerts with
  | [] => Ret (FNested [])
  | _ => let* cards := map_outcome opportunity_card alerts in Ret (FNested cards)
  end.

Definition ticket_row (ticket : dict) : outcome fragment :=
  let* assigned_priority := getitem ticket "assigned_priority" in
  let* priority_color :=
    table_get priority_colors assigned_priority "bg-gray-100 text-gray-800" in
  let* assigned_priority := getitem ticket "assigned_priority" in
  let* fallback_label := getitem ticket "assigned_priority" in
  let* found := table_lookup priority_labels assigned_priority in
  let priority_label :=
    match found with
    | Some label => FText label
    | None => FStr fallback_label
    end in
  let draft_status :=
    if truthy (dict_get ticket "draft_response" VNone)
    then "Auto-resolved" else "Routed to team" in
  let* ticket_id := getitem ticket "ticket_id" in
  let* customer_name := getitem ticket "customer_name" in
  let* subject := getitem ticket "subject" in
  let* subject := slice_value subject 50 in
  let* assigned_agent := getitem ticket "assigned_agent" in
  let* button_id := getitem ticket "ticket_id" in
  let* details_id := getitem ticket "ticket_id" in
  let* description := getitem ticket "description" in
  let* draft :=
    if truthy (dict_get ticket "draft_response" VNone) then
      let* draft_response := getitem ticket "draft_response" in
      Ret (FNested [FStr draft_response])
    else Ret (FText "") in
  Ret (FNested [FStr ticket_id; FStr customer_name; FStr subject; FText priority_color;
                priority_label; FStr assigned_agent; FText draft_status;
                FStr button_id; FStr details_id; FStr description; draft]).

Definition generate_tickets_section (results : list dict) : outcome fragment :=
  let* rows := map_outcome ticket_row results in
  Ret (FNested rows).

Definition api_example (call : value) : outcome fragment :=
  let* ticket_id := subscript call "ticket_id" in
  let* action := subscript call "action" in
  let* api_payload := subscript call "api_payload" in
  Ret (FNested [FStr ticket_id; FStr action; FStr api_payload]).

Definition generate_api_preview_section (sample_calls : list value) : outcome fragment :=
  let* examples := map_outcome api_example sample_calls in
  Ret (FNested examples).

Definition guardian_log_entry (r : dict) : outcome value :=
  let* ticket_id := getitem r "ticket_id" in
  let* customer := getitem r "customer_name" in
  let* risk_score := getitem2 r "guardian" "risk_score" in
  let* evidence := getitem2 r "guardian" "evidence" in
  let* email_sent := getitem_get r "guardian" "email_sent" (VBool false) in
  Ret (VDict
    (<["ticket_id" := ticket_id]>
    (<["customer" := customer]>
    (<["risk_score" := risk_score]>
    (<["evidence" := evidence]>
    (<["email_sent" := email_sent]> ∅)))))).

Definition opportunity_log_entry (r : dict) : outcome value :=
  let* ticket_id := getitem r "ticket_id" in
  let* customer := getitem r "customer_name" in
  let* intent_type := getitem2 r "opportunity" "intent_type" in
  let* confidence := getitem2 r "opportunity" "confidence" in
  let* evidence := getitem2 r "opportunity" "evidence" in
  let* email_sent := getitem_get r "opportunity" "email_sent" (VBool false) in
  Ret (VDict
    (<["ticket_id" := ticket_id]>
    (<["customer" := customer]>
    (<["intent_type" := intent_type]>
    (<["confidence" := confidence]>
    (<["evidence" := evidence]>
    (<["email_sent" := email_sent]> ∅))))))).

(** The f-string that builds the page, evaluated hole by hole. *)
Definition dashboard_html (results guardian_alerts opportunity_alerts auto_resolved : list dict)
    (zendesk_calls : list value) : outcome (list fragment) :=
  let total := length results in
  let* auto_share := percent 0 (length auto_resolved) total in
  let* guardian_share := percent 0 (length guardian_alerts) total in
  let* opportunity_share := percent 0 (length opportunity_alerts) total in
  let* guardian_section := generate_guardian_section guardian_alerts in
  let* opportunity_section := generate_opportunity_section opportunity_alerts in
  let* tickets_section := generate_tickets_section results in
  let* api_preview := generate_api_preview_section (firstn 3 zendesk_calls) in
  Ret [FText now;
       FStr (VInt (Z.of_nat total));
       FStr (VInt (Z.of_nat (length auto_resolved)));
       FText auto_share;
       FStr (VInt (Z.of_nat (length guardian_alerts)));
       FText guardian_share;
       FStr (VInt (Z.of_nat (length opportunity_alerts)));
       FText opportunity_share;
       guardian_section; opportunity_section; tickets_section; api_preview].

(** The function returns the files it has written, in order, and the
    path of the report or the exception that stopped it. Writing to the
    output directory is assumed to succeed. *)
Definition generate_html_dashboard (results : list dict) (agents : list value)
  : list (string * document) * outcome string :=
  let metrics :=
    let* guardian_alerts := filter_outcome is_guardian_alert results in
    let* opportunity_alerts := filter_outcome is_opportunity_alert results in
    let auto_resolved :=
      filter (fun r => truthy (dict_get r "draft_response" VNone)) results in
    let* zendesk_calls := generate_zendesk_api_calls results in
    Ret (guardian_alerts, opportunity_alerts, auto_resolved, zendesk_calls) in
  match metrics with
  | Raise e => ([], Raise e)
  | Ret (guardian_alerts, opportunity_alerts, auto_resolved, zendesk_calls) =>
      let written := [("zendesk_api_calls.json", JsonDoc (VList zendesk_calls))] in
      match map_outcome guardian_log_entry guardian_alerts with
      | Raise e => (written, Raise e)
      | Ret guardian_log =>
          let written :=
            (written ++ [("guardian_alerts_log.json", JsonDoc (VList guardian_log))])%list in
          match map_outcome opportunity_log_entry opportunity_alerts with
          | Raise e => (written, Raise e)
          | Ret opportunity_log =>
              let written :=
                (written ++
                 [("opportunity_alerts_log.json", JsonDoc (VList opportunity_log))])%list in
              match dashboard_html results guardian_alerts opportunity_alerts
                      auto_resolved zendesk_calls with
              | Raise e => (written, Raise e)
              | Ret html =>
                  ((written ++ [("triage_report.html", HtmlDoc html)])%list,
                   Ret "triage_report.html")
              end
          end
      end
  end.

End Report.

(** ** The orchestrator: [main] of main.py *)

Section Orchestrator.

Variable messages_create : prompt -> outcome string.
Variable json_loads : string -> outcome value.
Variable environ : gmap string string.
Variable sendgrid_send : mail -> outcome Z.
Variable read_json_file : string -> option (outcome value).
Variable format_percent : nat -> nat -> nat -> string.
Variable now : string.

(** [load_tickets(...)] followed by [iterrows()]: the rows of the CSV file,
    or the exception of [pd.read_csv]. *)
Variable load_tickets : outcome (list dict).

(** [load_agents()]: the configuration list, or the exception of the read. *)
Variable load_agents : outcome (list value).

(** The loop over the rows: the first failing ticket aborts it. *)
Definition process_all (tickets : list dict) (agents : list value) : outcome (list dict) :=
  map_outcome
    (fun ticket =>
       process_ticket messages_create json_loads environ sendgrid_send read_json_file
         ticket agents)
    tickets.

(** [main] returns the files written, in order, and [tt] or the exception
    that ended the run. Creating the output directory and writing to it are
    assumed to succeed. *)
Definition main : list (string * document) * outcome unit :=
  match load_tickets with
  | Raise e => ([], Raise e)
  | Ret tickets_df =>
      match load_agents with
      | Raise e => ([], Raise e)
      | Ret agents =>
          match process_all tickets_df agents with
          | Raise e => ([], Raise e)
          | Ret results =>
              match generate_html_dashboard format_percent now results agents with
              | (written, Raise e) => (written, Raise e)
              | (written, Ret html_path) =>
                  let written :=
                    (written ++
                     [("triage_results.json", JsonDoc (VList (map VDict results)))])%list in
                  match generate_metrics format_percent results with
                  | Raise e => (written, Raise e)
                  | Ret metrics =>
                      ((written ++ [("metrics_summary.json", JsonDoc (VDict metrics))])%list,
                       Ret tt)
                  end
              end
          end
      end
  end.

End Orchestrator.

(** * Notions used in the statements, and sample inputs *)

(** The columns that [process_ticket] copies from the row. *)
Definition ticket_columns : list string :=
  ["ticket_id"; "customer_name"; "subject"; "description"; "channel"; "mrr"; "timestamp"].

(** The keys that [process_ticket] adds to the record. *)
Definition stage_keys : list string :=
  ["assigned_priority"; "assigned_agent"; "guardian"; "opportunity"; "draft_response"].

(** The three queues of the ticket system. *)
Definition queue_ids : list string :=
  ["integrations-api-team"; "data-analytics-team"; "compliance-operations-team"].

(** The four intent types that have a display name and a tailored approach. *)
Definition known_intents : list string :=
  ["pricing_request"; "upgrade"; "expansion"; "custom_service"].

(** [call['api_payload']['ticket']] of a ticket-system call. *)
Definition payload_ticket (call : value) : outcome value :=
  let* api_payload := subscript call "api_payload" in
  subscript api_payload "ticket".

Definition newline : string := String (ascii_of_nat 10) EmptyString.

Definition fence : string := "```".

(** A completion wrapped in a markdown code fence, with or without tag. *)
Definition fenced (tag j : string) : string :=
  fence +:+ tag +:+ newline +:+ j +:+ newline +:+ fence.

(** What [lstrip] returns is empty or starts with a character that is not
    white space. *)
Definition starts_solid (s : string) : Prop :=
  match s with
  | EmptyString => True
  | String c _ => isspace c = false
  end.

(** No occurrence of the separator starts inside [body] when [body] is
    followed by [rest]. *)
Fixpoint no_early_match (sep body rest : string) : Prop :=
  match body with
  | EmptyString => True
  | String _ body' =>
      startswith (body +:+ rest) sep = false /\ no_early_match sep body' rest
  end.

(** A stand-in for [json.loads] that knows one document. *)
Definition sample_loads (s : string) : outcome value :=
  if String.eqb s "{}" then Ret (VDict ∅)
  else Raise (JSONDecodeError "Expecting value: line 1 column 1 (char 0)").

(** What an analyzer makes of a parsed dict [d]: the dict with the entry
    [flag] set to the comparison of the entry [key] (0 when absent) with
    [threshold], or the record [failure] when that comparison raises. *)
Definition rescored (key flag : string) (threshold : Z) (failure d : dict) : dict :=
  match py_ge_int (dict_get d key (VInt 0)) threshold with
  | Ret b => <[flag := VBool b]> d
  | Raise _ => failure
  end.

(** [at_least n v]: the object [v] is a number and, as a number, it is at
    least the integer [n]. [True] and [False] count as 1 and 0, the finite
    float [FFin m e] is the rational [m * 2^e], positive infinity lies above
    every integer, and NaN and what is not a number are at least nothing. *)
Definition at_least (n : Z) (v : value) : Prop :=
  match v with
  | VBool b => n <= (if b then 1 else 0)
  | VInt z => n <= z
  | VFloat FNan => False
  | VFloat (FInf negative) => negative = false
  | VFloat (FFin m e) => (inject_Z n <= inject_Z m * 2 ^ e)%Q
  | _ => False
  end.

(** A Guardian document with the given score that claims the given flag. *)
Definition claimed_risk (score : value) (flag : bool) : dict :=
  <["risk_score" := score]> (<["is_high_risk" := VBool flag]> ∅).

(** An Opportunity document with the given confidence that claims the
    given flag. *)
Definition claimed_intent (confidence : value) (flag : bool) : dict :=
  <["confidence" := confidence]> (<["has_business_intent" := VBool flag]> ∅).

(** A parser stand-in whose document claims a high risk with a score of 3. *)
Definition inconsistent_risk : dict :=
  <["risk_score" := VInt 3]> (<["is_high_risk" := VBool true]> ∅).

(** A parser stand-in whose document claims an intent with confidence 2. *)
Definition inconsistent_intent : dict :=
  <["confidence" := VInt 2]> (<["has_business_intent" := VBool true]> ∅).

(** A ticket as the CSV loader delivers it, with a free-text priority. *)
Definition urgent_ticket : dict :=
  <["ticket_id" := VStr "T-1001"]>
  (<["customer_name" := VStr "Acme"]>
  (<["subject" := VStr "Checkout is down"]>
  (<["description" := VStr "Payments fail for every customer"]>
  (<["channel" := VStr "email"]>
  (<["mrr" := VInt 5000]>
  (<["timestamp" := VStr "2024-05-01 09:00:00"]>
  (<["actual_priority" := VStr "Urgent"]> ∅))))))).

(** The same ticket without the optional column. *)
Definition plain_ticket : dict := delete "actual_priority" urgent_ticket.

Definition sample_agents : list value :=
  [VDict (<["name" := VStr "Integrations & API Team"]>
         (<["description" := VStr "Connectors and webhooks"]>
         (<["specialties" := VList [VStr "shopify"; VStr "api"]]> ∅)));
   VDict (<["name" := VStr "Data & Analytics Team"]>
         (<["description" := VStr "Reports and exports"]>
         (<["specialties" := VList [VStr "dashboards"]]> ∅)))].

(** A service that is down. *)
Definition unreachable (_ : prompt) : outcome string := Raise (OtherError "connection refused").

(** A mail client that is down, and a knowledge base without files. *)
Definition mailer_down (_ : mail) : outcome Z := Raise (OtherError "mail service unavailable").

Definition no_files (_ : string) : option (outcome value) := None.

(** The names of the configured teams, [[agent['name'] for agent in agents]]. *)
Fixpoint agent_names (agents : list value) : list value :=
  match agents with
  | [] => []
  | VDict d :: agents' =>
      match d !! "name" with
      | Some name => name :: agent_names agents'
      | None => agent_names agents'
      end
  | _ :: agents' => agent_names agents'
  end.

(** [agents[0]['name']], the first team of the configuration. *)
Definition first_team (agents : list value) : option value :=
  match agents with
  | VDict d :: _ => d !! "name"
  | _ => None
  end.

(** The claim C7 as the specification words it: the router returns a
    configured name or the first team of the configuration. *)
Definition routes_to_configured_or_first
    (messages_create : prompt -> outcome string) (ticket : dict) (agents : list value) : Prop :=
  forall a,
    route_to_agent messages_create ticket agents = Ret a ->
    str_in a (agent_names agents) = true \/ first_team agents = Some (VStr a).

(** A configuration whose teams are not the three of the prompt. *)
Definition billing_agents : list value :=
  [VDict (<["name" := VStr "Billing Team"]>
         (<["description" := VStr "Invoices and refunds"]>
         (<["specialties" := VList [VStr "invoice"; VStr "refund"]]> ∅)));
   VDict (<["name" := VStr "Onboarding Team"]>
         (<["description" := VStr "First steps"]>
         (<["specialties" := VList [VStr "setup"]]> ∅)))].

(** A service that names a team nobody configured. *)
Definition off_list (_ : prompt) : outcome string := Ret "Sales Team".

(** A service that names a configured team, with white space around it. *)
Definition on_list (_ : prompt) : outcome string := Ret " Onboarding Team ".

(** A service that answers the four classification stages and fails on
    the draft. *)
Definition drafts_down (p : prompt) : outcome string :=
  match prompt_stage p with
  | PriorityStage => Ret "P3"
  | RoutingStage => Ret "Data & Analytics Team"
  | GuardianStage => Ret "{}"
  | OpportunityStage => Ret "{}"
  | DraftStage => Raise (OtherError "rate limited")
  end.

(** Both recipients configured, and a mail client that accepts. *)
Definition alerts_configured : gmap string string :=
  <["GUARDIAN_EMAIL" := "kam@example.com"]> (<["OPPORTUNITY_EMAIL" := "sales@example.com"]> ∅).

Definition accepted (_ : mail) : outcome Z := Ret 202.

(** What [analyze_churn_risk] returns for a completion that is the JSON
    object with the single member [risk_score] 9. *)
Definition score_only : dict :=
  <["is_high_risk" := VBool true]> (<["risk_score" := VInt 9]> ∅).

(** What [detect_business_intent] returns for a completion with the two
    members [confidence] 9 and [intent_type] upgrade. *)
Definition intent_only : dict :=
  <["has_business_intent" := VBool true]>
  (<["confidence" := VInt 9]> (<["intent_type" := VStr "upgrade"]> ∅)).

(** A parser stand-in for the two completions. *)
Definition partial_loads (s : string) : outcome value :=
  if String.eqb s "risk" then Ret (VDict (<["risk_score" := VInt 9]> ∅))
  else if String.eqb s "intent"
       then Ret (VDict (<["confidence" := VInt 9]> (<["intent_type" := VStr "upgrade"]> ∅)))
       else Raise (JSONDecodeError "Expecting value: line 1 column 1 (char 0)").

Definition risk_only_service (p : prompt) : outcome string :=
  match prompt_stage p with
  | GuardianStage => Ret "risk"
  | _ => Raise (OtherError "connection refused")
  end.

Definition intent_only_service (p : prompt) : outcome string :=
  match prompt_stage p with
  | OpportunityStage => Ret "intent"
  | _ => Raise (OtherError "connection refused")
  end.

(** A computation that does not fail by a division by zero. *)
Definition divides_safely {A : Type} (m : outcome A) : Prop := m <> Raise ZeroDivisionError.

(** One processed ticket, as the failure fallbacks leave it. *)
Definition quiet_result : dict :=
  <["ticket_id" := VStr "T-1001"]>
  (<["guardian" := VDict guardian_failure_fallback]>
  (<["opportunity" := VDict opportunity_failure_fallback]> ∅)).

(** An argument that [', '.join] accepts. *)
Definition joinable (v : value) : bool :=
  match v with
  | VList l => forallb (fun x => match x with VStr _ => true | _ => false end) l
  | VStr _ | VDict _ => true
  | _ => false
  end.

(** An entry of the agents configuration that the routing prompt can
    describe: a dict with a name, a description and joinable specialties. *)
Definition describable (agent : value) : bool :=
  match agent with
  | VDict d =>
      match d !! "name", d !! "description", d !! "specialties" with
      | Some _, Some _, Some specialties => joinable specialties
      | _, _, _ => false
      end
  | _ => false
  end.

(** The record with which [process_ticket] starts: the seven columns. *)
Definition base_record
    (ticket_id customer_name ticket_subject description channel mrr timestamp : value) : dict :=
  <["timestamp" := timestamp]>
  (<["mrr" := mrr]>
  (<["channel" := channel]>
  (<["description" := description]>
  (<["subject" := ticket_subject]>
  (<["customer_name" := customer_name]>
  (<["ticket_id" := ticket_id]> ∅)))))).

(** The record after steps 1 to 4. *)
Definition triaged_record (priority : value) (assigned_agent : string)
    (guardian opportunity base : dict) : dict :=
  <["opportunity" := VDict opportunity]>
  (<["guardian" := VDict guardian]>
  (<["assigned_agent" := VStr assigned_agent]>
  (<["assigned_priority" := priority]> base))).

(** How [process_ticket] stores an analysis record: unchanged when its
    flag is false; with the boolean returned by the alert as [email_sent]
    when its flag is true. *)
Definition stored_analysis (flag : string) (analysis : dict) (alert : outcome bool)
    (stored : dict) : Prop :=
  (analysis !! flag = Some (VBool false) /\ stored = analysis)
  \/ (analysis !! flag = Some (VBool true)
      /\ exists sent, alert = Ret sent /\ stored = <["email_sent" := VBool sent]> analysis).

(** A complete Guardian answer, as the parser stand-in delivers it. *)
Definition complete_risk : dict :=
  <["risk_score" := VInt 9]>
  (<["is_high_risk" := VBool false]>
  (<["sentiment" := VStr "angry"]>
  (<["evidence" := VStr "third outage this month"]>
  (<["reasoning" := VStr "Repeated incidents and a cancellation threat"]> ∅)))).

Definition complete_loads (_ : string) : outcome value := Ret (VDict complete_risk).

(** [os.environ.get(name)] is [None] or the empty string. *)
Definition unset (environ : gmap string string) (name : string) : Prop :=
  environ !! name = None \/ environ !! name = Some "".

(** Lists and dicts cannot be hashed, hence cannot be looked up in a dict. *)
Definition hashable (v : value) : bool :=
  match v with
  | VList _ | VDict _ => false
  | _ => true
  end.

(** The status codes that count as a delivery. *)
Definition accepted_status (response : outcome Z) : Prop :=
  response = Ret 200 \/ response = Ret 202.

Definition is_str (v : value) : bool :=
  match v with
  | VStr _ => true
  | _ => false
  end.

(** An Opportunity answer with every member, whose intent type is null. *)
Definition untyped_intent : dict :=
  <["has_business_intent" := VBool true]>
  (<["intent_type" := VNone]>
  (<["confidence" := VInt 8]>
  (<["evidence" := VStr "we would like to talk about options"]>
  (<["reasoning" := VStr "Buying signal without a clear category"]> ∅)))).

(** One processed ticket that carries it. *)
Definition untyped_result : dict :=
  <["opportunity" := VDict untyped_intent]>
  (<["guardian" := VDict guardian_failure_fallback]>
  (<["assigned_agent" := VStr "Integrations & API Team"]>
  (<["assigned_priority" := VStr "P1"]>
  (base_record (VStr "T-1001") (VStr "Acme") (VStr "Checkout is down")
     (VStr "Payments fail for every customer") (VStr "email") (VInt 5000)
     (VStr "2024-05-01 09:00:00"))))).

(** A record that some run of [process_ticket] returned. *)
Definition processed (r : dict) : Prop :=
  exists messages_create json_loads environ sendgrid_send read_json_file ticket agents,
    process_ticket messages_create json_loads environ sendgrid_send read_json_file
      ticket agents = Ret r.

(** The results that the dashboard and the ticket-system log treat as
    resolved: those with a truthy draft. *)
Definition with_truthy_draft (results : list dict) : list dict :=
  filter (fun r => truthy (dict_get r "draft_response" VNone)) results.

(** * Properties *)

(** ** Sanity checks of the string operations *)

Example strip_example : strip "  P1
 " = "P1".
Proof. reflexivity. Qed.

Example split_example : split "a```b``c```" "```" = ["a"; "b``c"; ""].
Proof. reflexivity. Qed.

Example split_overlap_example : split "````x" "```" = [""; "`x"].
Proof. reflexivity. Qed.


(** ** Stripping and splitting *)

Lemma append_nil (b : string) : EmptyString +:+ b = b.
Proof. reflexivity. Qed.

Lemma append_cons (x : ascii) (a b : string) : String x a +:+ b = String x (a +:+ b).
Proof. reflexivity. Qed.

Lemma append_assoc (a b c : string) : (a +:+ b) +:+ c = a +:+ (b +:+ c).
Proof.
  induction a as [|x a IH]; [reflexivity|].
  rewrite !append_cons. now rewrite IH.
Qed.

Lemma rstrip_app_space (s : string) (c : ascii) :
  isspace c = true -> rstrip (s +:+ String c EmptyString) = rstrip s.
Proof.
  intros Hc. induction s as [|a s IH].
  - simpl. now rewrite Hc.
  - rewrite append_cons. simpl. now rewrite IH.
Qed.

Lemma rstrip_app_keep (s t : string) :
  rstrip t <> EmptyString -> rstrip (s +:+ t) = s +:+ rstrip t.
Proof.
  intros Ht. induction s as [|a s IH]; [reflexivity|].
  rewrite !append_cons. simpl. rewrite IH.
  destruct (s +:+ rstrip t) eqn:E; [|reflexivity].
  destruct s; [contradiction | discriminate].
Qed.

Lemma rstrip_idempotent (s : string) : rstrip (rstrip s) = rstrip s.
Proof.
  induction s as [|a s IH]; simpl; [reflexivity|].
  destruct (rstrip s) as [|b r] eqn:E.
  - destruct (isspace a) eqn:Ha; simpl; [reflexivity | now rewrite Ha].
  - simpl in *. now rewrite IH.
Qed.

Lemma lstrip_starts_solid (s : string) : starts_solid (lstrip s).
Proof.
  induction s as [|a s IH]; simpl; [exact I|].
  destruct (isspace a) eqn:Ha; [exact IH | exact Ha].
Qed.

Lemma lstrip_solid (s : string) : starts_solid s -> lstrip s = s.
Proof. destruct s as [|a s]; simpl; [reflexivity | now intros ->]. Qed.

Lemma rstrip_starts_solid (s : string) : starts_solid s -> starts_solid (rstrip s).
Proof.
  destruct s as [|a s]; simpl; [exact id|].
  intros Ha. destruct (rstrip s); [rewrite Ha|]; exact Ha.
Qed.

Lemma strip_idempotent (s : string) : strip (strip s) = strip s.
Proof.
  unfold strip.
  rewrite (lstrip_solid (rstrip (lstrip s))).
  - apply rstrip_idempotent.
  - apply rstrip_starts_solid, lstrip_starts_solid.
Qed.

Lemma strip_newline_l (s : string) : strip (newline +:+ s) = strip s.
Proof. reflexivity. Qed.

Lemma strip_newline_r (s : string) : strip (s +:+ newline) = strip s.
Proof.
  unfold strip. induction s as [|a s IH]; [reflexivity|].
  rewrite append_cons. simpl. destruct (isspace a) eqn:Ha; [exact IH|].
  rewrite <- append_cons. now apply rstrip_app_space.
Qed.

(** The test of [startswith] survives appending. *)
Lemma startswith_app (p a t : string) :
  startswith a p = true -> startswith (a +:+ t) p = true.
Proof.
  revert a. induction p as [|x p IH]; intros a H; [reflexivity|].
  destruct a as [|y a]; [discriminate|].
  rewrite append_cons. simpl in *.
  apply andb_true_iff in H as [H1 H2]. rewrite H1. now apply IH.
Qed.

Lemma occurs_app_l (p a t : string) :
  occurs p (a +:+ t) = false -> occurs p a = false.
Proof.
  induction a as [|y a IH].
  - rewrite append_nil. destruct p; [|reflexivity].
    destruct t; discriminate.
  - rewrite append_cons. simpl. intros H. apply orb_false_iff in H as [H1 H2].
    apply orb_false_iff. split; [|now apply IH].
    destruct (startswith (String y a) p) eqn:E; [|reflexivity].
    apply (startswith_app _ _ t) in E. rewrite append_cons in E. congruence.
Qed.

Lemma rstrip_is_prefix (s : string) : exists t, s = rstrip s +:+ t.
Proof.
  induction s as [|a s [t IH]]; simpl; [now exists EmptyString|].
  destruct (rstrip s) as [|b r] eqn:E.
  - destruct (isspace a).
    + now exists (String a s).
    + exists s. reflexivity.
  - exists t. rewrite append_cons. now rewrite <- IH.
Qed.

Lemma occurs_rstrip (p s : string) : occurs p s = false -> occurs p (rstrip s) = false.
Proof.
  intros H. destruct (rstrip_is_prefix s) as [t Ht].
  rewrite Ht in H. now apply occurs_app_l in H.
Qed.

Lemma occurs_lstrip (p s : string) : occurs p s = false -> occurs p (lstrip s) = false.
Proof.
  induction s as [|a s IH]; simpl; [exact id|].
  intros H. destruct (isspace a).
  - apply IH. now apply orb_false_iff in H as [_ H].
  - exact H.
Qed.

Lemma occurs_strip (p s : string) : occurs p s = false -> occurs p (strip s) = false.
Proof. intros H. now apply occurs_rstrip, occurs_lstrip. Qed.

Lemma occurs_startswith (p s : string) : occurs p s = false -> startswith s p = false.
Proof. destruct s; simpl; intros H; now apply orb_false_iff in H as [H _]. Qed.

Lemma split_from_body (body : string) :
  no_early_match fence body fence ->
  split_from fence O (body +:+ fence) = [body; EmptyString].
Proof.
  induction body as [|c body IH]; [reflexivity|].
  intros [Hp Hrest]. rewrite append_cons in *.
  cbn [split_from]. rewrite Hp, (IH Hrest). reflexivity.
Qed.

Lemma startswith_fence_newline (s r : string) :
  startswith (s +:+ newline +:+ r) fence = startswith s fence.
Proof.
  destruct s as [|c1 [|c2 [|c3 s]]]; rewrite ?append_cons, ?append_nil; cbn;
    repeat match goal with
           | |- context [Ascii.eqb ?a ?b] =>
               destruct (Ascii.eqb_spec a b) as [E|E]; try discriminate E
           end; reflexivity.
Qed.

Lemma no_early_match_newline (j : string) :
  occurs fence j = false -> no_early_match fence (j +:+ newline) fence.
Proof.
  induction j as [|c j IH]; intros H.
  - split; [reflexivity | exact I].
  - simpl in H. apply orb_false_iff in H as [H1 H2].
    rewrite append_cons.
    split; [|now apply IH].
    rewrite <- append_cons, append_assoc.
    rewrite (startswith_fence_newline (String c j) fence). exact H1.
Qed.

Lemma strip_fenced (tag j : string) : strip (fenced tag j) = fenced tag j.
Proof.
  unfold strip, fenced. rewrite lstrip_solid by reflexivity.
  rewrite <- !append_assoc. now apply rstrip_app_keep.
Qed.

Lemma split_fenced (tag j : string) :
  tag = "" \/ tag = "json" ->
  occurs fence j = false ->
  split (fenced tag j) fence = [""; tag +:+ newline +:+ j +:+ newline; ""].
Proof.
  intros Htag Hj. unfold split, fenced.
  assert (Hbody : no_early_match fence (tag +:+ newline +:+ j +:+ newline) fence).
  { pose proof (no_early_match_newline j Hj) as Hn.
    destruct Htag as [-> | ->]; repeat (split; [reflexivity|]); exact Hn. }
  apply split_from_body in Hbody.
  rewrite !append_assoc in Hbody.
  cbn [fence append_cons split_from]. unfold fence at 1 2.
  rewrite !append_cons, append_nil. cbn [split_from startswith Ascii.eqb Bool.eqb andb].
  cbn [String.length Nat.sub]. fold fence. now rewrite Hbody.
Qed.

Lemma remove_code_fence_fenced (tag j : string) :
  tag = "" \/ tag = "json" ->
  occurs fence j = false ->
  remove_code_fence (fenced tag j) = Ret (strip j).
Proof.
  intros Htag Hj. unfold remove_code_fence.
  replace (startswith (fenced tag j) "```") with true by reflexivity.
  change "```" with fence. rewrite (split_fenced tag j Htag Hj).
  cbn [index nth_error bind].
  destruct Htag as [-> | ->].
  - rewrite append_nil. replace (startswith (newline +:+ j +:+ newline) "json") with false
      by reflexivity.
    cbn [bind]. now rewrite strip_newline_l, strip_newline_r.
  - replace (startswith ("json" +:+ newline +:+ j +:+ newline) "json") with true
      by reflexivity.
    replace (slice_from 4 ("json" +:+ newline +:+ j +:+ newline))
      with (newline +:+ j +:+ newline) by reflexivity.
    cbn [bind]. now rewrite strip_newline_l, strip_newline_r.
Qed.

Lemma remove_code_fence_plain (j : string) :
  occurs fence j = false ->
  remove_code_fence (strip j) = Ret (strip j).
Proof.
  intros Hj. unfold remove_code_fence.
  change "```" with fence.
  rewrite (occurs_startswith _ _ (occurs_strip _ _ Hj)).
  cbn [bind]. now rewrite strip_idempotent.
Qed.

Lemma split_from_nonempty (sep s : string) (skip : nat) :
  exists piece rest, split_from sep skip s = piece :: rest.
Proof.
  revert skip. induction s as [|c s IH]; intros skip; cbn [split_from]; [eauto|].
  destruct skip as [|k]; [|apply IH].
  destruct (startswith (String c s) sep); [eauto|].
  destruct (split_from sep 0 s); eauto.
Qed.

(** The fence removal never raises: when the text starts with a fence,
    [split] yields at least two pieces. *)
Lemma remove_code_fence_total (s : string) : returns (remove_code_fence s).
Proof.
  unfold returns, remove_code_fence.
  destruct (startswith s "```") eqn:E; cbn [bind]; [|eauto].
  destruct s as [|c s]; [discriminate|].
  unfold split. cbn [split_from]. rewrite E.
  destruct (split_from_nonempty "```" s (String.length "```" - 1)) as (piece & rest & ->).
  cbn [index nth_error bind]. eauto.
Qed.

(** ** Fenced and unfenced completions (C4) *)

Section Fenced.

Variable json_loads : string -> outcome value.
Variables fenced_service plain_service : prompt -> outcome string.
Variables (tag j : string).
Hypothesis tag_ok : tag = "" \/ tag = "json".
Hypothesis no_fence_inside : occurs fence j = false.

Lemma fenced_text : remove_code_fence (strip (fenced tag j)) = Ret (strip j).
Proof. rewrite strip_fenced. now apply remove_code_fence_fenced. Qed.

Lemma plain_text : remove_code_fence (strip j) = Ret (strip j).
Proof. now apply remove_code_fence_plain. Qed.

Lemma analyze_churn_risk_fenced (ticket_text customer_mrr ticket_priority : value) :
  fenced_service (guardian_prompt ticket_text customer_mrr ticket_priority)
    = Ret (fenced tag j) ->
  plain_service (guardian_prompt ticket_text customer_mrr ticket_priority) = Ret j ->
  analyze_churn_risk fenced_service json_loads ticket_text customer_mrr ticket_priority
  = analyze_churn_risk plain_service json_loads ticket_text customer_mrr ticket_priority.
Proof.
  intros Hf Hp. unfold analyze_churn_risk, analyze_churn_risk_try.
  rewrite Hf, Hp. cbn [bind]. now rewrite fenced_text, plain_text.
Qed.

Lemma detect_business_intent_fenced (ticket_text : value) :
  fenced_service (opportunity_prompt ticket_text) = Ret (fenced tag j) ->
  plain_service (opportunity_prompt ticket_text) = Ret j ->
  detect_business_intent fenced_service json_loads ticket_text
  = detect_business_intent plain_service json_loads ticket_text.
Proof.
  intros Hf Hp. unfold detect_business_intent, detect_business_intent_try.
  rewrite Hf, Hp. cbn [bind]. now rewrite fenced_text, plain_text.
Qed.

End Fenced.

(** C4. A completion [j] without a triple backtick, wrapped in a markdown
    fence (tagged [json] or untagged), leaves the fence removal as the same
    text as the bare [j] does, namely [strip j]; hence it parses to the
    same value, and the Guardian and Opportunity analyzers return the same
    result for the fenced and for the bare completion. *)
Theorem fenced_json_parses_identically (tag j : string) :
  tag = "" \/ tag = "json" ->
  occurs fence j = false ->
  remove_code_fence (strip (fenced tag j)) = Ret (strip j)
  /\ remove_code_fence (strip j) = Ret (strip j)
  /\ (forall json_loads : string -> outcome value,
        bind (remove_code_fence (strip (fenced tag j))) json_loads
        = bind (remove_code_fence (strip j)) json_loads)
  /\ (forall json_loads fenced_service plain_service ticket_text customer_mrr ticket_priority,
        fenced_service (guardian_prompt ticket_text customer_mrr ticket_priority)
          = Ret (fenced tag j) ->
        plain_service (guardian_prompt ticket_text customer_mrr ticket_priority) = Ret j ->
        analyze_churn_risk fenced_service json_loads ticket_text customer_mrr ticket_priority
        = analyze_churn_risk plain_service json_loads ticket_text customer_mrr ticket_priority)
  /\ (forall json_loads fenced_service plain_service ticket_text,
        fenced_service (opportunity_prompt ticket_text) = Ret (fenced tag j) ->
        plain_service (opportunity_prompt ticket_text) = Ret j ->
        detect_business_intent fenced_service json_loads ticket_text
        = detect_business_intent plain_service json_loads ticket_text).
Proof.
  intros Htag Hj.
  pose proof (fenced_text tag j Htag Hj) as Hf.
  pose proof (plain_text j Hj) as Hp.
  repeat split.
  - exact Hf.
  - exact Hp.
  - intros json_loads. now rewrite Hf, Hp.
  - intros. now apply (analyze_churn_risk_fenced _ _ _ tag j).
  - intros. now apply (detect_business_intent_fenced _ _ _ tag j).
Qed.

Lemma fenced_json_parses_identically_witness :
  ("json" = "" \/ "json" = "json")
  /\ occurs fence "{}" = false
  /\ remove_code_fence (strip (fenced "json" "{}")) = Ret "{}"
  /\ analyze_churn_risk (fun _ => Ret (fenced "json" "{}")) sample_loads VNone VNone VNone
     = analyze_churn_risk (fun _ => Ret "{}") sample_loads VNone VNone VNone
  /\ detect_business_intent (fun _ => Ret (fenced "json" "{}")) sample_loads VNone
     = detect_business_intent (fun _ => Ret "{}") sample_loads VNone.
Proof.
  assert (H1 : "json" = "" \/ "json" = "json") by (right; reflexivity).
  assert (H2 : occurs fence "{}" = false) by reflexivity.
  destruct (fenced_json_parses_identically "json" "{}" H1 H2) as (Ha & _ & _ & Hg & Ho).
  split; [exact H1|]. split; [exact H2|]. split; [exact Ha|].
  split; [apply Hg; reflexivity | apply Ho; reflexivity].
Defined.

(** ** The churn-risk analyzer (C2, C5) *)

Lemma dict_get_insert_ne (d : dict) (k k' : string) (x dflt : value) :
  k <> k' -> dict_get (<[k := x]> d) k' dflt = dict_get d k' dflt.
Proof. intros Hne. unfold dict_get. now rewrite lookup_insert_ne. Qed.

Lemma dict_get_delete_ne (d : dict) (k k' : string) (dflt : value) :
  k <> k' -> dict_get (delete k d) k' dflt = dict_get d k' dflt.
Proof. intros Hne. unfold dict_get. now rewrite lookup_delete_ne. Qed.

(** The entry [flag] of the parsed dict plays no part in [rescored]. *)
Lemma rescored_forgets_flag (key flag : string) (threshold : Z) (failure d : dict) :
  flag <> key ->
  rescored key flag threshold failure (delete flag d) = rescored key flag threshold failure d.
Proof.
  intros Hne. unfold rescored. rewrite dict_get_delete_ne by exact Hne.
  destruct (py_ge_int _ _); [|reflexivity]. apply insert_delete_eq.
Qed.

Lemma occurs_refl_app (p a : string) : occurs p (a +:+ p) = true.
Proof.
  assert (Hp : forall q, startswith q q = true).
  { induction q as [|c q IH]; [reflexivity|]. simpl. now rewrite Ascii.eqb_refl. }
  induction a as [|c a IH].
  - rewrite append_nil. destruct p; simpl; [reflexivity|].
    now rewrite Ascii.eqb_refl, Hp.
  - rewrite append_cons. simpl. rewrite IH. apply orb_true_r.
Qed.

(** The comparison of a finite float with an integer is the comparison of
    the rational numbers. *)
Lemma float_ge_int_finite (m e n : Z) :
  float_ge_int (FFin m e) n = true <-> (inject_Z n <= inject_Z m * 2 ^ e)%Q.
Proof.
  cbn [float_ge_int]. destruct (Z.leb_spec 0 e) as [He|He].
  - rewrite Z.leb_le, Zle_Qle, inject_Z_mult, (Zpower_Qpower 2 e He). reflexivity.
  - rewrite Z.leb_le.
    assert (Hk : 0 <= - e) by lia.
    assert (Hp : (0 < inject_Z (2 ^ (- e)))%Q).
    { rewrite <- (Zlt_Qlt 0). apply Z.pow_pos_nonneg; lia. }
    assert (He' : (2 ^ e == / inject_Z (2 ^ (- e)))%Q).
    { rewrite (Zpower_Qpower 2 _ Hk), <- Qpower_opp, Z.opp_involutive. reflexivity. }
    rewrite He', Zle_Qle, inject_Z_mult.
    rewrite <- (Qmult_le_r _ (inject_Z m * / inject_Z (2 ^ (- e))) _ Hp).
    assert (Hm : (inject_Z m * / inject_Z (2 ^ (- e)) * inject_Z (2 ^ (- e))
                  == inject_Z m)%Q).
    { field. intros H0. rewrite H0 in Hp. discriminate Hp. }
    rewrite Hm. reflexivity.
Qed.

(** When [v >= n] evaluates, it is true exactly when [v] is at least [n]. *)
Lemma py_ge_int_at_least (v : value) (n : Z) (b : bool) :
  py_ge_int v n = Ret b -> (b = true <-> at_least n v).
Proof.
  destruct v as [ |c|z|f| | | ]; cbn [py_ge_int at_least]; try discriminate;
    intros [= <-].
  - apply Z.leb_le.
  - apply Z.leb_le.
  - destruct f as [ |negative|m e]; cbn [float_ge_int].
    + split; [discriminate | tauto].
    + destruct negative; cbn [negb]; split; congruence.
    + apply float_ge_int_finite.
Qed.

(** The flag that an analyzer stores, read against the stored score. *)
Lemma flag_at_least (result : dict) (key flag : string) (threshold : Z) (b : bool) :
  result !! flag = Some (VBool b) ->
  py_ge_int (dict_get result key (VInt 0)) threshold = Ret b ->
  (result !! flag = Some (VBool true)
   <-> at_least threshold (dict_get result key (VInt 0)))
  /\ (forall z,
        dict_get result key (VInt 0) = VInt z ->
        (result !! flag = Some (VBool true) <-> threshold <= z)
        /\ (result !! flag = Some (VBool false) <-> z < threshold))
  /\ (result !! key = None -> 0 < threshold -> result !! flag = Some (VBool false)).
Proof.
  intros Hflag Hge. pose proof (py_ge_int_at_least _ _ _ Hge) as Hb.
  rewrite Hflag. split; [|split].
  - rewrite <- Hb. split; [now intros [= ->] | now intros ->].
  - intros z Hz. rewrite Hz in Hb. cbn [at_least] in Hb. destruct b.
    + assert (threshold <= z) by now apply Hb.
      split; split; intros; try reflexivity; try discriminate; try assumption;
        exfalso; lia.
    + assert (~ threshold <= z) by (intros H; apply Hb in H; discriminate H).
      split; split; intros; try reflexivity; try discriminate; try lia; exfalso; lia.
  - intros Hnone Hpos. unfold dict_get in Hb. rewrite Hnone in Hb.
    cbn [default at_least] in Hb.
    destruct b; [|reflexivity]. pose proof (proj1 Hb eq_refl). lia.
Qed.

Section Guardian.

Variable messages_create : prompt -> outcome string.
Variable json_loads : string -> outcome value.
Variables ticket_text customer_mrr ticket_priority : value.

Let run := analyze_churn_risk messages_create json_loads
             ticket_text customer_mrr ticket_priority.

(** The four ways the analyzer ends. *)
Lemma analyze_churn_risk_cases :
  (run = guardian_failure_fallback)
  \/ (exists raw text msg,
        messages_create (guardian_prompt ticket_text customer_mrr ticket_priority) = Ret raw
        /\ remove_code_fence (strip raw) = Ret text
        /\ json_loads text = Raise (JSONDecodeError msg)
        /\ run = guardian_parse_fallback msg)
  \/ (exists raw text d b,
        messages_create (guardian_prompt ticket_text customer_mrr ticket_priority) = Ret raw
        /\ remove_code_fence (strip raw) = Ret text
        /\ json_loads text = Ret (VDict d)
        /\ py_ge_int (dict_get d "risk_score" (VInt 0)) 7 = Ret b
        /\ run = <["is_high_risk" := VBool b]> d).
Proof.
  subst run. unfold analyze_churn_risk, analyze_churn_risk_try.
  destruct (messages_create _) as [raw|e] eqn:Hraw; cbn [bind]; [|now left].
  destruct (remove_code_fence (strip raw)) as [text|e] eqn:Htext; cbn [bind]; [|now left].
  destruct (json_loads text) as [result|e] eqn:Hparse.
  - destruct result as [ | | | | | |d]; cbn [method_get bind]; try now left.
    destruct (py_ge_int (dict_get d "risk_score" (VInt 0)) 7) as [b|e] eqn:Hge;
      cbn [bind setitem]; [|now left].
    right; right. exists raw, text, d, b. auto.
  - destruct e; try now left.
    right; left. exists raw, text, msg. auto.
Qed.

(** The flag of the result and the comparison of its score agree. *)
Lemma analyze_churn_risk_flag :
  exists b, run !! "is_high_risk" = Some (VBool b)
            /\ py_ge_int (dict_get run "risk_score" (VInt 0)) 7 = Ret b.
Proof.
  destruct analyze_churn_risk_cases
    as [-> | [(raw & text & msg & _ & _ & _ & ->) | (raw & text & d & b & _ & _ & _ & Hge & ->)]].
  - exists false. split; reflexivity.
  - exists false. split; reflexivity.
  - exists b. split; [apply lookup_insert_eq|].
    rewrite dict_get_insert_ne by discriminate. exact Hge.
Qed.

End Guardian.

(** C2. Whatever the completion service and the JSON parser do, the
    record returned by [analyze_churn_risk] has a boolean [is_high_risk]
    that is true exactly when its [risk_score] (0 when absent) is at least 7:
    for an integer score [z] the flag is true when [7 <= z] and false when
    [z < 7], a float is compared as the rational number it is, and a record
    without a score is not high risk. When a dict [d] was parsed, the record
    is computed from [d] without its own [is_high_risk] entry: an integer
    score of 7 or more stores [True], a smaller one [False], whatever [d]
    claimed. *)
Theorem guardian_flag_recomputed
    (messages_create : prompt -> outcome string) (json_loads : string -> outcome value)
    (ticket_text customer_mrr ticket_priority : value) :
  let result :=
    analyze_churn_risk messages_create json_loads ticket_text customer_mrr ticket_priority in
  (exists b, result !! "is_high_risk" = Some (VBool b))
  /\ (result !! "is_high_risk" = Some (VBool true)
      <-> py_ge_int (dict_get result "risk_score" (VInt 0)) 7 = Ret true)
  /\ (forall raw text d,
        messages_create (guardian_prompt ticket_text customer_mrr ticket_priority) = Ret raw ->
        remove_code_fence (strip raw) = Ret text ->
        json_loads text = Ret (VDict d) ->
        result = rescored "risk_score" "is_high_risk" 7 guardian_failure_fallback
                   (delete "is_high_risk" d))
  /\ (result !! "is_high_risk" = Some (VBool true)
      <-> at_least 7 (dict_get result "risk_score" (VInt 0)))
  /\ (forall z,
        dict_get result "risk_score" (VInt 0) = VInt z ->
        (result !! "is_high_risk" = Some (VBool true) <-> 7 <= z)
        /\ (result !! "is_high_risk" = Some (VBool false) <-> z < 7))
  /\ (result !! "risk_score" = None -> result !! "is_high_risk" = Some (VBool false))
  /\ (forall raw text d z,
        messages_create (guardian_prompt ticket_text customer_mrr ticket_priority) = Ret raw ->
        remove_code_fence (strip raw) = Ret text ->
        json_loads text = Ret (VDict d) ->
        dict_get d "risk_score" (VInt 0) = VInt z ->
        (7 <= z -> result = <["is_high_risk" := VBool true]> d)
        /\ (z < 7 -> result = <["is_high_risk" := VBool false]> d)).
Proof.
  intros result.
  destruct (analyze_churn_risk_flag messages_create json_loads
              ticket_text customer_mrr ticket_priority) as (b & Hflag & Hge).
  fold result in Hflag, Hge.
  destruct (flag_at_least result "risk_score" "is_high_risk" 7 b Hflag Hge)
    as (Hleast & Hint & Habsent).
  split; [eauto|]. split; [|split; [|split; [|split; [|split]]]].
  - rewrite Hflag, Hge. split; intros H; inversion H; reflexivity.
  - intros raw text d Hraw Htext Hparse.
    rewrite rescored_forgets_flag by discriminate.
    subst result. unfold analyze_churn_risk, analyze_churn_risk_try, rescored.
    rewrite Hraw. cbn [bind]. rewrite Htext. cbn [bind]. rewrite Hparse.
    cbn [method_get bind]. clear Hge Hleast Hint Habsent Hflag.
    destruct (py_ge_int (dict_get d "risk_score" (VInt 0)) 7); reflexivity.
  - exact Hleast.
  - exact Hint.
  - intros Hnone. apply Habsent; [exact Hnone | lia].
  - intros raw text d z Hraw Htext Hparse Hz.
    assert (Hresult : result = <["is_high_risk" := VBool (7 <=? z)]> d).
    { subst result. unfold analyze_churn_risk, analyze_churn_risk_try.
      rewrite Hraw. cbn [bind]. rewrite Htext. cbn [bind]. rewrite Hparse.
      cbn [method_get bind]. rewrite Hz. reflexivity. }
    rewrite Hresult. split; intros Hz'.
    + now rewrite (proj2 (Z.leb_le 7 z) Hz').
    + now rewrite (proj2 (Z.leb_gt 7 z) Hz').
Qed.

Lemma guardian_flag_recomputed_witness :
  let service := fun _ : prompt => Ret "R" in
  let run := fun d : dict =>
    analyze_churn_risk service (fun _ => Ret (VDict d)) VNone VNone VNone in
  run (claimed_risk (VInt 7) false)
  = <["is_high_risk" := VBool true]> (claimed_risk (VInt 7) false)
  /\ run (claimed_risk (VInt 9) false)
     = <["is_high_risk" := VBool true]> (claimed_risk (VInt 9) false)
  /\ run (claimed_risk (VInt 6) true)
     = <["is_high_risk" := VBool false]> (claimed_risk (VInt 6) true)
  /\ run (claimed_risk (VFloat (FFin 15 (-1))) false) !! "is_high_risk" = Some (VBool true)
  /\ run (claimed_risk (VFloat (FFin 55 (-3))) true) !! "is_high_risk" = Some (VBool false)
  /\ run ∅ !! "is_high_risk" = Some (VBool false)
  /\ run inconsistent_risk
     = rescored "risk_score" "is_high_risk" 7 guardian_failure_fallback
         (delete "is_high_risk" inconsistent_risk)
  /\ run inconsistent_risk !! "is_high_risk" = Some (VBool false).
Proof.
  intros service run. subst run. cbn beta.
  pose (parser := fun (d : dict) (_ : string) => Ret (VDict d)).
  assert (Hraw : service (guardian_prompt VNone VNone VNone) = Ret "R") by reflexivity.
  assert (Htext : remove_code_fence (strip "R") = Ret "R") by reflexivity.
  split.
  { destruct (guardian_flag_recomputed service (parser (claimed_risk (VInt 7) false))
                VNone VNone VNone) as (_ & _ & _ & _ & _ & _ & Hd).
    apply (Hd "R" "R" _ 7 Hraw Htext eq_refl eq_refl). lia. }
  split.
  { destruct (guardian_flag_recomputed service (parser (claimed_risk (VInt 9) false))
                VNone VNone VNone) as (_ & _ & _ & _ & _ & _ & Hd).
    apply (Hd "R" "R" _ 9 Hraw Htext eq_refl eq_refl). lia. }
  split.
  { destruct (guardian_flag_recomputed service (parser (claimed_risk (VInt 6) true))
                VNone VNone VNone) as (_ & _ & _ & _ & _ & _ & Hd).
    apply (Hd "R" "R" _ 6 Hraw Htext eq_refl eq_refl). lia. }
  split.
  { destruct (guardian_flag_recomputed service
                (parser (claimed_risk (VFloat (FFin 15 (-1))) false))
                VNone VNone VNone) as (_ & _ & _ & Hleast & _).
    apply Hleast. vm_compute. discriminate. }
  split.
  { destruct (guardian_flag_recomputed service
                (parser (claimed_risk (VFloat (FFin 55 (-3))) true))
                VNone VNone VNone) as ([b Hb] & _ & _ & Hleast & _).
    destruct b; [|exact Hb]. apply Hleast in Hb. vm_compute in Hb. now destruct Hb. }
  split.
  { destruct (guardian_flag_recomputed service (parser ∅) VNone VNone VNone)
      as (_ & _ & _ & _ & _ & Habsent & _).
    apply Habsent. reflexivity. }
  destruct (guardian_flag_recomputed service (parser inconsistent_risk) VNone VNone VNone)
    as (_ & _ & Hd & _ & Hint & _).
  split; [exact (Hd "R" "R" inconsistent_risk Hraw Htext eq_refl)|].
  apply (Hint 3); [reflexivity | lia].
Defined.

(** C5. When the service call succeeds and the text left by the fence
    removal is rejected by the parser with a [JSONDecodeError], the analyzer
    returns the parse-failure record: score 5, not high risk, neutral
    sentiment, empty evidence, and a reasoning that ends with the
    description of the parse error. The fence removal itself never raises. *)
Theorem guardian_parse_failure_fallback
    (messages_create : prompt -> outcome string) (json_loads : string -> outcome value)
    (ticket_text customer_mrr ticket_priority : value) (raw : string) :
  messages_create (guardian_prompt ticket_text customer_mrr ticket_priority) = Ret raw ->
  exists text,
    remove_code_fence (strip raw) = Ret text
    /\ forall msg,
         json_loads text = Raise (JSONDecodeError msg) ->
         let result :=
           analyze_churn_risk messages_create json_loads
             ticket_text customer_mrr ticket_priority in
         result = guardian_parse_fallback msg
         /\ result !! "risk_score" = Some (VInt 5)
         /\ result !! "is_high_risk" = Some (VBool false)
         /\ result !! "sentiment" = Some (VStr "neutral")
         /\ result !! "evidence" = Some (VStr "")
         /\ result !! "reasoning" = Some (VStr ("JSON parse error: " +:+ msg))
         /\ occurs msg ("JSON parse error: " +:+ msg) = true
         /\ size result = 5%nat.
Proof.
  intros Hraw.
  destruct (remove_code_fence_total (strip raw)) as [text Htext].
  exists text. split; [exact Htext|].
  intros msg Hparse result.
  assert (Hresult : result = guardian_parse_fallback msg).
  { subst result. unfold analyze_churn_risk, analyze_churn_risk_try.
    rewrite Hraw. cbn [bind]. rewrite Htext. cbn [bind]. now rewrite Hparse. }
  rewrite Hresult.
  repeat split; try reflexivity.
  apply occurs_refl_app.
Qed.

Lemma guardian_parse_failure_fallback_witness :
  let service := fun _ : prompt => Ret "not json" in
  service (guardian_prompt VNone VNone VNone) = Ret "not json"
  /\ sample_loads "not json"
     = Raise (JSONDecodeError "Expecting value: line 1 column 1 (char 0)")
  /\ analyze_churn_risk service sample_loads VNone VNone VNone
     = guardian_parse_fallback "Expecting value: line 1 column 1 (char 0)".
Proof.
  intros service.
  assert (H1 : service (guardian_prompt VNone VNone VNone) = Ret "not json") by reflexivity.
  split; [exact H1|]. split; [reflexivity|].
  destruct (guardian_parse_failure_fallback service sample_loads VNone VNone VNone
              "not json" H1) as (text & Htext & Hfallback).
  assert (text = "not json") as -> by (vm_compute in Htext; congruence).
  exact (proj1 (Hfallback _ eq_refl)).
Defined.

(** ** The opportunity analyzer (C3) *)

Section Opportunity.

Variable messages_create : prompt -> outcome string.
Variable json_loads : string -> outcome value.
Variable ticket_text : value.

Let run := detect_business_intent messages_create json_loads ticket_text.

Lemma detect_business_intent_cases :
  (run = opportunity_failure_fallback)
  \/ (exists msg, run = opportunity_parse_fallback msg)
  \/ (exists d b,
        py_ge_int (dict_get d "confidence" (VInt 0)) 6 = Ret b
        /\ run = <["has_business_intent" := VBool b]> d).
Proof.
  subst run. unfold detect_business_intent, detect_business_intent_try.
  destruct (messages_create _) as [raw|e]; cbn [bind]; [|now left].
  destruct (remove_code_fence (strip raw)) as [text|e]; cbn [bind]; [|now left].
  destruct (json_loads text) as [result|e].
  - destruct result as [ | | | | | |d]; cbn [method_get bind]; try now left.
    destruct (py_ge_int (dict_get d "confidence" (VInt 0)) 6) as [b|e] eqn:Hge;
      cbn [bind setitem]; [|now left].
    right; right. exists d, b. auto.
  - destruct e; try now left.
    right; left. now exists msg.
Qed.

Lemma detect_business_intent_flag :
  exists b, run !! "has_business_intent" = Some (VBool b)
            /\ py_ge_int (dict_get run "confidence" (VInt 0)) 6 = Ret b.
Proof.
  destruct detect_business_intent_cases as [-> | [(msg & ->) | (d & b & Hge & ->)]].
  - exists false. split; reflexivity.
  - exists false. split; reflexivity.
  - exists b. split; [apply lookup_insert_eq|].
    rewrite dict_get_insert_ne by discriminate. exact Hge.
Qed.

End Opportunity.

(** C3. Whatever the completion service and the JSON parser do, the
    record returned by [detect_business_intent] has a boolean
    [has_business_intent] that is true exactly when its [confidence] (0 when
    absent) is at least 6: for an integer confidence [z] the flag is true
    when [6 <= z] and false when [z < 6], a float is compared as the rational
    number it is, and a record without a confidence has no intent. When a
    dict [d] was parsed the record is computed from [d] without its own
    [has_business_intent] entry: an integer confidence of 6 or more stores
    [True], a smaller one [False], whatever [d] claimed. When the parser
    rejects the text, or anything inside the [try] raises, the record has
    confidence 0 and no business intent. *)
Theorem opportunity_flag_recomputed
    (messages_create : prompt -> outcome string) (json_loads : string -> outcome value)
    (ticket_text : value) :
  let result := detect_business_intent messages_create json_loads ticket_text in
  (exists b, result !! "has_business_intent" = Some (VBool b))
  /\ (result !! "has_business_intent" = Some (VBool true)
      <-> py_ge_int (dict_get result "confidence" (VInt 0)) 6 = Ret true)
  /\ (forall raw text d,
        messages_create (opportunity_prompt ticket_text) = Ret raw ->
        remove_code_fence (strip raw) = Ret text ->
        json_loads text = Ret (VDict d) ->
        result = rescored "confidence" "has_business_intent" 6 opportunity_failure_fallback
                   (delete "has_business_intent" d))
  /\ (forall raw text msg,
        messages_create (opportunity_prompt ticket_text) = Ret raw ->
        remove_code_fence (strip raw) = Ret text ->
        json_loads text = Raise (JSONDecodeError msg) ->
        result = opportunity_parse_fallback msg
        /\ result !! "confidence" = Some (VInt 0)
        /\ result !! "has_business_intent" = Some (VBool false))
  /\ (forall e,
        detect_business_intent_try messages_create json_loads ticket_text = Raise e ->
        result = opportunity_failure_fallback
        /\ result !! "confidence" = Some (VInt 0)
        /\ result !! "has_business_intent" = Some (VBool false))
  /\ (forall e,
        messages_create (opportunity_prompt ticket_text) = Raise e ->
        detect_business_intent_try messages_create json_loads ticket_text = Raise e)
  /\ (result !! "has_business_intent" = Some (VBool true)
      <-> at_least 6 (dict_get result "confidence" (VInt 0)))
  /\ (forall z,
        dict_get result "confidence" (VInt 0) = VInt z ->
        (result !! "has_business_intent" = Some (VBool true) <-> 6 <= z)
        /\ (result !! "has_business_intent" = Some (VBool false) <-> z < 6))
  /\ (result !! "confidence" = None ->
      result !! "has_business_intent" = Some (VBool false))
  /\ (forall raw text d z,
        messages_create (opportunity_prompt ticket_text) = Ret raw ->
        remove_code_fence (strip raw) = Ret text ->
        json_loads text = Ret (VDict d) ->
        dict_get d "confidence" (VInt 0) = VInt z ->
        (6 <= z -> result = <["has_business_intent" := VBool true]> d)
        /\ (z < 6 -> result = <["has_business_intent" := VBool false]> d)).
Proof.
  intros result.
  destruct (detect_business_intent_flag messages_create json_loads ticket_text)
    as (b & Hflag & Hge).
  fold result in Hflag, Hge.
  destruct (flag_at_least result "confidence" "has_business_intent" 6 b Hflag Hge)
    as (Hleast & Hint & Habsent).
  split; [eauto|].
  split; [|split; [|split; [|split; [|split; [|split; [|split; [|split]]]]]]].
  - rewrite Hflag, Hge. split; intros H; inversion H; reflexivity.
  - intros raw text d Hraw Htext Hparse.
    rewrite rescored_forgets_flag by discriminate.
    subst result. unfold detect_business_intent, detect_business_intent_try, rescored.
    rewrite Hraw. cbn [bind]. rewrite Htext. cbn [bind]. rewrite Hparse.
    cbn [method_get bind]. clear Hge Hleast Hint Habsent Hflag.
    destruct (py_ge_int (dict_get d "confidence" (VInt 0)) 6); reflexivity.
  - intros raw text msg Hraw Htext Hparse.
    assert (Hresult : result = opportunity_parse_fallback msg).
    { subst result. unfold detect_business_intent, detect_business_intent_try.
      rewrite Hraw. cbn [bind]. rewrite Htext. cbn [bind]. now rewrite Hparse. }
    rewrite Hresult. repeat split; reflexivity.
  - intros e He.
    assert (Hresult : result = opportunity_failure_fallback).
    { subst result. unfold detect_business_intent. now rewrite He. }
    rewrite Hresult. repeat split; reflexivity.
  - intros e He. unfold detect_business_intent_try. now rewrite He.
  - exact Hleast.
  - exact Hint.
  - intros Hnone. apply Habsent; [exact Hnone | lia].
  - intros raw text d z Hraw Htext Hparse Hz.
    assert (Hresult : result = <["has_business_intent" := VBool (6 <=? z)]> d).
    { subst result. unfold detect_business_intent, detect_business_intent_try.
      rewrite Hraw. cbn [bind]. rewrite Htext. cbn [bind]. rewrite Hparse.
      cbn [method_get bind]. rewrite Hz. reflexivity. }
    rewrite Hresult. split; intros Hz'.
    + now rewrite (proj2 (Z.leb_le 6 z) Hz').
    + now rewrite (proj2 (Z.leb_gt 6 z) Hz').
Qed.

Lemma opportunity_flag_recomputed_witness :
  let service := fun _ : prompt => Ret "R" in
  let parser := fun _ : string => Ret (VDict inconsistent_intent) in
  let run := fun d : dict => detect_business_intent service (fun _ => Ret (VDict d)) VNone in
  run (claimed_intent (VInt 6) false)
  = <["has_business_intent" := VBool true]> (claimed_intent (VInt 6) false)
  /\ run (claimed_intent (VInt 9) false)
     = <["has_business_intent" := VBool true]> (claimed_intent (VInt 9) false)
  /\ run (claimed_intent (VInt 5) true)
     = <["has_business_intent" := VBool false]> (claimed_intent (VInt 5) true)
  /\ run (claimed_intent (VFloat (FFin 13 (-1))) false) !! "has_business_intent"
     = Some (VBool true)
  /\ run (claimed_intent (VFloat (FFin 47 (-3))) true) !! "has_business_intent"
     = Some (VBool false)
  /\ run ∅ !! "has_business_intent" = Some (VBool false)
  /\ detect_business_intent service parser VNone
     = rescored "confidence" "has_business_intent" 6 opportunity_failure_fallback
         (delete "has_business_intent" inconsistent_intent)
  /\ detect_business_intent service parser VNone !! "has_business_intent"
     = Some (VBool false)
  /\ detect_business_intent service sample_loads VNone
     = opportunity_parse_fallback "Expecting value: line 1 column 1 (char 0)"
  /\ detect_business_intent (fun _ => Raise (OtherError "timeout")) parser VNone
     = opportunity_failure_fallback.
Proof.
  intros service parser run. subst run. cbn beta.
  pose (loads := fun (d : dict) (_ : string) => Ret (VDict d)).
  assert (Hraw : service (opportunity_prompt VNone) = Ret "R") by reflexivity.
  assert (Htext : remove_code_fence (strip "R") = Ret "R") by reflexivity.
  split.
  { destruct (opportunity_flag_recomputed service (loads (claimed_intent (VInt 6) false))
                VNone) as (_ & _ & _ & _ & _ & _ & _ & _ & _ & Hd).
    apply (Hd "R" "R" _ 6 Hraw Htext eq_refl eq_refl). lia. }
  split.
  { destruct (opportunity_flag_recomputed service (loads (claimed_intent (VInt 9) false))
                VNone) as (_ & _ & _ & _ & _ & _ & _ & _ & _ & Hd).
    apply (Hd "R" "R" _ 9 Hraw Htext eq_refl eq_refl). lia. }
  split.
  { destruct (opportunity_flag_recomputed service (loads (claimed_intent (VInt 5) true))
                VNone) as (_ & _ & _ & _ & _ & _ & _ & _ & _ & Hd).
    apply (Hd "R" "R" _ 5 Hraw Htext eq_refl eq_refl). lia. }
  split.
  { destruct (opportunity_flag_recomputed service
                (loads (claimed_intent (VFloat (FFin 13 (-1))) false)) VNone)
      as (_ & _ & _ & _ & _ & _ & Hleast & _).
    apply Hleast. vm_compute. discriminate. }
  split.
  { destruct (opportunity_flag_recomputed service
                (loads (claimed_intent (VFloat (FFin 47 (-3))) true)) VNone)
      as ([b Hb] & _ & _ & _ & _ & _ & Hleast & _).
    destruct b; [|exact Hb]. apply Hleast in Hb. vm_compute in Hb. now destruct Hb. }
  split.
  { destruct (opportunity_flag_recomputed service (loads ∅) VNone)
      as (_ & _ & _ & _ & _ & _ & _ & _ & Habsent & _).
    apply Habsent. reflexivity. }
  destruct (opportunity_flag_recomputed service parser VNone)
    as (_ & _ & Hd & _ & _ & _ & _ & Hint & _).
  split; [exact (Hd "R" "R" inconsistent_intent Hraw Htext eq_refl)|].
  split; [apply (Hint 2); [reflexivity | lia]|].
  destruct (opportunity_flag_recomputed service sample_loads VNone)
    as (_ & _ & _ & Hp & _).
  split; [exact (proj1 (Hp "R" "R" _ Hraw Htext eq_refl))|].
  destruct (opportunity_flag_recomputed (fun _ => Raise (OtherError "timeout")) parser VNone)
    as (_ & _ & _ & _ & Hf & Hs & _).
  exact (proj1 (Hf _ (Hs _ eq_refl))).
Defined.

(** ** Service failures (C6) and the priority fallback (C1) *)

Section ServiceFailure.

Variable messages_create : prompt -> outcome string.
Variable json_loads : string -> outcome value.

Lemma classify_priority_on_failure (ticket : dict) (subject description channel : value)
    (e : exn) :
  getitem ticket "subject" = Ret subject ->
  getitem ticket "description" = Ret description ->
  getitem ticket "channel" = Ret channel ->
  messages_create (priority_prompt subject description channel) = Raise e ->
  classify_priority messages_create ticket
  = Ret (match ticket !! "actual_priority" with Some p => p | None => VStr "P2" end).
Proof.
  intros Hs Hd Hc He. unfold classify_priority.
  rewrite Hs, Hd, Hc. cbn [bind]. rewrite He. cbn [bind try_except].
  unfold dict_get. now destruct (ticket !! "actual_priority").
Qed.

(** When the service answers, the answer is validated. *)
Lemma classify_priority_on_answer (ticket : dict) (subject description channel : value)
    (text : string) :
  getitem ticket "subject" = Ret subject ->
  getitem ticket "description" = Ret description ->
  getitem ticket "channel" = Ret channel ->
  messages_create (priority_prompt subject description channel) = Ret text ->
  exists p, classify_priority messages_create ticket = Ret (VStr p)
            /\ In p valid_priorities
            /\ (In (strip text) valid_priorities -> p = strip text)
            /\ (~ In (strip text) valid_priorities -> p = "P2").
Proof.
  intros Hs Hd Hc Ht. unfold classify_priority.
  rewrite Hs, Hd, Hc. cbn [bind]. rewrite Ht. cbn [bind try_except].
  destruct (existsb (String.eqb (strip text)) valid_priorities) eqn:E; cbn [negb].
  - exists (strip text). apply existsb_exists in E as (p & Hin & Heq).
    apply String.eqb_eq in Heq. subst p.
    split; [reflexivity|]. split; [exact Hin|]. split; [reflexivity | contradiction].
  - exists "P2". split; [reflexivity|]. split; [cbn; auto|]. split; [|reflexivity].
    intros Hin. exfalso.
    assert (existsb (String.eqb (strip text)) valid_priorities = true); [|congruence].
    apply existsb_exists. exists (strip text). split; [exact Hin | apply String.eqb_refl].
Qed.

Lemma route_to_agent_on_failure (ticket : dict) (agents : list value)
    (agent_descriptions : list fragment) (subject description : value) (e : exn) :
  map_outcome agent_description agents = Ret agent_descriptions ->
  getitem ticket "subject" = Ret subject ->
  getitem ticket "description" = Ret description ->
  messages_create (routing_prompt subject description agent_descriptions) = Raise e ->
  route_to_agent messages_create ticket agents = Ret "Integrations & API Team".
Proof.
  intros Ha Hs Hd He. unfold route_to_agent.
  rewrite Ha, Hs, Hd. cbn [bind]. now rewrite He.
Qed.

Lemma analyze_churn_risk_on_failure (ticket_text customer_mrr ticket_priority : value)
    (e : exn) :
  messages_create (guardian_prompt ticket_text customer_mrr ticket_priority) = Raise e ->
  analyze_churn_risk messages_create json_loads ticket_text customer_mrr ticket_priority
  = guardian_failure_fallback.
Proof.
  intros He. unfold analyze_churn_risk, analyze_churn_risk_try. now rewrite He.
Qed.

Lemma detect_business_intent_on_failure (ticket_text : value) (e : exn) :
  messages_create (opportunity_prompt ticket_text) = Raise e ->
  detect_business_intent messages_create json_loads ticket_text
  = opportunity_failure_fallback.
Proof.
  intros He. unfold detect_business_intent, detect_business_intent_try. now rewrite He.
Qed.

End ServiceFailure.

(** C6. When the call to the completion service raises: the priority
    classifier returns the ticket's [actual_priority] if the ticket has one
    and ["P2"] otherwise; the router returns ["Integrations & API Team"];
    the Guardian analyzer returns the record with score 0 and no high risk;
    the Opportunity analyzer returns the record with confidence 0 and no
    intent. Each stage returns; none raises. *)
Theorem service_failure_fallbacks
    (messages_create : prompt -> outcome string) (json_loads : string -> outcome value)
    (ticket : dict) (agents : list value) :
  (forall subject description channel e,
      getitem ticket "subject" = Ret subject ->
      getitem ticket "description" = Ret description ->
      getitem ticket "channel" = Ret channel ->
      messages_create (priority_prompt subject description channel) = Raise e ->
      classify_priority messages_create ticket
      = Ret (match ticket !! "actual_priority" with Some p => p | None => VStr "P2" end))
  /\ (forall agent_descriptions subject description e,
        map_outcome agent_description agents = Ret agent_descriptions ->
        getitem ticket "subject" = Ret subject ->
        getitem ticket "description" = Ret description ->
        messages_create (routing_prompt subject description agent_descriptions) = Raise e ->
        route_to_agent messages_create ticket agents = Ret "Integrations & API Team")
  /\ (forall ticket_text customer_mrr ticket_priority e,
        messages_create (guardian_prompt ticket_text customer_mrr ticket_priority) = Raise e ->
        let result :=
          analyze_churn_risk messages_create json_loads
            ticket_text customer_mrr ticket_priority in
        result = guardian_failure_fallback
        /\ result !! "risk_score" = Some (VInt 0)
        /\ result !! "is_high_risk" = Some (VBool false))
  /\ (forall ticket_text e,
        messages_create (opportunity_prompt ticket_text) = Raise e ->
        let result := detect_business_intent messages_create json_loads ticket_text in
        result = opportunity_failure_fallback
        /\ result !! "confidence" = Some (VInt 0)
        /\ result !! "has_business_intent" = Some (VBool false)).
Proof.
  split; [|split; [|split]].
  - intros s d c e. apply classify_priority_on_failure.
  - intros descriptions s d e. apply route_to_agent_on_failure.
  - intros ticket_text customer_mrr ticket_priority e He result. subst result.
    rewrite (analyze_churn_risk_on_failure _ _ _ _ _ e He). repeat split; reflexivity.
  - intros ticket_text e He result. subst result.
    rewrite (detect_business_intent_on_failure _ _ _ e He). repeat split; reflexivity.
Qed.

Lemma service_failure_fallbacks_witness :
  classify_priority unreachable urgent_ticket = Ret (VStr "Urgent")
  /\ classify_priority unreachable plain_ticket = Ret (VStr "P2")
  /\ route_to_agent unreachable urgent_ticket sample_agents = Ret "Integrations & API Team"
  /\ analyze_churn_risk unreachable sample_loads VNone VNone VNone = guardian_failure_fallback
  /\ detect_business_intent unreachable sample_loads VNone = opportunity_failure_fallback.
Proof.
  destruct (service_failure_fallbacks unreachable sample_loads urgent_ticket sample_agents)
    as (Hp & Hr & Hg & Ho).
  destruct (service_failure_fallbacks unreachable sample_loads plain_ticket sample_agents)
    as (Hp' & _).
  split; [exact (Hp _ _ _ _ eq_refl eq_refl eq_refl eq_refl)|].
  split; [exact (Hp' _ _ _ _ eq_refl eq_refl eq_refl eq_refl)|].
  split; [exact (Hr _ _ _ _ eq_refl eq_refl eq_refl eq_refl)|].
  split; [exact (proj1 (Hg VNone VNone VNone _ eq_refl))|].
  exact (proj1 (Ho VNone _ eq_refl)).
Defined.

(** C1 (the code departs from the claim). With the service down, a ticket
    whose [actual_priority] column holds the text ["Urgent"] is assigned
    that text: [classify_priority] returns it unvalidated and
    [process_ticket] stores it as [assigned_priority], although it is none
    of P0, P1, P2, P3. *)
Theorem priority_fallback_not_validated :
  classify_priority unreachable urgent_ticket = Ret (VStr "Urgent")
  /\ value_in_strs (VStr "Urgent") valid_priorities = false
  /\ (let* result :=
        process_ticket unreachable sample_loads ∅ mailer_down no_files
          urgent_ticket sample_agents in
      getitem result "assigned_priority") = Ret (VStr "Urgent").
Proof.
  split; [|split].
  - vm_compute; reflexivity.
  - reflexivity.
  - vm_compute; reflexivity.
Qed.

(** ** Routing (C7) *)

Lemma valid_agents_names (agents : list value) (names : list value) :
  map_outcome (fun agent => subscript agent "name") agents = Ret names ->
  names = agent_names agents.
Proof.
  revert names. induction agents as [|agent agents IH]; intros names; cbn [map_outcome].
  - now intros [= <-].
  - destruct agent as [ | | | | | |d]; cbn [subscript bind]; try discriminate.
    unfold getitem. destruct (d !! "name") as [name|] eqn:Hname; cbn [bind]; [|discriminate].
    destruct (map_outcome _ agents) as [rest|e]; cbn [bind]; [|discriminate].
    intros [= <-]. cbn [agent_names]. rewrite Hname. now rewrite <- (IH rest eq_refl).
Qed.

Lemma described_agents_named (agents : list value) (descriptions : list fragment) :
  map_outcome agent_description agents = Ret descriptions ->
  map_outcome (fun agent => subscript agent "name") agents = Ret (agent_names agents).
Proof.
  revert descriptions. induction agents as [|agent agents IH]; intros descriptions;
    cbn [map_outcome]; [reflexivity|].
  unfold agent_description at 1.
  destruct (subscript agent "name") as [name|e] eqn:Hname; cbn [bind]; [|discriminate].
  destruct (let* description := subscript agent "description" in _) as [d|e];
    cbn [bind]; [|discriminate].
  destruct (map_outcome agent_description agents) as [rest|e] eqn:Hrest;
    cbn [bind]; [|discriminate].
  intros _. rewrite (IH rest eq_refl). cbn [bind].
  destruct agent as [ | | | | | |dct]; cbn [subscript] in Hname; try discriminate.
  unfold getitem in Hname. cbn [agent_names].
  destruct (dct !! "name"); [|discriminate]. now inversion Hname.
Qed.

Section Routing.

Variable messages_create : prompt -> outcome string.
Variable ticket : dict.
Variable agents : list value.

(** Whatever is returned is a configured name or the fixed default. *)
Lemma route_to_agent_range (a : string) :
  route_to_agent messages_create ticket agents = Ret a ->
  str_in a (agent_names agents) = true \/ a = default_team.
Proof.
  unfold route_to_agent.
  destruct (map_outcome agent_description agents) as [descriptions|e]; cbn [bind];
    [|discriminate].
  destruct (getitem ticket "subject") as [s|e]; cbn [bind]; [|discriminate].
  destruct (getitem ticket "description") as [d|e]; cbn [bind]; [|discriminate].
  destruct (messages_create _) as [raw|e]; cbn [bind try_except];
    [|intros [= <-]; now right].
  destruct (map_outcome (fun agent => subscript agent "name") agents) as [names|e] eqn:Hn;
    cbn [bind]; [|intros [= <-]; now right].
  apply valid_agents_names in Hn. subst names.
  destruct (str_in (strip raw) (agent_names agents)) eqn:Hin; cbn [negb];
    intros [= <-]; [now left | now right].
Qed.

(** Once the prompt is built the router returns, and what it returns is
    decided by the answer of the service. *)
Lemma route_to_agent_decision (descriptions : list fragment) (s d : value) :
  map_outcome agent_description agents = Ret descriptions ->
  getitem ticket "subject" = Ret s ->
  getitem ticket "description" = Ret d ->
  route_to_agent messages_create ticket agents
  = Ret (match messages_create (routing_prompt s d descriptions) with
         | Ret raw =>
             if str_in (strip raw) (agent_names agents) then strip raw else default_team
         | Raise _ => default_team
         end).
Proof.
  intros Ha Hs Hd. unfold route_to_agent. rewrite Ha, Hs, Hd. cbn [bind].
  destruct (messages_create _) as [raw|e]; cbn [bind try_except]; [|reflexivity].
  rewrite (described_agents_named _ _ Ha). cbn [bind].
  now destruct (str_in (strip raw) (agent_names agents)).
Qed.

End Routing.

(** C7, counterexample. With two configured teams, neither of them the
    literal default, an unrecognised answer is routed to
    ["Integrations & API Team"]: not a configured name, and not the first
    team. *)
Lemma route_default_outside_configuration :
  ~ routes_to_configured_or_first off_list urgent_ticket billing_agents.
Proof.
  intros H.
  assert (E : route_to_agent off_list urgent_ticket billing_agents
              = Ret "Integrations & API Team") by (vm_compute; reflexivity).
  destruct (H _ E) as [Hin | Hfirst]; vm_compute in Hin || vm_compute in Hfirst; discriminate.
Qed.

(** C7, amended. The router returns only a configured team name or the
    fixed literal ["Integrations & API Team"]; and once its prompt is built
    it does return: the stripped answer when that is a configured name, the
    literal when it is not or when the service raises. *)
Theorem route_to_agent_configured_or_literal
    (messages_create : prompt -> outcome string) (ticket : dict) (agents : list value) :
  (forall a,
      route_to_agent messages_create ticket agents = Ret a ->
      str_in a (agent_names agents) = true \/ a = "Integrations & API Team")
  /\ (forall descriptions s d,
        map_outcome agent_description agents = Ret descriptions ->
        getitem ticket "subject" = Ret s ->
        getitem ticket "description" = Ret d ->
        route_to_agent messages_create ticket agents
        = Ret (match messages_create (routing_prompt s d descriptions) with
               | Ret raw =>
                   if str_in (strip raw) (agent_names agents)
                   then strip raw else "Integrations & API Team"
               | Raise _ => "Integrations & API Team"
               end)).
Proof.
  split.
  - apply route_to_agent_range.
  - apply route_to_agent_decision.
Qed.

Lemma route_to_agent_configured_or_literal_witness :
  route_to_agent on_list urgent_ticket billing_agents = Ret "Onboarding Team"
  /\ route_to_agent off_list urgent_ticket billing_agents = Ret "Integrations & API Team"
  /\ (str_in "Onboarding Team" (agent_names billing_agents) = true
      \/ "Onboarding Team" = "Integrations & API Team").
Proof.
  destruct (route_to_agent_configured_or_literal on_list urgent_ticket billing_agents)
    as (Hrange & Hon).
  destruct (route_to_agent_configured_or_literal off_list urgent_ticket billing_agents)
    as (_ & Hoff).
  assert (E : route_to_agent on_list urgent_ticket billing_agents = Ret "Onboarding Team")
    by exact (Hon _ _ _ eq_refl eq_refl eq_refl).
  split; [exact E|].
  split; [exact (Hoff _ _ _ eq_refl eq_refl eq_refl)|].
  exact (Hrange _ E).
Defined.

(** ** Drafts (C8) *)

(** Inverting a chain of [let*] that is known to return. *)
Ltac bind_inv H :=
  repeat match type of H with
         | bind ?m _ = Ret _ =>
             let E := fresh "E" in
             destruct m eqn:E; cbn [bind] in H; [|discriminate H]
         end.

Section Drafts.

Variable messages_create : prompt -> outcome string.
Variable json_loads : string -> outcome value.
Variable environ : gmap string string.
Variable sendgrid_send : mail -> outcome Z.
Variable read_json_file : string -> option (outcome value).
Variable ticket : dict.
Variable agents : list value.

Let steps := process_ticket_steps_1_to_4 messages_create json_loads environ sendgrid_send
               ticket agents.
Let run := process_ticket messages_create json_loads environ sendgrid_send read_json_file
             ticket agents.

(** What steps 1 to 4 leave in the record. *)
Lemma steps_record (priority : value) (assigned_agent : string) (result : dict) :
  steps = Ret (priority, assigned_agent, result) ->
  result !! "assigned_priority" = Some priority
  /\ result !! "assigned_agent" = Some (VStr assigned_agent)
  /\ result !! "draft_response" = None.
Proof.
  subst steps. unfold process_ticket_steps_1_to_4. intros H.
  bind_inv H.
  injection H as <- <- <-.
  repeat match goal with
         | E : (if ?c then _ else _) = Ret _ |- _ =>
             destruct c; [bind_inv E|]; injection E as <-
         end;
    repeat split;
    repeat (rewrite lookup_insert_ne by discriminate);
    try apply lookup_insert_eq; apply lookup_empty.
Qed.


(** Steps 1 to 4 have read the columns that the draft prompt needs. *)
Lemma steps_columns (state : value * string * dict) :
  steps = Ret state ->
  exists s d c,
    getitem ticket "subject" = Ret s
    /\ getitem ticket "description" = Ret d
    /\ getitem ticket "customer_name" = Ret c.
Proof.
  subst steps. unfold process_ticket_steps_1_to_4. intros H.
  bind_inv H. do 3 eexists. repeat split; eassumption.
Qed.

Lemma low_priority_iff (priority : value) :
  value_in_strs priority ["P2"; "P3"] = true
  <-> priority = VStr "P2" \/ priority = VStr "P3".
Proof.
  split.
  - destruct priority as [ | | | |p| | ]; cbn [value_in_strs existsb]; try discriminate.
    intros H. apply orb_true_iff in H as [H|H].
    + apply String.eqb_eq in H. left. now subst.
    + apply orb_true_iff in H as [H|H]; [|discriminate].
      apply String.eqb_eq in H. right. now subst.
  - now intros [-> | ->].
Qed.

(** A draft is a text or [None]. *)
Lemma generate_draft_response_shape (assigned_agent : string) (draft : value) :
  generate_draft_response messages_create read_json_file ticket assigned_agent = Ret draft ->
  draft = VNone \/ exists text, draft = VStr text.
Proof.
  unfold generate_draft_response. intros H. bind_inv H.
  destruct (messages_create _) as [text|e]; cbn [bind try_except] in H;
    injection H as <-; eauto.
Qed.

(** A failing generation call gives [None], not an exception. *)
Lemma generate_draft_response_on_failure (assigned_agent : string)
    (kb : list (string * value)) (kb_context : list fragment) (s d c : value) (e : exn) :
  load_knowledge_base read_json_file = Ret kb ->
  map_outcome category_context kb = Ret kb_context ->
  getitem ticket "subject" = Ret s ->
  getitem ticket "description" = Ret d ->
  getitem ticket "customer_name" = Ret c ->
  messages_create (draft_prompt s d c assigned_agent kb_context) = Raise e ->
  generate_draft_response messages_create read_json_file ticket assigned_agent = Ret VNone.
Proof.
  intros Hkb Hctx Hs Hd Hc He. unfold generate_draft_response.
  rewrite Hkb. cbn [bind]. rewrite Hctx. cbn [bind]. rewrite Hs, Hd, Hc. cbn [bind].
  now rewrite He.
Qed.

Lemma run_draft (result : dict) :
  run = Ret result ->
  exists priority assigned_agent before,
    steps = Ret (priority, assigned_agent, before)
    /\ result !! "assigned_priority" = Some priority
    /\ (if value_in_strs priority ["P2"; "P3"]
        then exists draft,
               generate_draft_response messages_create read_json_file ticket assigned_agent
               = Ret draft
               /\ result = <["draft_response" := draft]> before
        else result = before /\ result !! "draft_response" = None).
Proof.
  subst run. unfold process_ticket. fold steps.
  destruct steps as [[[priority assigned_agent] before]|e] eqn:Hsteps; cbn [bind];
    [|discriminate].
  destruct (steps_record _ _ _ Hsteps) as (Hp & _ & Hd).
  intros H. exists priority, assigned_agent, before. split; [reflexivity|].
  destruct (value_in_strs priority ["P2"; "P3"]).
  - bind_inv H. injection H as <-.
    split; [now rewrite lookup_insert_ne|]. eauto.
  - injection H as <-. auto.
Qed.

End Drafts.

(** C8. In every result of [process_ticket]: a [draft_response] entry
    exists only if the assigned priority is P2 or P3; with P0 or P1 there is
    none; an entry is a text or [None]. And when every draft-stage call of
    the service raises while the knowledge base loads, the run is steps 1 to
    4 followed by recording [None] as the draft of a P2 or P3 ticket: the
    failure of the generation call is not raised. *)
Theorem draft_only_for_low_priority
    (messages_create : prompt -> outcome string) (json_loads : string -> outcome value)
    (environ : gmap string string) (sendgrid_send : mail -> outcome Z)
    (read_json_file : string -> option (outcome value))
    (ticket : dict) (agents : list value) :
  let run :=
    process_ticket messages_create json_loads environ sendgrid_send read_json_file
      ticket agents in
  (forall result,
      run = Ret result ->
      (forall draft,
          result !! "draft_response" = Some draft ->
          (result !! "assigned_priority" = Some (VStr "P2")
           \/ result !! "assigned_priority" = Some (VStr "P3"))
          /\ (draft = VNone \/ exists text, draft = VStr text))
      /\ (result !! "assigned_priority" = Some (VStr "P0")
          \/ result !! "assigned_priority" = Some (VStr "P1") ->
          result !! "draft_response" = None))
  /\ (forall kb kb_context,
        (forall p, prompt_stage p = DraftStage -> exists e, messages_create p = Raise e) ->
        load_knowledge_base read_json_file = Ret kb ->
        map_outcome category_context kb = Ret kb_context ->
        run = (let* steps :=
                 process_ticket_steps_1_to_4 messages_create json_loads environ
                   sendgrid_send ticket agents in
               match steps with
               | (priority, _, before) =>
                   if value_in_strs priority ["P2"; "P3"]
                   then Ret (<["draft_response" := VNone]> before)
                   else Ret before
               end)).
Proof.
  intros run. split.
  - intros result Hrun.
    destruct (run_draft _ _ _ _ _ _ _ _ Hrun)
      as (priority & assigned_agent & before & Hsteps & Hp & Hdraft).
    destruct (value_in_strs priority ["P2"; "P3"]) eqn:Hlow.
    + destruct Hdraft as (d & Hgen & ->). apply low_priority_iff in Hlow.
      split.
      * intros draft Hd. rewrite lookup_insert_eq in Hd. injection Hd as <-.
        split; [|exact (generate_draft_response_shape _ _ _ _ _ Hgen)].
        rewrite Hp. destruct Hlow as [-> | ->]; auto.
      * rewrite Hp. intros [[= ->] | [= ->]]; destruct Hlow; discriminate.
    + destruct Hdraft as (-> & Hnone). split.
      * intros draft Hd. congruence.
      * intros _. exact Hnone.
  - intros kb kb_context Hfail Hkb Hctx. subst run. unfold process_ticket.
    destruct (process_ticket_steps_1_to_4 _ _ _ _ _ _)
      as [[[priority assigned_agent] before]|e] eqn:Hsteps; cbn [bind]; [|reflexivity].
    destruct (value_in_strs priority ["P2"; "P3"]); [|reflexivity].
    destruct (steps_columns _ _ _ _ _ _ _ Hsteps) as (s & d & c & Hs & Hd & Hc).
    destruct (Hfail (draft_prompt s d c assigned_agent kb_context) eq_refl) as [e He].
    now rewrite (generate_draft_response_on_failure _ _ _ _ _ _ _ _ _ e Hkb Hctx Hs Hd Hc He).
Qed.

Lemma draft_only_for_low_priority_witness :
  let run :=
    process_ticket drafts_down sample_loads ∅ mailer_down no_files plain_ticket sample_agents in
  match run with
  | Ret result =>
      result !! "draft_response" = Some VNone
      /\ (result !! "assigned_priority" = Some (VStr "P2")
          \/ result !! "assigned_priority" = Some (VStr "P3"))
  | Raise _ => False
  end.
Proof.
  intros run.
  destruct (draft_only_for_low_priority drafts_down sample_loads ∅ mailer_down no_files
              plain_ticket sample_agents) as (Hshape & Hfail).
  fold run in Hshape, Hfail.
  assert (Hdown : forall p, prompt_stage p = DraftStage -> exists e, drafts_down p = Raise e).
  { intros p Hp. unfold drafts_down. rewrite Hp. eauto. }
  specialize (Hfail [] [] Hdown eq_refl eq_refl).
  assert (Hdraft : (let* result := run in getitem result "draft_response") = Ret VNone).
  { rewrite Hfail. vm_compute. reflexivity. }
  destruct run as [result|e]; [|discriminate Hdraft].
  cbn [bind] in Hdraft. unfold getitem in Hdraft.
  destruct (result !! "draft_response") as [draft|] eqn:Hlookup; [|discriminate Hdraft].
  injection Hdraft as ->.
  split; [reflexivity|].
  exact (proj1 (proj1 (Hshape result eq_refl) VNone Hlookup)).
Defined.

(** ** Alerts (C9) *)

Section Alerts.

Variable environ : gmap string string.
Variable sendgrid_send : mail -> outcome Z.

(** The delivery block always returns a boolean, true exactly for the
    status codes 200 and 202. *)
Lemma deliver_total (message : mail) :
  exists sent,
    deliver sendgrid_send message = Ret sent
    /\ (sent = true <-> sendgrid_send message = Ret 200 \/ sendgrid_send message = Ret 202).
Proof.
  unfold deliver. destruct (sendgrid_send message) as [code|e]; cbn [bind try_except].
  - exists ((code =? 200) || (code =? 202)). split; [reflexivity|].
    rewrite orb_true_iff, !Z.eqb_eq. split; intros [H|H]; try (injection H as H); subst; auto.
  - exists false. split; [reflexivity|].
    split; [discriminate | intros [H|H]; discriminate].
Qed.

(** Without a recipient both alerts are skipped. *)
Lemma alerts_skipped (ticket analysis : dict) :
  (recipient environ "GUARDIAN_EMAIL" = None ->
   send_guardian_alert environ sendgrid_send ticket analysis = Ret false)
  /\ (recipient environ "OPPORTUNITY_EMAIL" = None ->
      send_opportunity_alert environ sendgrid_send ticket analysis = Ret false).
Proof.
  split; intros H.
  - unfold send_guardian_alert. now rewrite H.
  - unfold send_opportunity_alert. now rewrite H.
Qed.

(** With every field that the template reads in place, the Guardian alert
    is the delivery of its message, hence a boolean. *)
Lemma send_guardian_alert_complete (ticket guardian_result : dict)
    (ticket_id customer_name ticket_subject description risk_score evidence reasoning : value)
    (mrr : Z) (sentiment kam_email : string) :
  recipient environ "GUARDIAN_EMAIL" = Some kam_email ->
  ticket !! "ticket_id" = Some ticket_id ->
  ticket !! "customer_name" = Some customer_name ->
  ticket !! "mrr" = Some (VInt mrr) ->
  ticket !! "subject" = Some ticket_subject ->
  ticket !! "description" = Some description ->
  guardian_result !! "risk_score" = Some risk_score ->
  guardian_result !! "sentiment" = Some (VStr sentiment) ->
  guardian_result !! "evidence" = Some evidence ->
  guardian_result !! "reasoning" = Some reasoning ->
  send_guardian_alert environ sendgrid_send ticket guardian_result
  = deliver sendgrid_send
      {| from_email := kam_email; to_emails := kam_email;
         subject := [FStr ticket_id];
         html_content :=
           [FStr ticket_id; FStr customer_name; FThousands (VInt mrr);
            FStr risk_score; FTitle sentiment; FStr evidence; FStr reasoning;
            FStr ticket_subject; FStr description] |}.
Proof.
  intros Hr H1 H2 H3 H4 H5 H6 H7 H8 H9. unfold send_guardian_alert, getitem.
  now rewrite Hr, H1, H2, H3, H4, H5, H6, H7, H8, H9.
Qed.

(** The same for the Opportunity alert, whose [intent_type] may be absent
    but must be hashable. *)
Lemma send_opportunity_alert_complete (ticket opportunity_result : dict)
    (ticket_id customer_name ticket_subject description confidence evidence reasoning : value)
    (mrr : Z) (sales_email intent_display approach : string) :
  recipient environ "OPPORTUNITY_EMAIL" = Some sales_email ->
  table_get intent_type_display (dict_get opportunity_result "intent_type" VNone)
    "Business Inquiry" = Ret intent_display ->
  get_approach_recommendation (dict_get opportunity_result "intent_type" VNone)
    = Ret approach ->
  ticket !! "ticket_id" = Some ticket_id ->
  ticket !! "customer_name" = Some customer_name ->
  ticket !! "mrr" = Some (VInt mrr) ->
  ticket !! "subject" = Some ticket_subject ->
  ticket !! "description" = Some description ->
  opportunity_result !! "confidence" = Some confidence ->
  opportunity_result !! "evidence" = Some evidence ->
  opportunity_result !! "reasoning" = Some reasoning ->
  send_opportunity_alert environ sendgrid_send ticket opportunity_result
  = deliver sendgrid_send
      {| from_email := sales_email; to_emails := sales_email;
         subject := [FText intent_display; FStr ticket_id];
         html_content :=
           [FStr ticket_id; FStr customer_name; FThousands (VInt mrr);
            FText intent_display; FStr confidence; FStr evidence;
            FStr ticket_subject; FStr description; FStr reasoning; FText approach] |}.
Proof.
  intros Hr Hi Ha H1 H2 H3 H4 H5 H6 H7 H8. unfold send_opportunity_alert, getitem.
  rewrite Hr, Hi. cbn [bind]. rewrite H1, H2, H3, H4, H5, H6, H7, H8. cbn [bind format_thousands].
  now rewrite Ha.
Qed.

End Alerts.

(** C9 (the code departs from the claim). With the recipients configured
    and a mail client that would accept the message, an analysis record that
    lacks a field of the template makes the alert raise [KeyError] instead of
    returning a boolean; such records are what the analyzers return for a
    completion that omits the field, and the exception leaves
    [process_ticket] too. *)
Theorem alert_raises_on_partial_analysis :
  send_guardian_alert alerts_configured accepted urgent_ticket score_only
  = Raise (KeyError "sentiment")
  /\ send_opportunity_alert alerts_configured accepted urgent_ticket intent_only
     = Raise (KeyError "evidence")
  /\ analyze_churn_risk risk_only_service partial_loads VNone VNone VNone = score_only
  /\ detect_business_intent intent_only_service partial_loads VNone = intent_only
  /\ process_ticket risk_only_service partial_loads alerts_configured accepted no_files
       urgent_ticket sample_agents = Raise (KeyError "sentiment")
  /\ process_ticket intent_only_service partial_loads alerts_configured accepted no_files
       urgent_ticket sample_agents = Raise (KeyError "evidence").
Proof.
  repeat split; vm_compute; reflexivity.
Qed.

(** ** Summaries over an empty run (C10) *)

Create HintDb division discriminated.

Lemma safe_ret {A : Type} (a : A) : divides_safely (Ret a).
Proof. discriminate. Qed.

Lemma safe_bind {A B : Type} (m : outcome A) (k : A -> outcome B) :
  divides_safely m -> (forall a, divides_safely (k a)) -> divides_safely (bind m k).
Proof.
  intros Hm Hk. destruct m as [a|e]; cbn [bind]; [apply Hk|].
  intros [= ->]. now apply Hm.
Qed.

Lemma safe_raise {A B : Type} (e : exn) :
  divides_safely (@Raise A e) -> divides_safely (@Raise B e).
Proof. intros H [= ->]. now apply H. Qed.

Lemma safe_if {A : Type} (c : bool) (m1 m2 : outcome A) :
  divides_safely m1 -> divides_safely m2 -> divides_safely (if c then m1 else m2).
Proof. now destruct c. Qed.

Lemma safe_getitem (d : dict) (k : string) : divides_safely (getitem d k).
Proof. unfold getitem. destruct (d !! k); discriminate. Qed.

Lemma safe_subscript (v : value) (k : string) : divides_safely (subscript v k).
Proof. destruct v; try discriminate. apply safe_getitem. Qed.

Lemma safe_method_get (v : value) (k : string) (dflt : value) :
  divides_safely (method_get v k dflt).
Proof. destruct v; discriminate. Qed.

Lemma safe_table_lookup (table : list (string * string)) (key : value) :
  divides_safely (table_lookup table key).
Proof. destruct key; discriminate. Qed.

Lemma safe_format_thousands (v : value) : divides_safely (format_thousands v).
Proof. destruct v; discriminate. Qed.

Lemma safe_replace_title (v : value) : divides_safely (replace_title v).
Proof. destruct v; discriminate. Qed.

Lemma safe_method_lower (v : value) : divides_safely (method_lower v).
Proof. destruct v; discriminate. Qed.

Lemma safe_slice_value (v : value) (n : nat) : divides_safely (slice_value v n).
Proof. destruct v; discriminate. Qed.

Lemma safe_map_outcome {A B : Type} (f : A -> outcome B) (l : list A) :
  (forall x, divides_safely (f x)) -> divides_safely (map_outcome f l).
Proof.
  intros Hf. induction l as [|x l IH]; cbn [map_outcome]; [apply safe_ret|].
  apply safe_bind; [apply Hf|]. intros y. apply safe_bind; [exact IH|].
  intros ys. apply safe_ret.
Qed.

Lemma safe_filter_outcome {A : Type} (p : A -> outcome bool) (l : list A) :
  (forall x, divides_safely (p x)) -> divides_safely (filter_outcome p l).
Proof.
  intros Hp. induction l as [|x l IH]; cbn [filter_outcome]; [apply safe_ret|].
  apply safe_bind; [apply Hp|]. intros b. apply safe_bind; [exact IH|].
  intros ys. apply safe_ret.
Qed.

#[export] Hint Resolve safe_ret safe_getitem safe_subscript safe_method_get safe_table_lookup
  safe_format_thousands safe_replace_title safe_method_lower safe_slice_value : division.

(** Peeling the [let*] chain of a report function. *)
Ltac safe_chain :=
  repeat first
    [ apply safe_ret
    | apply safe_bind; [|intros ?]
    | apply safe_if
    | apply safe_map_outcome; intros ?
    | apply safe_filter_outcome; intros ?
    | solve [auto with division] ].

Section EmptyRun.

Variable format_percent : nat -> nat -> nat -> string.
Variable now : string.

Lemma percent_zero (digits a : nat) : percent format_percent digits a 0 = Raise ZeroDivisionError.
Proof. reflexivity. Qed.

Lemma percent_positive (digits a total : nat) :
  total <> 0%nat -> percent format_percent digits a total = Ret (format_percent digits a total).
Proof. intros H. unfold percent. destruct total; [contradiction | reflexivity]. Qed.

Lemma safe_is_guardian_alert (r : dict) : divides_safely (is_guardian_alert r).
Proof. unfold is_guardian_alert, getitem_get. safe_chain. Qed.

Lemma safe_is_opportunity_alert (r : dict) : divides_safely (is_opportunity_alert r).
Proof. unfold is_opportunity_alert, getitem_get. safe_chain. Qed.

Lemma generate_metrics_empty : generate_metrics format_percent [] = Raise ZeroDivisionError.
Proof. reflexivity. Qed.

Lemma generate_metrics_nonempty (results : list dict) :
  results <> [] -> divides_safely (generate_metrics format_percent results).
Proof.
  intros Hne. unfold generate_metrics.
  apply safe_bind; [apply safe_filter_outcome, safe_is_guardian_alert|]. intros g.
  apply safe_bind; [apply safe_filter_outcome, safe_is_opportunity_alert|]. intros o.
  rewrite percent_positive by (destruct results; [contradiction | discriminate]).
  cbn [bind]. apply safe_ret.
Qed.

Lemma generate_html_dashboard_empty (agents : list value) :
  generate_html_dashboard format_percent now [] agents
  = ([("zendesk_api_calls.json", JsonDoc (VList []));
      ("guardian_alerts_log.json", JsonDoc (VList []));
      ("opportunity_alerts_log.json", JsonDoc (VList []))],
     Raise ZeroDivisionError).
Proof. reflexivity. Qed.

Lemma safe_zendesk_call (ticket : dict) : divides_safely (zendesk_call ticket).
Proof. unfold zendesk_call, table_get, getitem2, getitem_get. safe_chain. Qed.

Lemma safe_guardian_log_entry (r : dict) : divides_safely (guardian_log_entry r).
Proof. unfold guardian_log_entry, getitem2, getitem_get. safe_chain. Qed.

Lemma safe_opportunity_log_entry (r : dict) : divides_safely (opportunity_log_entry r).
Proof. unfold opportunity_log_entry, getitem2, getitem_get. safe_chain. Qed.

Lemma safe_guardian_section (alerts : list dict) :
  divides_safely (generate_guardian_section alerts).
Proof.
  unfold generate_guardian_section. destruct alerts; [apply safe_ret|].
  apply safe_bind; [|intros; apply safe_ret].
  apply safe_map_outcome. intros r. unfold guardian_card, getitem2. safe_chain.
Qed.

Lemma safe_opportunity_section (alerts : list dict) :
  divides_safely (generate_opportunity_section alerts).
Proof.
  unfold generate_opportunity_section. destruct alerts; [apply safe_ret|].
  apply safe_bind; [|intros; apply safe_ret].
  apply safe_map_outcome. intros r. unfold opportunity_card, getitem2. safe_chain.
Qed.

Lemma safe_tickets_section (results : list dict) :
  divides_safely (generate_tickets_section results).
Proof. unfold generate_tickets_section, ticket_row, table_get. safe_chain. Qed.

Lemma safe_api_preview (sample_calls : list value) :
  divides_safely (generate_api_preview_section sample_calls).
Proof. unfold generate_api_preview_section, api_example. safe_chain. Qed.

Lemma safe_dashboard_html (results guardian_alerts opportunity_alerts auto_resolved : list dict)
    (zendesk_calls : list value) :
  results <> [] ->
  divides_safely
    (dashboard_html format_percent now results guardian_alerts opportunity_alerts
       auto_resolved zendesk_calls).
Proof.
  intros Hne. unfold dashboard_html.
  assert (Htotal : length results <> 0%nat) by (destruct results; [contradiction | discriminate]).
  rewrite !percent_positive by exact Htotal. cbn [bind].
  apply safe_bind; [apply safe_guardian_section|]. intros g.
  apply safe_bind; [apply safe_opportunity_section|]. intros o.
  apply safe_bind; [apply safe_tickets_section|]. intros t.
  apply safe_bind; [apply safe_api_preview|]. intros a.
  apply safe_ret.
Qed.

Lemma dashboard_html_empty (guardian_alerts opportunity_alerts auto_resolved : list dict)
    (zendesk_calls : list value) :
  dashboard_html format_percent now [] guardian_alerts opportunity_alerts
    auto_resolved zendesk_calls = Raise ZeroDivisionError.
Proof. reflexivity. Qed.

Lemma generate_html_dashboard_nonempty (results : list dict) (agents : list value) :
  results <> [] ->
  divides_safely (snd (generate_html_dashboard format_percent now results agents)).
Proof.
  intros Hne. unfold generate_html_dashboard.
  match goal with
  | |- context [match ?m with Ret _ => _ | Raise _ => _ end] =>
      assert (Hm : divides_safely m);
      [|destruct m as [[[[g o] a] z]|e]; [|exact (safe_raise e Hm)]]
  end.
  { apply safe_bind; [apply safe_filter_outcome, safe_is_guardian_alert|]. intros g.
    apply safe_bind; [apply safe_filter_outcome, safe_is_opportunity_alert|]. intros o.
    apply safe_bind; [apply safe_map_outcome, safe_zendesk_call|]. intros z.
    apply safe_ret. }
  pose proof (safe_map_outcome guardian_log_entry g safe_guardian_log_entry) as Hg.
  destruct (map_outcome guardian_log_entry g); [|exact (safe_raise e Hg)].
  pose proof (safe_map_outcome opportunity_log_entry o safe_opportunity_log_entry) as Ho.
  destruct (map_outcome opportunity_log_entry o); [|exact (safe_raise e Ho)].
  pose proof (safe_dashboard_html results g o a z Hne) as Hh.
  destruct (dashboard_html _ _ _ _ _ _ _); [discriminate | exact (safe_raise e Hh)].
Qed.

End EmptyRun.

(** C10. On an empty list of results both summaries fail by dividing by
    [total = 0]: [generate_metrics] raises [ZeroDivisionError], and
    [generate_html_dashboard] raises it while building the page, after the
    three JSON logs and before any report is written. On a non-empty list
    neither of them fails by a division by zero. *)
Theorem summaries_need_tickets
    (format_percent : nat -> nat -> nat -> string) (now : string) (agents : list value) :
  generate_metrics format_percent [] = Raise ZeroDivisionError
  /\ generate_html_dashboard format_percent now [] agents
     = ([("zendesk_api_calls.json", JsonDoc (VList []));
         ("guardian_alerts_log.json", JsonDoc (VList []));
         ("opportunity_alerts_log.json", JsonDoc (VList []))],
        Raise ZeroDivisionError)
  /\ (forall digits a, percent format_percent digits a (length (@nil dict))
                       = Raise ZeroDivisionError)
  /\ (forall results : list dict,
        results <> [] ->
        generate_metrics format_percent results <> Raise ZeroDivisionError
        /\ snd (generate_html_dashboard format_percent now results agents)
           <> Raise ZeroDivisionError
        /\ forall digits a,
             percent format_percent digits a (length results)
             = Ret (format_percent digits a (length results))).
Proof.
  split; [apply generate_metrics_empty|].
  split; [apply generate_html_dashboard_empty|].
  split; [intros; apply percent_zero|].
  intros results Hne.
  split; [now apply generate_metrics_nonempty|].
  split; [now apply generate_html_dashboard_nonempty|].
  intros digits a. apply percent_positive. destruct results; [contradiction | discriminate].
Qed.

Lemma summaries_need_tickets_witness :
  let format_percent := fun (_ _ _ : nat) => "0.0" in
  [quiet_result] <> []
  /\ generate_metrics format_percent [quiet_result] <> Raise ZeroDivisionError
  /\ percent format_percent 1 0 (length [quiet_result]) = Ret "0.0"
  /\ generate_metrics format_percent [] = Raise ZeroDivisionError.
Proof.
  intros format_percent.
  assert (Hne : [quiet_result] <> []) by discriminate.
  destruct (summaries_need_tickets format_percent "2024-05-01 09:00:00" [])
    as (Hempty & _ & _ & Hfull).
  destruct (Hfull [quiet_result] Hne) as (Hmetrics & _ & Hpercent).
  split; [exact Hne|]. split; [exact Hmetrics|]. split; [exact (Hpercent 1%nat 0%nat)|].
  exact Hempty.
Defined.

(** * Further properties of the pipeline *)

(** ** The priority classifier and the router *)

(** X1. When the service answers the priority prompt, the classifier
    returns one of P0, P1, P2, P3: the answer without its surrounding white
    space when that is one of the four, and P2 otherwise. The ticket's own
    [actual_priority] plays no part. *)
Theorem classify_priority_validates_answer
    (messages_create : prompt -> outcome string) (ticket : dict)
    (s d c : value) (text : string) :
  getitem ticket "subject" = Ret s ->
  getitem ticket "description" = Ret d ->
  getitem ticket "channel" = Ret c ->
  messages_create (priority_prompt s d c) = Ret text ->
  exists p,
    classify_priority messages_create ticket = Ret (VStr p)
    /\ In p valid_priorities
    /\ (In (strip text) valid_priorities -> p = strip text)
    /\ (~ In (strip text) valid_priorities -> p = "P2").
Proof. apply classify_priority_on_answer. Qed.

Lemma classify_priority_validates_answer_witness :
  let service := fun _ : prompt => Ret "  P1 " in
  classify_priority service urgent_ticket = Ret (VStr "P1")
  /\ classify_priority off_list urgent_ticket = Ret (VStr "P2").
Proof.
  intros service.
  destruct (classify_priority_validates_answer service urgent_ticket _ _ _ "  P1 "
              eq_refl eq_refl eq_refl eq_refl) as (p & Hp & Hin & Hkeep & _).
  destruct (classify_priority_validates_answer off_list urgent_ticket _ _ _ "Sales Team"
              eq_refl eq_refl eq_refl eq_refl) as (q & Hq & _ & _ & Hdefault).
  split.
  - rewrite Hp, Hkeep; [reflexivity|]. cbn. auto.
  - rewrite Hq, Hdefault; [reflexivity|].
    cbn. intros [H|[H|[H|[H|[]]]]]; discriminate H.
Defined.

Lemma map_outcome_returns {A B : Type} (f : A -> outcome B) (l : list A) :
  returns (map_outcome f l) <-> Forall (fun x => returns (f x)) l.
Proof.
  induction l as [|x l IH]; cbn [map_outcome].
  - split; [constructor | intros _; now exists []].
  - split.
    + intros [ys H]. destruct (f x) as [y|e] eqn:Hx; cbn [bind] in H; [|discriminate].
      destruct (map_outcome f l) as [zs|e]; cbn [bind] in H; [|discriminate].
      constructor; [now exists y | apply IH; now exists zs].
    + intros H. inversion H as [|? ? [y Hy] Hl]; subst.
      apply IH in Hl as [zs Hzs]. rewrite Hy, Hzs. cbn [bind]. now eexists.
Qed.

Lemma map_outcome_raises {A B : Type} (f : A -> outcome B) (l : list A) (e : exn) :
  map_outcome f l = Raise e -> exists x, In x l /\ f x = Raise e.
Proof.
  induction l as [|x l IH]; cbn [map_outcome]; [discriminate|].
  destruct (f x) as [y|e'] eqn:Hx; cbn [bind].
  - destruct (map_outcome f l) as [zs|e'']; cbn [bind]; [discriminate|].
    intros [= ->]. destruct (IH eq_refl) as (z & Hz & Hfz). exists z. split; [now right | exact Hfz].
  - intros [= ->]. exists x. split; [now left | exact Hx].
Qed.

Lemma strs_of_iterable_returns (v : value) :
  returns (strs_of_iterable v) <-> joinable v = true.
Proof.
  destruct v as [ | | | | |l| ]; cbn [strs_of_iterable joinable];
    try (split; [intros [x H]; discriminate H | discriminate]);
    try (split; [reflexivity | intros _; now eexists]).
  rewrite map_outcome_returns, forallb_forall, Forall_forall.
  split; intros H x Hx.
  - apply list_elem_of_In in Hx. destruct (H x Hx) as [y Hy].
    destruct x; try discriminate Hy; reflexivity.
  - apply list_elem_of_In in Hx. specialize (H x Hx).
    destruct x; try discriminate H. now eexists.
Qed.

Lemma agent_description_returns (agent : value) :
  returns (agent_description agent) <-> describable agent = true.
Proof.
  unfold agent_description, describable.
  destruct agent as [ | | | | | |d]; cbn [subscript bind];
    try (split; [intros [? H]; discriminate H | discriminate]).
  unfold getitem.
  destruct (d !! "name"); cbn [bind]; [|split; [intros [? H]; discriminate H | discriminate]].
  destruct (d !! "description"); cbn [bind];
    [|split; [intros [? H]; discriminate H | discriminate]].
  destruct (d !! "specialties") as [sp|]; cbn [bind];
    [|split; [intros [? H]; discriminate H | discriminate]].
  rewrite <- strs_of_iterable_returns.
  destruct (strs_of_iterable sp) as [strs|e]; cbn [bind].
  - split; intros _; now eexists.
  - split; intros [? H]; discriminate H.
Qed.

(** X2. Whether the router returns does not depend on the service: it
    returns exactly when every configured agent is a dict with a name, a
    description and joinable specialties, and the ticket has a subject and a
    description. A malformed configuration raises before the [try] and is
    not replaced by the default team. *)
Theorem route_to_agent_returns_iff
    (messages_create : prompt -> outcome string) (ticket : dict) (agents : list value) :
  (returns (route_to_agent messages_create ticket agents)
   <-> Forall (fun agent => describable agent = true) agents
       /\ is_Some (ticket !! "subject")
       /\ is_Some (ticket !! "description"))
  /\ (forall e,
        map_outcome agent_description agents = Raise e ->
        route_to_agent messages_create ticket agents = Raise e).
Proof.
  split.
  - assert (Hagents : Forall (fun agent => describable agent = true) agents
                      <-> returns (map_outcome agent_description agents)).
    { rewrite map_outcome_returns. apply Forall_iff. intros agent.
      symmetry. apply agent_description_returns. }
    rewrite Hagents. unfold route_to_agent, getitem.
    destruct (map_outcome agent_description agents) as [descriptions|e]; cbn [bind].
    + destruct (ticket !! "subject") as [s|]; cbn [bind];
        [destruct (ticket !! "description") as [d|]; cbn [bind]|].
      * split; [intros _; split; [now eexists | split; eauto]|]. intros _.
        destruct (messages_create _) as [text|e]; cbn [bind try_except]; [|now eexists].
        destruct (map_outcome _ agents); cbn [bind]; now eexists.
      * split; [intros [? H]; discriminate H | intros (_ & _ & [? H]); discriminate H].
      * split; [intros [? H]; discriminate H | intros (_ & [? H] & _); discriminate H].
    + split; [intros [? H]; discriminate H | intros ([? H] & _); discriminate H].
  - intros e He. unfold route_to_agent. now rewrite He.
Qed.

Lemma route_to_agent_returns_iff_witness :
  returns (route_to_agent unreachable urgent_ticket sample_agents)
  /\ ~ returns (route_to_agent on_list urgent_ticket [VNone]).
Proof.
  split.
  - apply (proj1 (route_to_agent_returns_iff unreachable urgent_ticket sample_agents)).
    split; [repeat constructor | split; eexists; vm_compute; reflexivity].
  - intros H.
    apply (proj1 (route_to_agent_returns_iff on_list urgent_ticket [VNone])) in H as [H _].
    inversion H as [|? ? Hd _]. discriminate Hd.
Defined.

(** ** The result record of [process_ticket] *)

Section ResultRecord.

Variable messages_create : prompt -> outcome string.
Variable json_loads : string -> outcome value.
Variable environ : gmap string string.
Variable sendgrid_send : mail -> outcome Z.
Variable read_json_file : string -> option (outcome value).
Variable ticket : dict.
Variable agents : list value.

Let steps := process_ticket_steps_1_to_4 messages_create json_loads environ sendgrid_send
               ticket agents.
Let run := process_ticket messages_create json_loads environ sendgrid_send read_json_file
             ticket agents.

(** Steps 1 to 4, when they return, leave a record of one shape. *)
Lemma steps_canonical (priority : value) (assigned_agent : string) (before : dict) :
  steps = Ret (priority, assigned_agent, before) ->
  exists ticket_id customer_name ticket_subject description channel mrr timestamp g o,
    ticket !! "ticket_id" = Some ticket_id
    /\ ticket !! "customer_name" = Some customer_name
    /\ ticket !! "subject" = Some ticket_subject
    /\ ticket !! "description" = Some description
    /\ ticket !! "channel" = Some channel
    /\ ticket !! "mrr" = Some mrr
    /\ ticket !! "timestamp" = Some timestamp
    /\ classify_priority messages_create ticket = Ret priority
    /\ route_to_agent messages_create ticket agents = Ret assigned_agent
    /\ stored_analysis "is_high_risk"
         (analyze_churn_risk messages_create json_loads description mrr priority)
         (send_guardian_alert environ sendgrid_send ticket
            (analyze_churn_risk messages_create json_loads description mrr priority))
         g
    /\ stored_analysis "has_business_intent"
         (detect_business_intent messages_create json_loads description)
         (send_opportunity_alert environ sendgrid_send ticket
            (detect_business_intent messages_create json_loads description))
         o
    /\ before
       = triaged_record priority assigned_agent g o
           (base_record ticket_id customer_name ticket_subject description channel mrr timestamp).
Proof.
  subst steps. unfold process_ticket_steps_1_to_4. intros H.
  destruct (ticket !! "ticket_id") as [ticket_id|] eqn:E1;
    unfold getitem at 1 in H; rewrite E1 in H; cbn [bind] in H; [|discriminate H].
  destruct (ticket !! "subject") as [ticket_subject|] eqn:E2;
    unfold getitem at 1 in H; rewrite E2 in H; cbn [bind] in H; [|discriminate H].
  destruct (ticket !! "customer_name") as [customer_name|] eqn:E3;
    unfold getitem at 1 in H; rewrite E3 in H; cbn [bind] in H; [|discriminate H].
  unfold getitem at 1 in H; rewrite E2 in H; cbn [bind] in H.
  destruct (ticket !! "description") as [description|] eqn:E4;
    unfold getitem at 1 in H; rewrite E4 in H; cbn [bind] in H; [|discriminate H].
  destruct (ticket !! "channel") as [channel|] eqn:E5;
    unfold getitem at 1 in H; rewrite E5 in H; cbn [bind] in H; [|discriminate H].
  destruct (ticket !! "mrr") as [mrr|] eqn:E6;
    unfold getitem at 1 in H; rewrite E6 in H; cbn [bind] in H; [|discriminate H].
  destruct (ticket !! "timestamp") as [timestamp|] eqn:E7;
    unfold getitem at 1 in H; rewrite E7 in H; cbn [bind] in H; [|discriminate H].
  destruct (classify_priority messages_create ticket) as [p|] eqn:Hp;
    cbn [bind] in H; [|discriminate H].
  destruct (route_to_agent messages_create ticket agents) as [a|] eqn:Ha;
    cbn [bind] in H; [|discriminate H].
  unfold getitem at 1 in H; rewrite E4 in H; cbn [bind] in H.
  unfold getitem at 1 in H; rewrite E6 in H; cbn [bind] in H.
  destruct (analyze_churn_risk_flag messages_create json_loads description mrr p)
    as (high & Hhigh & _).
  unfold getitem at 1 in H; rewrite Hhigh in H; cbn [bind truthy] in H.
  destruct (detect_business_intent_flag messages_create json_loads description)
    as (intent & Hintent & _).
  exists ticket_id, customer_name, ticket_subject, description, channel, mrr, timestamp.
  assert (Hrest : forall (r : dict) (g : dict),
             (let* ticket_text := getitem ticket "description" in
              let opportunity_result :=
                detect_business_intent messages_create json_loads ticket_text in
              let result := <["opportunity" := VDict opportunity_result]> r in
              let* has_business_intent := getitem opportunity_result "has_business_intent" in
              let* result :=
                if truthy has_business_intent then
                  let* _ := getitem opportunity_result "intent_type" in
                  let* email_sent :=
                    send_opportunity_alert environ sendgrid_send ticket opportunity_result in
                  Ret (<["opportunity" :=
                           VDict (<["email_sent" := VBool email_sent]> opportunity_result)]>
                         result)
                else Ret result in
              Ret (p, a, result)) = Ret (priority, assigned_agent, before) ->
             exists o,
               p = priority /\ a = assigned_agent
               /\ stored_analysis "has_business_intent"
                    (detect_business_intent messages_create json_loads description)
                    (send_opportunity_alert environ sendgrid_send ticket
                       (detect_business_intent messages_create json_loads description))
                    o
               /\ before = <["opportunity" := VDict o]> r).
  { intros r g. unfold getitem at 1. rewrite E4. cbn [bind].
    unfold getitem at 1. rewrite Hintent. cbn [bind truthy].
    destruct intent; intros H'.
    - match type of H' with
      | bind ?m _ = _ => destruct m as [r2|] eqn:Halert; cbn [bind] in H'; [|discriminate H']
      end.
      bind_inv Halert. injection Halert as <-. injection H' as <- <- <-.
      eexists. split; [reflexivity|]. split; [reflexivity|].
      split; [right; split; [exact Hintent | eauto]|].
      now rewrite insert_insert_eq.
    - cbn [bind] in H'. injection H' as <- <- <-.
      eexists. split; [reflexivity|]. split; [reflexivity|].
      split; [left; split; [exact Hintent | reflexivity] | reflexivity]. }
  destruct high.
  - match type of H with
    | bind ?m _ = _ => destruct m as [r1|] eqn:Halert; cbn [bind] in H; [|discriminate H]
    end.
    bind_inv Halert. injection Halert as <-.
    apply (Hrest _ ∅) in H as (o & <- & <- & Ho & ->).
    eexists. exists o.
    do 9 (split; [first [eassumption | reflexivity]|]).
    split; [right; split; [exact Hhigh | eauto]|].
    split; [exact Ho|].
    unfold triaged_record. now rewrite insert_insert_eq.
  - cbn [bind] in H.
    apply (Hrest _ ∅) in H as (o & <- & <- & Ho & ->).
    eexists. exists o.
    do 9 (split; [first [eassumption | reflexivity]|]).
    split; [left; split; [exact Hhigh | reflexivity]|].
    split; [exact Ho | reflexivity].
Qed.

(** The whole run, when it returns, adds at most the draft. *)
Lemma run_canonical (result : dict) :
  run = Ret result ->
  exists priority assigned_agent before,
    steps = Ret (priority, assigned_agent, before)
    /\ ((value_in_strs priority ["P2"; "P3"] = false /\ result = before)
        \/ (value_in_strs priority ["P2"; "P3"] = true
            /\ exists draft,
                 generate_draft_response messages_create read_json_file ticket assigned_agent
                 = Ret draft
                 /\ result = <["draft_response" := draft]> before)).
Proof.
  subst run. unfold process_ticket. fold steps.
  destruct steps as [[[priority assigned_agent] before]|e]; cbn [bind]; [|discriminate].
  intros H. exists priority, assigned_agent, before. split; [reflexivity|].
  destruct (value_in_strs priority ["P2"; "P3"]).
  - right. split; [reflexivity|]. bind_inv H. injection H as <-. eauto.
  - left. injection H as <-. auto.
Qed.

End ResultRecord.

(** Looking a key up in a record built by insertions. *)
Ltac lookup_record :=
  repeat first
    [ rewrite lookup_insert_eq
    | rewrite lookup_insert_ne by discriminate
    | rewrite lookup_empty ].

(** X3. The record returned by [process_ticket] holds the seven columns
    of the ticket with the ticket's values, the priority that the classifier
    returned and the team that the router returned, and no key besides the
    seven columns and the five stage keys; in particular the column
    [actual_priority] is not copied. *)
Theorem process_ticket_record_keys
    (messages_create : prompt -> outcome string) (json_loads : string -> outcome value)
    (environ : gmap string string) (sendgrid_send : mail -> outcome Z)
    (read_json_file : string -> option (outcome value))
    (ticket : dict) (agents : list value) (result : dict) :
  process_ticket messages_create json_loads environ sendgrid_send read_json_file
    ticket agents = Ret result ->
  (forall k, In k ticket_columns -> is_Some (ticket !! k) /\ result !! k = ticket !! k)
  /\ (exists priority,
        classify_priority messages_create ticket = Ret priority
        /\ result !! "assigned_priority" = Some priority)
  /\ (exists assigned_agent,
        route_to_agent messages_create ticket agents = Ret assigned_agent
        /\ result !! "assigned_agent" = Some (VStr assigned_agent))
  /\ (forall k, is_Some (result !! k) -> In k ticket_columns \/ In k stage_keys).
Proof.
  intros Hrun.
  destruct (run_canonical _ _ _ _ _ _ _ _ Hrun)
    as (priority & assigned_agent & before & Hsteps & Hresult).
  destruct (steps_canonical _ _ _ _ _ _ _ _ _ Hsteps)
    as (ticket_id & customer_name & ticket_subject & description & channel & mrr & timestamp
        & g & o & E1 & E2 & E3 & E4 & E5 & E6 & E7 & Hp & Ha & _ & _ & ->).
  assert (Hkeys : forall k, k <> "draft_response" -> result !! k
                    = triaged_record priority assigned_agent g o
                        (base_record ticket_id customer_name ticket_subject description
                           channel mrr timestamp) !! k).
  { intros k Hk. destruct Hresult as [(_ & ->) | (_ & draft & _ & ->)]; [reflexivity|].
    now rewrite lookup_insert_ne. }
  split; [|split; [|split]].
  - intros k Hk. cbn in Hk.
    destruct Hk as [<-|[<-|[<-|[<-|[<-|[<-|[<-|[]]]]]]]];
      (split; [eauto|]); rewrite Hkeys by discriminate;
      unfold triaged_record, base_record; lookup_record; congruence.
  - exists priority. split; [exact Hp|]. rewrite Hkeys by discriminate.
    unfold triaged_record. now lookup_record.
  - exists assigned_agent. split; [exact Ha|]. rewrite Hkeys by discriminate.
    unfold triaged_record. now lookup_record.
  - intros k [v Hv].
    assert (Hin : is_Some (triaged_record priority assigned_agent g o
                             (base_record ticket_id customer_name ticket_subject description
                                channel mrr timestamp) !! k)
                  \/ k = "draft_response").
    { destruct (decide (k = "draft_response")) as [->|Hk]; [now right|].
      left. rewrite <- Hkeys by exact Hk. eauto. }
    destruct Hin as [[w Hw] | ->]; [|right; cbn; tauto].
    unfold triaged_record, base_record in Hw.
    repeat (rewrite lookup_insert in Hw; case_decide; [subst k; cbn; tauto|]).
    rewrite lookup_empty in Hw. discriminate Hw.
Qed.

Lemma process_ticket_record_keys_witness :
  match process_ticket drafts_down sample_loads ∅ mailer_down no_files
          urgent_ticket sample_agents with
  | Ret result =>
      result !! "mrr" = Some (VInt 5000)
      /\ result !! "assigned_priority" = Some (VStr "P3")
      /\ result !! "actual_priority" = None
  | Raise _ => False
  end.
Proof.
  pose proof (process_ticket_record_keys drafts_down sample_loads ∅ mailer_down no_files
                urgent_ticket sample_agents) as Hkeys.
  assert (Hc : (let* result :=
                  process_ticket drafts_down sample_loads ∅ mailer_down no_files
                    urgent_ticket sample_agents in
                getitem result "assigned_priority") = Ret (VStr "P3"))
    by (vm_compute; reflexivity).
  destruct (process_ticket drafts_down sample_loads ∅ mailer_down no_files
              urgent_ticket sample_agents) as [result|e]; [|discriminate Hc].
  destruct (Hkeys result eq_refl) as (Hcols & _ & _ & Hother).
  split; [|split].
  - rewrite (proj2 (Hcols "mrr" ltac:(cbn; tauto))). reflexivity.
  - cbn [bind] in Hc. unfold getitem in Hc.
    destruct (result !! "assigned_priority"); [now injection Hc as -> | discriminate Hc].
  - destruct (result !! "actual_priority") as [v|] eqn:Hv; [|reflexivity].
    exfalso. destruct (Hother "actual_priority" (ex_intro _ v Hv)) as [H|H]; cbn in H;
      repeat (destruct H as [H|H]; [discriminate H|]); exact H.
Defined.

(** X4. In the record returned by [process_ticket] the entries [guardian]
    and [opportunity] are the records of the two analyzers for the ticket's
    description (and, for Guardian, its MRR and assigned priority): unchanged
    when the analyzer's flag is false, and with the boolean returned by the
    alert added as [email_sent] when the flag is true. *)
Theorem process_ticket_stores_analysis
    (messages_create : prompt -> outcome string) (json_loads : string -> outcome value)
    (environ : gmap string string) (sendgrid_send : mail -> outcome Z)
    (read_json_file : string -> option (outcome value))
    (ticket : dict) (agents : list value) (result : dict) :
  process_ticket messages_create json_loads environ sendgrid_send read_json_file
    ticket agents = Ret result ->
  exists description mrr priority g o,
    ticket !! "description" = Some description
    /\ ticket !! "mrr" = Some mrr
    /\ classify_priority messages_create ticket = Ret priority
    /\ result !! "guardian" = Some (VDict g)
    /\ result !! "opportunity" = Some (VDict o)
    /\ stored_analysis "is_high_risk"
         (analyze_churn_risk messages_create json_loads description mrr priority)
         (send_guardian_alert environ sendgrid_send ticket
            (analyze_churn_risk messages_create json_loads description mrr priority))
         g
    /\ stored_analysis "has_business_intent"
         (detect_business_intent messages_create json_loads description)
         (send_opportunity_alert environ sendgrid_send ticket
            (detect_business_intent messages_create json_loads description))
         o.
Proof.
  intros Hrun.
  destruct (run_canonical _ _ _ _ _ _ _ _ Hrun)
    as (priority & assigned_agent & before & Hsteps & Hresult).
  destruct (steps_canonical _ _ _ _ _ _ _ _ _ Hsteps)
    as (ticket_id & customer_name & ticket_subject & description & channel & mrr & timestamp
        & g & o & _ & _ & _ & E4 & _ & E6 & _ & Hp & _ & Hg & Ho & ->).
  exists description, mrr, priority, g, o.
  do 3 (split; [assumption|]).
  assert (Hkeys : forall k, k <> "draft_response" -> result !! k
                    = triaged_record priority assigned_agent g o
                        (base_record ticket_id customer_name ticket_subject description
                           channel mrr timestamp) !! k).
  { intros k Hk. destruct Hresult as [(_ & ->) | (_ & draft & _ & ->)]; [reflexivity|].
    now rewrite lookup_insert_ne. }
  rewrite !Hkeys by discriminate. unfold triaged_record.
  split; [now lookup_record|]. split; [now lookup_record|]. split; assumption.
Qed.

(** A service that answers the Guardian stage only. *)
Lemma process_ticket_stores_analysis_witness :
  match process_ticket risk_only_service complete_loads alerts_configured accepted no_files
          urgent_ticket sample_agents with
  | Ret result =>
      exists g, result !! "guardian" = Some (VDict g)
                /\ g !! "email_sent" = Some (VBool true)
                /\ g !! "is_high_risk" = Some (VBool true)
  | Raise _ => False
  end.
Proof.
  pose proof (process_ticket_stores_analysis risk_only_service complete_loads
                alerts_configured accepted no_files urgent_ticket sample_agents) as Hstore.
  assert (Hc : (let* result :=
                  process_ticket risk_only_service complete_loads alerts_configured accepted
                    no_files urgent_ticket sample_agents in
                let* g := getitem result "guardian" in
                let* sent := subscript g "email_sent" in
                let* high := subscript g "is_high_risk" in
                Ret (sent, high)) = Ret (VBool true, VBool true))
    by (vm_compute; reflexivity).
  destruct (process_ticket risk_only_service complete_loads alerts_configured accepted
              no_files urgent_ticket sample_agents) as [result|e]; [|discriminate Hc].
  destruct (Hstore result eq_refl) as (_ & _ & _ & g & _ & _ & _ & _ & Hg & _).
  exists g. cbn [bind] in Hc. unfold getitem in Hc. rewrite Hg in Hc.
  cbn [bind subscript] in Hc. unfold getitem in Hc.
  destruct (g !! "email_sent") as [sent|]; cbn [bind] in Hc; [|discriminate Hc].
  destruct (g !! "is_high_risk") as [high|]; cbn [bind] in Hc; [|discriminate Hc].
  injection Hc as -> ->. auto.
Defined.

Lemma getitem_Some (d : dict) (k : string) (v : value) : d !! k = Some v -> getitem d k = Ret v.
Proof. intros H. unfold getitem. now rewrite H. Qed.

(** X5. A ticket for which every call of the completion service raises
    still gets a complete record, whatever the parser, the environment and
    the mail client are: priority P2 (the ticket having no [actual_priority]),
    the default team, the two zeroed analysis records, and [None] as draft. It
    takes the seven columns, describable agents and a loadable knowledge
    base. *)
Theorem process_ticket_safe_defaults
    (messages_create : prompt -> outcome string) (json_loads : string -> outcome value)
    (environ : gmap string string) (sendgrid_send : mail -> outcome Z)
    (read_json_file : string -> option (outcome value))
    (ticket : dict) (agents : list value)
    (ticket_id customer_name ticket_subject description channel mrr timestamp : value)
    (kb : list (string * value)) (kb_context : list fragment) :
  (forall p, exists e, messages_create p = Raise e) ->
  ticket !! "ticket_id" = Some ticket_id ->
  ticket !! "customer_name" = Some customer_name ->
  ticket !! "subject" = Some ticket_subject ->
  ticket !! "description" = Some description ->
  ticket !! "channel" = Some channel ->
  ticket !! "mrr" = Some mrr ->
  ticket !! "timestamp" = Some timestamp ->
  ticket !! "actual_priority" = None ->
  Forall (fun agent => describable agent = true) agents ->
  load_knowledge_base read_json_file = Ret kb ->
  map_outcome category_context kb = Ret kb_context ->
  process_ticket messages_create json_loads environ sendgrid_send read_json_file
    ticket agents
  = Ret (<["draft_response" := VNone]>
           (triaged_record (VStr "P2") "Integrations & API Team"
              guardian_failure_fallback opportunity_failure_fallback
              (base_record ticket_id customer_name ticket_subject description
                 channel mrr timestamp))).
Proof.
  intros Hfail E1 E2 E3 E4 E5 E6 E7 Enone Hagents Hkb Hctx.
  assert (Hdescribed : returns (map_outcome agent_description agents)).
  { apply map_outcome_returns. eapply Forall_impl; [exact Hagents|].
    intros agent. apply agent_description_returns. }
  destruct Hdescribed as [descriptions Hdescriptions].
  pose proof (getitem_Some _ _ _ E3) as G3.
  pose proof (getitem_Some _ _ _ E4) as G4.
  pose proof (getitem_Some _ _ _ E5) as G5.
  destruct (Hfail (priority_prompt ticket_subject description channel)) as [e1 He1].
  destruct (Hfail (routing_prompt ticket_subject description descriptions)) as [e2 He2].
  destruct (Hfail (guardian_prompt description mrr (VStr "P2"))) as [e3 He3].
  destruct (Hfail (opportunity_prompt description)) as [e4 He4].
  destruct (Hfail (draft_prompt ticket_subject description customer_name
                     "Integrations & API Team" kb_context)) as [e5 He5].
  unfold process_ticket, process_ticket_steps_1_to_4.
  rewrite (getitem_Some _ _ _ E1), G3, (getitem_Some _ _ _ E2), G4, G5,
    (getitem_Some _ _ _ E6), (getitem_Some _ _ _ E7).
  cbn [bind].
  rewrite (classify_priority_on_failure _ _ _ _ _ _ G3 G4 G5 He1), Enone.
  rewrite (route_to_agent_on_failure _ _ _ _ _ _ _ Hdescriptions G3 G4 He2).
  cbn [bind].
  rewrite (analyze_churn_risk_on_failure _ json_loads _ _ _ _ He3).
  rewrite (detect_business_intent_on_failure _ json_loads _ _ He4).
  change (getitem guardian_failure_fallback "is_high_risk") with (@Ret value (VBool false)).
  change (getitem opportunity_failure_fallback "has_business_intent")
    with (@Ret value (VBool false)).
  cbn [bind truthy].
  change (value_in_strs (VStr "P2") ["P2"; "P3"]) with true. cbn iota.
  rewrite (generate_draft_response_on_failure _ _ _ _ _ _ _ _ _ _ Hkb Hctx G3 G4
             (getitem_Some _ _ _ E2) He5).
  reflexivity.
Qed.

Lemma process_ticket_safe_defaults_witness :
  process_ticket unreachable sample_loads alerts_configured accepted no_files
    plain_ticket sample_agents
  = Ret (<["draft_response" := VNone]>
           (triaged_record (VStr "P2") "Integrations & API Team"
              guardian_failure_fallback opportunity_failure_fallback
              (base_record (VStr "T-1001") (VStr "Acme") (VStr "Checkout is down")
                 (VStr "Payments fail for every customer") (VStr "email") (VInt 5000)
                 (VStr "2024-05-01 09:00:00")))).
Proof.
  apply (process_ticket_safe_defaults unreachable sample_loads alerts_configured accepted
           no_files plain_ticket sample_agents _ _ _ _ _ _ _ [] []);
    try reflexivity.
  - intros p. now eexists.
  - repeat constructor.
Defined.

(** X6. When neither analyzer flags the ticket, [process_ticket] consults
    neither the environment nor the mail client: its outcome is the same for
    any two environments and any two mail clients. *)
Theorem process_ticket_no_alert_without_flag
    (messages_create : prompt -> outcome string) (json_loads : string -> outcome value)
    (environ environ' : gmap string string) (sendgrid_send sendgrid_send' : mail -> outcome Z)
    (read_json_file : string -> option (outcome value))
    (ticket : dict) (agents : list value) :
  (forall description mrr priority,
      ticket !! "description" = Some description ->
      ticket !! "mrr" = Some mrr ->
      classify_priority messages_create ticket = Ret priority ->
      analyze_churn_risk messages_create json_loads description mrr priority
        !! "is_high_risk" = Some (VBool false)) ->
  (forall description,
      ticket !! "description" = Some description ->
      detect_business_intent messages_create json_loads description
        !! "has_business_intent" = Some (VBool false)) ->
  process_ticket messages_create json_loads environ sendgrid_send read_json_file
    ticket agents
  = process_ticket messages_create json_loads environ' sendgrid_send' read_json_file
      ticket agents.
Proof.
  intros Hrisk Hintent.
  assert (Hsteps :
            process_ticket_steps_1_to_4 messages_create json_loads environ sendgrid_send
              ticket agents
            = process_ticket_steps_1_to_4 messages_create json_loads environ' sendgrid_send'
                ticket agents); [|unfold process_ticket; now rewrite Hsteps].
  unfold process_ticket_steps_1_to_4, getitem.
  destruct (ticket !! "ticket_id"); cbn [bind]; [|reflexivity].
  destruct (ticket !! "subject"); cbn [bind]; [|reflexivity].
  destruct (ticket !! "customer_name"); cbn [bind]; [|reflexivity].
  destruct (ticket !! "description") as [description|] eqn:Ed; cbn [bind]; [|reflexivity].
  destruct (ticket !! "channel"); cbn [bind]; [|reflexivity].
  destruct (ticket !! "mrr") as [mrr|] eqn:Em; cbn [bind]; [|reflexivity].
  destruct (ticket !! "timestamp"); cbn [bind]; [|reflexivity].
  destruct (classify_priority messages_create ticket) as [priority|] eqn:Ep;
    cbn [bind]; [|reflexivity].
  destruct (route_to_agent messages_create ticket agents); cbn [bind]; [|reflexivity].
  rewrite (Hrisk description mrr priority eq_refl eq_refl eq_refl). cbn [bind truthy].
  rewrite (Hintent description eq_refl). cbn [bind truthy].
  reflexivity.
Qed.

Lemma process_ticket_no_alert_without_flag_witness :
  process_ticket unreachable sample_loads alerts_configured accepted no_files
    urgent_ticket sample_agents
  = process_ticket unreachable sample_loads ∅ mailer_down no_files
      urgent_ticket sample_agents.
Proof.
  apply process_ticket_no_alert_without_flag.
  - intros description mrr priority _ _ _. reflexivity.
  - intros description _. reflexivity.
Defined.

(** X7. A ticket that lacks one of the seven columns makes
    [process_ticket] raise [KeyError] for a column that is missing, whatever
    the services do; no record is produced. *)
Theorem process_ticket_missing_column
    (messages_create : prompt -> outcome string) (json_loads : string -> outcome value)
    (environ : gmap string string) (sendgrid_send : mail -> outcome Z)
    (read_json_file : string -> option (outcome value))
    (ticket : dict) (agents : list value) (column : string) :
  In column ticket_columns ->
  ticket !! column = None ->
  exists missing,
    In missing ticket_columns
    /\ ticket !! missing = None
    /\ process_ticket messages_create json_loads environ sendgrid_send read_json_file
         ticket agents = Raise (KeyError missing).
Proof.
  intros Hin Hnone. unfold process_ticket, process_ticket_steps_1_to_4, getitem.
  destruct (ticket !! "ticket_id") eqn:E1; cbn [bind];
    [|exists "ticket_id"; cbn; auto 10].
  destruct (ticket !! "subject") eqn:E2; cbn [bind];
    [|exists "subject"; cbn; auto 10].
  destruct (ticket !! "customer_name") eqn:E3; cbn [bind];
    [|exists "customer_name"; cbn; auto 10].
  destruct (ticket !! "description") eqn:E4; cbn [bind];
    [|exists "description"; cbn; auto 10].
  destruct (ticket !! "channel") eqn:E5; cbn [bind];
    [|exists "channel"; cbn; auto 10].
  destruct (ticket !! "mrr") eqn:E6; cbn [bind];
    [|exists "mrr"; cbn; auto 10].
  destruct (ticket !! "timestamp") eqn:E7; cbn [bind];
    [|exists "timestamp"; cbn; auto 10].
  exfalso. cbn in Hin.
  destruct Hin as [<-|[<-|[<-|[<-|[<-|[<-|[<-|[]]]]]]]]; congruence.
Qed.

Lemma process_ticket_missing_column_witness :
  process_ticket drafts_down sample_loads ∅ accepted no_files
    (delete "mrr" urgent_ticket) sample_agents = Raise (KeyError "mrr").
Proof.
  destruct (process_ticket_missing_column drafts_down sample_loads ∅ accepted no_files
              (delete "mrr" urgent_ticket) sample_agents "mrr")
    as (missing & Hin & Hnone & Hraise).
  - cbn. tauto.
  - reflexivity.
  - rewrite Hraise. cbn in Hin.
    destruct Hin as [<-|[<-|[<-|[<-|[<-|[<-|[<-|[]]]]]]]];
      first [reflexivity | discriminate Hnone].
Defined.

(** ** Alerts *)

(** X8. When the recipient variable of an alert is absent from the
    environment or empty, the alert returns [False] for every ticket and
    every analysis record, complete or not, and whatever the mail client
    would do. *)
Theorem alerts_skipped_without_recipient
    (environ : gmap string string) (sendgrid_send : mail -> outcome Z)
    (ticket analysis : dict) :
  (unset environ "GUARDIAN_EMAIL" ->
   send_guardian_alert environ sendgrid_send ticket analysis = Ret false)
  /\ (unset environ "OPPORTUNITY_EMAIL" ->
      send_opportunity_alert environ sendgrid_send ticket analysis = Ret false).
Proof.
  assert (Hnone : forall name, unset environ name -> recipient environ name = None).
  { intros name [H|H]; unfold recipient; now rewrite H. }
  split; intros H; apply Hnone in H.
  - unfold send_guardian_alert. now rewrite H.
  - unfold send_opportunity_alert. now rewrite H.
Qed.

Lemma alerts_skipped_without_recipient_witness :
  send_guardian_alert ∅ accepted ∅ ∅ = Ret false
  /\ send_opportunity_alert (<["OPPORTUNITY_EMAIL" := ""]> ∅) accepted urgent_ticket score_only
     = Ret false.
Proof.
  split.
  - apply (alerts_skipped_without_recipient ∅ accepted ∅ ∅). now left.
  - apply (alerts_skipped_without_recipient (<["OPPORTUNITY_EMAIL" := ""]> ∅)).
    now right.
Defined.

(** X9. With a recipient configured, a ticket whose [mrr] is a number and
    a Guardian record that has the four fields of the template (the
    sentiment being a string), [send_guardian_alert] returns a boolean: true
    exactly when the mail client answers the message, sent from and to the
    recipient, with status 200 or 202; false for any other status and when
    the client raises. *)
Theorem guardian_alert_sent_iff_accepted
    (environ : gmap string string) (sendgrid_send : mail -> outcome Z)
    (ticket guardian_result : dict)
    (ticket_id customer_name ticket_subject description mrr risk_score evidence reasoning
     : value)
    (formatted : fragment) (sentiment kam_email : string) :
  environ !! "GUARDIAN_EMAIL" = Some kam_email ->
  kam_email <> "" ->
  ticket !! "ticket_id" = Some ticket_id ->
  ticket !! "customer_name" = Some customer_name ->
  ticket !! "mrr" = Some mrr ->
  format_thousands mrr = Ret formatted ->
  ticket !! "subject" = Some ticket_subject ->
  ticket !! "description" = Some description ->
  guardian_result !! "risk_score" = Some risk_score ->
  guardian_result !! "sentiment" = Some (VStr sentiment) ->
  guardian_result !! "evidence" = Some evidence ->
  guardian_result !! "reasoning" = Some reasoning ->
  let message :=
    {| from_email := kam_email; to_emails := kam_email;
       subject := [FStr ticket_id];
       html_content :=
         [FStr ticket_id; FStr customer_name; formatted; FStr risk_score; FTitle sentiment;
          FStr evidence; FStr reasoning; FStr ticket_subject; FStr description] |} in
  exists sent,
    send_guardian_alert environ sendgrid_send ticket guardian_result = Ret sent
    /\ (sent = true <-> accepted_status (sendgrid_send message)).
Proof.
  intros Hr Hne H1 H2 H3 Hf H4 H5 H6 H7 H8 H9 message.
  destruct (deliver_total sendgrid_send message) as (sent & Hsent & Hiff).
  exists sent. split; [|exact Hiff].
  unfold send_guardian_alert, recipient, getitem. rewrite Hr.
  destruct (String.eqb_spec kam_email ""); [contradiction|].
  rewrite H1, H2, H3. cbn [bind]. rewrite Hf. cbn [bind].
  rewrite H6, H7, H8, H9, H4, H5. cbn [bind str_title]. exact Hsent.
Qed.

Lemma guardian_alert_sent_iff_accepted_witness :
  send_guardian_alert alerts_configured accepted urgent_ticket complete_risk = Ret true
  /\ send_guardian_alert alerts_configured mailer_down urgent_ticket complete_risk = Ret false.
Proof.
  destruct (guardian_alert_sent_iff_accepted alerts_configured accepted urgent_ticket
              complete_risk _ _ _ _ _ _ _ _ _ _ _
              eq_refl ltac:(discriminate) eq_refl eq_refl eq_refl eq_refl eq_refl eq_refl
              eq_refl eq_refl eq_refl eq_refl) as (sent & Hsent & Hiff).
  destruct (guardian_alert_sent_iff_accepted alerts_configured mailer_down urgent_ticket
              complete_risk _ _ _ _ _ _ _ _ _ _ _
              eq_refl ltac:(discriminate) eq_refl eq_refl eq_refl eq_refl eq_refl eq_refl
              eq_refl eq_refl eq_refl eq_refl) as (sent' & Hsent' & Hiff').
  split.
  - rewrite Hsent. f_equal. apply Hiff. right. reflexivity.
  - rewrite Hsent'. f_equal. destruct sent'; [|reflexivity].
    destruct (proj1 Hiff' eq_refl) as [H|H]; discriminate H.
Defined.

(** X10. With a recipient configured, a ticket whose [mrr] is a number and
    an Opportunity record that has [confidence], [evidence] and [reasoning],
    what [send_opportunity_alert] does is decided by the record's
    [intent_type]: when that is absent, null or any other hashable value the
    alert returns a boolean (true exactly for status 200 or 202), and an
    intent type that is not a string is announced as a Business Inquiry;
    when it is a list or a dict the alert raises [TypeError]. *)
Theorem opportunity_alert_intent_type
    (environ : gmap string string) (sendgrid_send : mail -> outcome Z)
    (ticket opportunity_result : dict)
    (ticket_id customer_name ticket_subject description mrr confidence evidence reasoning
     : value)
    (formatted : fragment) (sales_email : string) :
  environ !! "OPPORTUNITY_EMAIL" = Some sales_email ->
  sales_email <> "" ->
  ticket !! "ticket_id" = Some ticket_id ->
  ticket !! "customer_name" = Some customer_name ->
  ticket !! "mrr" = Some mrr ->
  format_thousands mrr = Ret formatted ->
  ticket !! "subject" = Some ticket_subject ->
  ticket !! "description" = Some description ->
  opportunity_result !! "confidence" = Some confidence ->
  opportunity_result !! "evidence" = Some evidence ->
  opportunity_result !! "reasoning" = Some reasoning ->
  let intent_type := dict_get opportunity_result "intent_type" VNone in
  (hashable intent_type = true ->
   exists sent intent_display approach,
     send_opportunity_alert environ sendgrid_send ticket opportunity_result = Ret sent
     /\ (sent = true
         <-> accepted_status
               (sendgrid_send
                  {| from_email := sales_email; to_emails := sales_email;
                     subject := [FText intent_display; FStr ticket_id];
                     html_content :=
                       [FStr ticket_id; FStr customer_name; formatted; FText intent_display;
                        FStr confidence; FStr evidence; FStr ticket_subject;
                        FStr description; FStr reasoning; FText approach] |}))
     /\ (is_str intent_type = false ->
         intent_display = "Business Inquiry"
         /\ approach = "Understand specific needs and provide tailored solution"))
  /\ (hashable intent_type = false ->
      send_opportunity_alert environ sendgrid_send ticket opportunity_result
      = Raise TypeError).
Proof.
  intros Hr Hne H1 H2 H3 Hf H4 H5 H6 H7 H8 intent_type.
  assert (Hrecipient : recipient environ "OPPORTUNITY_EMAIL" = Some sales_email).
  { unfold recipient. rewrite Hr. now destruct (String.eqb_spec sales_email ""). }
  split.
  - intros Hhash.
    assert (Htables : exists intent_display approach,
               table_get intent_type_display intent_type "Business Inquiry" = Ret intent_display
               /\ get_approach_recommendation intent_type = Ret approach
               /\ (is_str intent_type = false ->
                   intent_display = "Business Inquiry"
                   /\ approach = "Understand specific needs and provide tailored solution")).
    { unfold get_approach_recommendation, table_get.
      destruct intent_type; try discriminate Hhash; cbn [table_lookup bind];
        do 2 eexists; (split; [reflexivity|]); (split; [reflexivity|]);
        first [discriminate | auto]. }
    destruct Htables as (intent_display & approach & Hd & Ha & Hother).
    destruct (deliver_total sendgrid_send
                {| from_email := sales_email; to_emails := sales_email;
                   subject := [FText intent_display; FStr ticket_id];
                   html_content :=
                     [FStr ticket_id; FStr customer_name; formatted; FText intent_display;
                      FStr confidence; FStr evidence; FStr ticket_subject;
                      FStr description; FStr reasoning; FText approach] |})
      as (sent & Hsent & Hiff).
    exists sent, intent_display, approach.
    split; [|split; [exact Hiff | exact Hother]].
    unfold send_opportunity_alert, getitem. fold intent_type.
    rewrite Hrecipient, Hd. cbn [bind]. rewrite H1, H2, H3. cbn [bind].
    rewrite Hf. cbn [bind]. rewrite H6, H7, H4, H5, H8. cbn [bind].
    rewrite Ha. cbn [bind]. exact Hsent.
  - intros Hhash. unfold send_opportunity_alert. fold intent_type.
    rewrite Hrecipient. unfold table_get.
    destruct intent_type; try discriminate Hhash; reflexivity.
Qed.

Lemma opportunity_alert_intent_type_witness :
  send_opportunity_alert alerts_configured accepted urgent_ticket untyped_intent = Ret true
  /\ send_opportunity_alert alerts_configured accepted urgent_ticket
       (<["intent_type" := VList []]> untyped_intent) = Raise TypeError.
Proof.
  destruct (opportunity_alert_intent_type alerts_configured accepted urgent_ticket
              untyped_intent _ _ _ _ _ _ _ _ _ _
              eq_refl ltac:(discriminate) eq_refl eq_refl eq_refl eq_refl eq_refl eq_refl
              eq_refl eq_refl eq_refl) as (Hok & _).
  destruct (opportunity_alert_intent_type alerts_configured accepted urgent_ticket
              (<["intent_type" := VList []]> untyped_intent) _ _ _ _ _ _ _ _ _ _
              eq_refl ltac:(discriminate) eq_refl eq_refl eq_refl eq_refl eq_refl eq_refl
              eq_refl eq_refl eq_refl) as (_ & Hbad).
  split; [|exact (Hbad eq_refl)].
  destruct (Hok eq_refl) as (sent & display & approach & Hsent & Hiff & _).
  rewrite Hsent. f_equal. apply Hiff. right. reflexivity.
Defined.

(** ** The report *)

Lemma filter_outcome_In {A : Type} (p : A -> outcome bool) (l kept : list A) (x : A) :
  filter_outcome p l = Ret kept -> In x l -> p x = Ret true -> In x kept.
Proof.
  revert kept. induction l as [|y l IH]; intros kept; cbn [filter_outcome]; [intros _ []|].
  destruct (p y) as [b|] eqn:Hy; cbn [bind]; [|discriminate].
  destruct (filter_outcome p l) as [ys|]; cbn [bind]; [|discriminate].
  intros [= <-] [->|Hin] Hx.
  - rewrite Hx in Hy. injection Hy as <-. now left.
  - specialize (IH ys eq_refl Hin Hx). destruct b; [now right | exact IH].
Qed.

Lemma opportunity_section_needs_strings (alerts : list dict) (r : dict) (intent_type : value) :
  In r alerts ->
  getitem2 r "opportunity" "intent_type" = Ret intent_type ->
  is_str intent_type = false ->
  ~ returns (generate_opportunity_section alerts).
Proof.
  intros Hin Hintent Hstr [section Hsection].
  unfold generate_opportunity_section in Hsection.
  destruct alerts as [|r0 rest]; [destruct Hin|].
  destruct (map_outcome opportunity_card (r0 :: rest)) as [cards|] eqn:Hcards;
    [|discriminate Hsection].
  assert (Hall : returns (map_outcome opportunity_card (r0 :: rest)))
    by (rewrite Hcards; now eexists).
  apply map_outcome_returns in Hall. rewrite Forall_forall in Hall.
  destruct (Hall r (proj2 (list_elem_of_In _ _) Hin)) as [card Hcard].
  unfold opportunity_card in Hcard. rewrite Hintent in Hcard. cbn [bind] in Hcard.
  destruct intent_type; try discriminate Hcard; discriminate Hstr.
Qed.

(** X11. A list of results in which one record has a truthy
    [has_business_intent] and an [intent_type] that is not a string (null,
    for one) cannot be reported: [generate_html_dashboard] does not return
    and writes no report page. *)
Theorem dashboard_needs_string_intent
    (format_percent : nat -> nat -> nat -> string) (now : string)
    (results : list dict) (agents : list value) (r : dict) (flag intent_type : value) :
  In r results ->
  getitem_get r "opportunity" "has_business_intent" (VBool false) = Ret flag ->
  truthy flag = true ->
  getitem2 r "opportunity" "intent_type" = Ret intent_type ->
  is_str intent_type = false ->
  ~ returns (snd (generate_html_dashboard format_percent now results agents))
  /\ forall page,
       ~ In ("triage_report.html", page)
           (fst (generate_html_dashboard format_percent now results agents)).
Proof.
  intros Hin Hflag Htruthy Hintent Hstr.
  assert (Halert : is_opportunity_alert r = Ret true).
  { unfold is_opportunity_alert. rewrite Hflag. cbn [bind]. now rewrite Htruthy. }
  unfold generate_html_dashboard.
  destruct (filter_outcome is_guardian_alert results) as [g|]; cbn [bind].
  2: { split; [intros [x H]; discriminate H | intros page []]. }
  destruct (filter_outcome is_opportunity_alert results) as [o|] eqn:Ho; cbn [bind].
  2: { split; [intros [x H]; discriminate H | intros page []]. }
  pose proof (filter_outcome_In _ _ _ _ Ho Hin Halert) as Hkept.
  pose proof (opportunity_section_needs_strings o r intent_type Hkept Hintent Hstr) as Hsec.
  destruct (generate_zendesk_api_calls results) as [z|]; cbn [bind].
  2: { split; [intros [x H]; discriminate H | intros page []]. }
  assert (Hpages : forall (written : list (string * document)) page,
             written = [("zendesk_api_calls.json", JsonDoc (VList z))]
             \/ (exists gl, written = [("zendesk_api_calls.json", JsonDoc (VList z));
                                      ("guardian_alerts_log.json", JsonDoc (VList gl))])
             \/ (exists gl ol, written = [("zendesk_api_calls.json", JsonDoc (VList z));
                                         ("guardian_alerts_log.json", JsonDoc (VList gl));
                                         ("opportunity_alerts_log.json", JsonDoc (VList ol))]) ->
             ~ In ("triage_report.html", page) written).
  { intros written page [->|[(gl & ->)|(gl & ol & ->)]] Hp; cbn in Hp;
      repeat (destruct Hp as [Hp|Hp]; [discriminate Hp|]); exact Hp. }
  destruct (map_outcome guardian_log_entry g) as [gl|].
  2: { split; [intros [x H]; discriminate H | intros page; apply Hpages; auto]. }
  destruct (map_outcome opportunity_log_entry o) as [ol|].
  2: { split; [intros [x H]; discriminate H | intros page; apply Hpages; eauto]. }
  destruct (dashboard_html _ _ _ _ _ _ _) as [html|] eqn:Hhtml.
  2: { split; [intros [x H]; discriminate H | intros page; apply Hpages; eauto 6]. }
  exfalso. apply Hsec. unfold dashboard_html in Hhtml. bind_inv Hhtml. now eexists.
Qed.

Lemma dashboard_needs_string_intent_witness :
  snd (generate_html_dashboard (fun _ _ _ => "100") "2024-05-01 09:00:00"
         [untyped_result] sample_agents) = Raise AttributeError.
Proof.
  destruct (dashboard_needs_string_intent (fun _ _ _ => "100") "2024-05-01 09:00:00"
              [untyped_result] sample_agents untyped_result (VBool true) VNone
              (or_introl eq_refl) eq_refl eq_refl eq_refl eq_refl) as (Hnot & _).
  destruct (snd (generate_html_dashboard (fun _ _ _ => "100") "2024-05-01 09:00:00"
                   [untyped_result] sample_agents)) as [path|e] eqn:E.
  - exfalso. apply Hnot. now eexists.
  - vm_compute in E. now injection E as <-.
Defined.

Lemma getitem_dict_get (d : dict) (k : string) (v dflt : value) :
  getitem d k = Ret v -> dict_get d k dflt = v.
Proof.
  unfold getitem, dict_get. destruct (d !! k); [now intros [= ->] | discriminate].
Qed.

Lemma team_queue (team : value) (queue : string) :
  table_get team_mapping team "integrations-api-team" = Ret queue ->
  In queue queue_ids
  /\ (queue <> "integrations-api-team" ->
      team = VStr "Data & Analytics Team" \/ team = VStr "Compliance & Operations Team").
Proof.
  unfold table_get. destruct team as [ | | | |s| | ]; cbn [table_lookup bind];
    try discriminate; try (intros [= <-]; split; [cbn; auto | contradiction]).
  cbn [find fst snd team_mapping].
  destruct (String.eqb_spec "Integrations & API Team" s) as [<-|_];
    [intros [= <-]; split; [cbn; auto | contradiction]|].
  destruct (String.eqb_spec "Data & Analytics Team" s) as [<-|_];
    [intros [= <-]; split; [cbn; auto | auto]|].
  destruct (String.eqb_spec "Compliance & Operations Team" s) as [<-|_];
    [intros [= <-]; split; [cbn; auto | auto]|].
  intros [= <-]; split; [cbn; auto | contradiction].
Qed.

(** X12. In a call built by [zendesk_call] the action, the status and
    the comment go together: for a ticket with a non-empty draft the action
    is solve, the status solved and the comment carries the draft, publicly;
    for a ticket without a draft, or with [None] or an empty draft, the
    action is assign, the status open and there is no comment. *)
Theorem zendesk_call_action (ticket : dict) (call : value) :
  zendesk_call ticket = Ret call ->
  let solve := truthy (dict_get ticket "draft_response" VNone) in
  exists payload,
    payload_ticket call = Ret (VDict payload)
    /\ subscript call "action" = Ret (VStr (if solve then "solve" else "assign"))
    /\ payload !! "status" = Some (VStr (if solve then "solved" else "open"))
    /\ payload !! "comment"
       = (if solve
          then Some (VDict (<["body" := dict_get ticket "draft_response" VNone]>
                             (<["public" := VBool true]> ∅)))
          else None).
Proof.
  intros H solve. unfold zendesk_call in H. fold solve in H.
  bind_inv H. injection H as <-.
  match goal with
  | E : (if solve then _ else _) = Ret ?p |- _ => exists p; rename E into Hpayload
  end.
  unfold payload_ticket. cbn [subscript]. unfold getitem. lookup_record. cbn [bind subscript].
  unfold getitem. lookup_record.
  split; [reflexivity|]. split; [reflexivity|].
  destruct solve.
  - bind_inv Hpayload. injection Hpayload as <-. lookup_record.
    split; [reflexivity|].
    match goal with
    | E : getitem ticket "draft_response" = Ret _ |- _ =>
        now rewrite (getitem_dict_get _ _ _ VNone E)
    end.
  - injection Hpayload as <-. lookup_record. split; reflexivity.
Qed.

Lemma zendesk_call_action_witness :
  let ticket := <["draft_response" := VStr ""]> untyped_result in
  match zendesk_call ticket with
  | Ret call => subscript call "action" = Ret (VStr "assign")
  | Raise _ => False
  end.
Proof.
  intros ticket.
  pose proof (zendesk_call_action ticket) as Haction.
  assert (Hc : (let* call := zendesk_call ticket in subscript call "ticket_id")
               = Ret (VStr "T-1001")) by (vm_compute; reflexivity).
  destruct (zendesk_call ticket) as [call|e]; [|discriminate Hc].
  destruct (Haction call eq_refl) as (payload & _ & Hact & _). exact Hact.
Defined.

(** X13. In a call built by [zendesk_call] the assignee is one of the
    three queues and is the first tag; a team name outside the mapping, or an
    assigned team that is not a string, is queued as integrations-api-team;
    the priority is the assigned priority in lower case and is the second
    tag; and the tag churn-risk is present exactly when the record's
    [is_high_risk] is truthy. *)
Theorem zendesk_call_routing (ticket : dict) (call : value) :
  zendesk_call ticket = Ret call ->
  exists payload queue assigned_agent priority high tags,
    payload_ticket call = Ret (VDict payload)
    /\ ticket !! "assigned_agent" = Some assigned_agent
    /\ ticket !! "assigned_priority" = Some (VStr priority)
    /\ getitem_get ticket "guardian" "is_high_risk" VNone = Ret high
    /\ In queue queue_ids
    /\ (queue <> "integrations-api-team" ->
        assigned_agent = VStr "Data & Analytics Team"
        \/ assigned_agent = VStr "Compliance & Operations Team")
    /\ payload !! "assignee" = Some (VStr queue)
    /\ payload !! "priority" = Some (VStr (lower priority))
    /\ payload !! "tags" = Some (VList (VStr queue :: VStr (lower priority) :: tags))
    /\ (In (VStr "churn-risk") tags <-> truthy high = true).
Proof.
  intros H. unfold zendesk_call in H.
  destruct (getitem ticket "assigned_agent") as [assigned_agent|] eqn:Ha;
    cbn [bind] in H; [|discriminate H].
  destruct (table_get team_mapping assigned_agent "integrations-api-team")
    as [queue|] eqn:Hq; cbn [bind] in H; [|discriminate H].
  destruct (getitem ticket "ticket_id") as [ticket_id|] eqn:Hid;
    cbn [bind] in H; [|discriminate H].
  destruct (getitem ticket "assigned_priority") as [assigned_priority|] eqn:Hp;
    cbn [bind] in H; [|discriminate H].
  destruct (method_lower assigned_priority) as [low|] eqn:Hlow;
    cbn [bind] in H; [|discriminate H].
  destruct assigned_priority as [ | | | |priority| | ]; try discriminate Hlow.
  injection Hlow as <-.
  destruct (getitem_get ticket "guardian" "is_high_risk" VNone) as [high|] eqn:Hhigh;
    cbn [bind] in H; [|discriminate H].
  destruct (team_queue _ _ Hq) as (Hin & Hother).
  unfold getitem in Ha, Hp.
  destruct (ticket !! "assigned_agent") as [agent'|]; [injection Ha as ->|discriminate Ha].
  destruct (ticket !! "assigned_priority") as [p'|]; [injection Hp as ->|discriminate Hp].
  assert (Htags : exists tags,
             (In (VStr "churn-risk") tags <-> truthy high = true)
             /\ exists payload,
                  payload_ticket call = Ret (VDict payload)
                  /\ payload !! "assignee" = Some (VStr queue)
                  /\ payload !! "priority" = Some (VStr (lower priority))
                  /\ payload !! "tags"
                     = Some (VList (VStr queue :: VStr (lower priority) :: tags))).
  { bind_inv H. injection H as <-.
    repeat match goal with
           | E : (if ?c then _ else _) = Ret _ |- _ =>
               destruct c eqn:?; [bind_inv E|]; injection E as <-; cbn [fst snd] in *
           end;
      (eexists; split;
       [|eexists; split;
         [unfold payload_ticket; cbn [subscript]; unfold getitem; lookup_record;
          cbn [bind subscript]; unfold getitem; lookup_record; reflexivity
         |lookup_record; split; [reflexivity|]; split; reflexivity]]);
      first
        [ split; [reflexivity | intros _; cbn; auto]
        | split; [|discriminate];
          cbn; intros Hf; repeat (destruct Hf as [Hf|Hf]; [discriminate Hf|]); destruct Hf ]. }
  destruct Htags as (tags & Hchurn & payload & Hpayload & Hassignee & Hpriority & Htag).
  exists payload, queue, assigned_agent, priority, high, tags.
  repeat (split; [first [assumption | reflexivity]|]). exact Hchurn.
Qed.

Lemma zendesk_call_routing_witness :
  match zendesk_call untyped_result with
  | Ret call =>
      exists payload,
        payload_ticket call = Ret (VDict payload)
        /\ payload !! "assignee" = Some (VStr "integrations-api-team")
  | Raise _ => False
  end.
Proof.
  pose proof (zendesk_call_routing untyped_result) as Hrouting.
  assert (Hc : (let* call := zendesk_call untyped_result in subscript call "ticket_id")
               = Ret (VStr "T-1001")) by (vm_compute; reflexivity).
  destruct (zendesk_call untyped_result) as [call|e]; [|discriminate Hc].
  destruct (Hrouting call eq_refl)
    as (payload & queue & agent & priority & high & tags
        & Hp & Hagent & _ & _ & _ & Hother & Hassignee & _).
  exists payload. split; [exact Hp|]. rewrite Hassignee. do 2 f_equal.
  destruct (String.eqb_spec queue "integrations-api-team") as [->|Hne]; [reflexivity|].
  exfalso. vm_compute in Hagent. injection Hagent as <-.
  destruct (Hother Hne) as [H|H]; discriminate H.
Defined.

(** ** The metrics summary *)

Lemma filter_outcome_length {A : Type} (p : A -> outcome bool) (l kept : list A) :
  filter_outcome p l = Ret kept -> (length kept <= length l)%nat.
Proof.
  revert kept. induction l as [|x l IH]; intros kept; cbn [filter_outcome].
  - now intros [= <-].
  - destruct (p x) as [b|]; cbn [bind]; [|discriminate].
    destruct (filter_outcome p l) as [ys|]; cbn [bind]; [|discriminate].
    intros [= <-]. specialize (IH ys eq_refl). destruct b; cbn [length]; lia.
Qed.

Lemma truthy_draft_has_draft (r : dict) :
  truthy (dict_get r "draft_response" VNone) = true -> has_draft r = true.
Proof. unfold has_draft. now destruct (dict_get r "draft_response" VNone). Qed.

Lemma truthy_drafts_counted (results : list dict) :
  (length (with_truthy_draft results) <= length (filter has_draft results))%nat.
Proof.
  unfold with_truthy_draft. induction results as [|r results IH]; [reflexivity|].
  rewrite !filter_cons.
  destruct (truthy (dict_get r "draft_response" VNone)) eqn:Ht.
  - rewrite (truthy_draft_has_draft r Ht).
    rewrite !decide_True by exact I. cbn [length]. lia.
  - rewrite (decide_False (P := Is_true false)) by exact id.
    destruct (has_draft r).
    + rewrite decide_True by exact I. cbn [length]. lia.
    + rewrite (decide_False (P := Is_true false)) by exact id. exact IH.
Qed.

(** X14. When [generate_metrics] returns, the list was not empty,
    [total_tickets] is its length, the two alert counts and [auto_resolved]
    lie between 0 and the total, and [auto_resolved] is at least the number of
    results with a truthy draft: it also counts the results whose draft is
    the empty string, which the dashboard and the ticket-system log do not
    treat as resolved. *)
Theorem generate_metrics_counts
    (format_percent : nat -> nat -> nat -> string) (results : list dict) (metrics : dict) :
  generate_metrics format_percent results = Ret metrics ->
  results <> []
  /\ exists guardian_alerts opportunity_alerts auto_resolved : nat,
       metrics !! "total_tickets" = Some (VInt (Z.of_nat (length results)))
       /\ metrics !! "guardian_alerts" = Some (VInt (Z.of_nat guardian_alerts))
       /\ metrics !! "opportunity_alerts" = Some (VInt (Z.of_nat opportunity_alerts))
       /\ metrics !! "auto_resolved" = Some (VInt (Z.of_nat auto_resolved))
       /\ metrics !! "auto_resolved_rate"
          = Some (VStr (format_percent 1%nat auto_resolved (length results) +:+ "%"))
       /\ (guardian_alerts <= length results)%nat
       /\ (opportunity_alerts <= length results)%nat
       /\ (length (with_truthy_draft results) <= auto_resolved <= length results)%nat.
Proof.
  unfold generate_metrics. intros H.
  destruct (filter_outcome is_guardian_alert results) as [g|] eqn:Hg;
    cbn [bind] in H; [|discriminate H].
  destruct (filter_outcome is_opportunity_alert results) as [o|] eqn:Ho;
    cbn [bind] in H; [|discriminate H].
  unfold percent in H.
  destruct (Nat.eqb_spec (length results) 0) as [Hzero|Hpos]; [discriminate H|].
  cbn [bind] in H. injection H as <-.
  split; [now intros ->|].
  exists (length g), (length o), (length (filter has_draft results)).
  lookup_record.
  do 5 (split; [reflexivity|]).
  split; [exact (filter_outcome_length _ _ _ Hg)|].
  split; [exact (filter_outcome_length _ _ _ Ho)|].
  split; [apply truthy_drafts_counted | apply length_filter].
Qed.

Lemma generate_metrics_counts_witness :
  let blank_draft := <["draft_response" := VStr ""]> quiet_result in
  match generate_metrics (fun _ _ _ => "100.0") [blank_draft] with
  | Ret metrics =>
      metrics !! "total_tickets" = Some (VInt 1)
      /\ metrics !! "auto_resolved" = Some (VInt 1)
      /\ with_truthy_draft [blank_draft] = []
  | Raise _ => False
  end.
Proof.
  intros blank_draft.
  pose proof (generate_metrics_counts (fun _ _ _ => "100.0") [blank_draft]) as Hcounts.
  assert (Hc : (let* metrics := generate_metrics (fun _ _ _ => "100.0") [blank_draft] in
                getitem metrics "auto_resolved") = Ret (VInt 1))
    by (vm_compute; reflexivity).
  destruct (generate_metrics (fun _ _ _ => "100.0") [blank_draft]) as [metrics|e];
    [|discriminate Hc].
  destruct (Hcounts metrics eq_refl) as (_ & g & o & a & Htotal & _).
  split; [exact Htotal|]. split; [|reflexivity].
  cbn [bind] in Hc. unfold getitem in Hc.
  destruct (metrics !! "auto_resolved"); [now injection Hc as -> | discriminate Hc].
Defined.

Lemma filter_outcome_returns {A : Type} (p : A -> outcome bool) (l : list A) :
  Forall (fun x => returns (p x)) l -> returns (filter_outcome p l).
Proof.
  induction 1 as [|x l [b Hb] _ [kept Hkept]]; cbn [filter_outcome]; [now eexists|].
  rewrite Hb, Hkept. cbn [bind]. now eexists.
Qed.

Lemma processed_entries (r : dict) :
  processed r ->
  exists g o, r !! "guardian" = Some (VDict g) /\ r !! "opportunity" = Some (VDict o).
Proof.
  intros (messages_create & json_loads & environ & sendgrid_send & read_json_file
          & ticket & agents & Hrun).
  destruct (run_canonical _ _ _ _ _ _ _ _ Hrun)
    as (priority & assigned_agent & before & Hsteps & Hresult).
  destruct (steps_canonical _ _ _ _ _ _ _ _ _ Hsteps)
    as (ticket_id & customer_name & ticket_subject & description & channel & mrr & timestamp
        & g & o & _ & _ & _ & _ & _ & _ & _ & _ & _ & _ & _ & ->).
  exists g, o.
  destruct Hresult as [(_ & ->) | (_ & draft & _ & ->)];
    unfold triaged_record; lookup_record; auto.
Qed.

(** X15. The metrics summary accepts what the pipeline produces: for a
    non-empty list of records, each returned by some run of
    [process_ticket], [generate_metrics] returns a summary; no record of the
    pipeline lacks the entries that the summary reads. *)
Theorem generate_metrics_on_processed
    (format_percent : nat -> nat -> nat -> string) (results : list dict) :
  results <> [] ->
  Forall processed results ->
  exists metrics, generate_metrics format_percent results = Ret metrics.
Proof.
  intros Hne Hall. unfold generate_metrics.
  assert (Hg : returns (filter_outcome is_guardian_alert results)).
  { apply filter_outcome_returns. eapply Forall_impl; [exact Hall|].
    intros r Hr. destruct (processed_entries r Hr) as (g & o & Hguardian & _).
    unfold is_guardian_alert, getitem_get, getitem. rewrite Hguardian.
    cbn [bind method_get]. now eexists. }
  assert (Ho : returns (filter_outcome is_opportunity_alert results)).
  { apply filter_outcome_returns. eapply Forall_impl; [exact Hall|].
    intros r Hr. destruct (processed_entries r Hr) as (g & o & _ & Hopportunity).
    unfold is_opportunity_alert, getitem_get, getitem. rewrite Hopportunity.
    cbn [bind method_get]. now eexists. }
  destruct Hg as [g ->]. destruct Ho as [o ->]. cbn [bind].
  unfold percent. destruct (Nat.eqb_spec (length results) 0) as [Hzero|Hpos].
  - destruct results; [contradiction | discriminate Hzero].
  - cbn [bind]. now eexists.
Qed.

Lemma generate_metrics_on_processed_witness :
  match process_ticket unreachable sample_loads alerts_configured accepted no_files
          plain_ticket sample_agents with
  | Ret r => exists metrics, generate_metrics (fun _ _ _ => "0.0") [r] = Ret metrics
  | Raise _ => False
  end.
Proof.
  assert (Hc : (let* r :=
                  process_ticket unreachable sample_loads alerts_configured accepted no_files
                    plain_ticket sample_agents in
                getitem r "ticket_id") = Ret (VStr "T-1001")) by (vm_compute; reflexivity).
  destruct (process_ticket unreachable sample_loads alerts_configured accepted no_files
              plain_ticket sample_agents) as [r|e] eqn:Hrun; [|discriminate Hc].
  apply generate_metrics_on_processed; [discriminate|].
  constructor; [|constructor].
  exists unreachable, sample_loads, alerts_configured, accepted, no_files,
    plain_ticket, sample_agents.
  exact Hrun.
Defined.

(** ** The fence removal *)

Lemma append_empty_r (a : string) : a +:+ "" = a.
Proof. induction a as [|x a IH]; [reflexivity|]. rewrite append_cons. now rewrite IH. Qed.

Lemma rstrip_app_blank (s t : string) : rstrip t = "" -> rstrip (s +:+ t) = rstrip s.
Proof.
  intros Ht. induction s as [|a s IH]; [exact Ht|].
  rewrite append_cons. simpl. now rewrite IH.
Qed.

(** [rstrip] of a text that follows a text ending in something solid. *)
Lemma rstrip_app (s t : string) :
  rstrip s = s -> rstrip (s +:+ t) = s +:+ rstrip t.
Proof.
  intros Hs. destruct (rstrip t) as [|c r] eqn:Ht.
  - rewrite (rstrip_app_blank s t Ht), Hs. now rewrite append_empty_r.
  - rewrite rstrip_app_keep by (rewrite Ht; discriminate). now rewrite Ht.
Qed.

Lemma lstrip_rstrip (s : string) : lstrip (rstrip s) = rstrip (lstrip s).
Proof.
  induction s as [|c s IH]; [reflexivity|].
  destruct (isspace c) eqn:Hc.
  - cbn [lstrip]. rewrite Hc. cbn [rstrip].
    destruct (rstrip s) as [|b r] eqn:Hr.
    + rewrite Hc. rewrite <- IH. reflexivity.
    + cbn [lstrip]. rewrite Hc. exact IH.
  - cbn [lstrip]. rewrite Hc.
    apply lstrip_solid, rstrip_starts_solid. exact Hc.
Qed.

Lemma strip_rstrip (s : string) : strip (rstrip s) = strip s.
Proof. unfold strip. now rewrite lstrip_rstrip, rstrip_idempotent. Qed.

Lemma split_from_no_occurrence (s : string) :
  occurs fence s = false -> split_from fence O s = [s].
Proof.
  induction s as [|c s IH]; [reflexivity|].
  intros H. cbn [occurs] in H. apply orb_false_iff in H as [H1 H2].
  cbn [split_from]. rewrite H1, (IH H2). reflexivity.
Qed.

Lemma no_early_match_newline_then (j rest : string) :
  occurs fence j = false -> no_early_match fence (j +:+ newline) rest.
Proof.
  induction j as [|c j IH]; intros H.
  - split; [reflexivity | exact I].
  - simpl in H. apply orb_false_iff in H as [H1 H2].
    rewrite append_cons.
    split; [|now apply IH].
    rewrite <- append_cons, append_assoc.
    rewrite (startswith_fence_newline (String c j) rest). exact H1.
Qed.

Lemma split_from_body_then (body tail : string) :
  no_early_match fence body (fence +:+ tail) ->
  exists pieces, split_from fence O (body +:+ fence +:+ tail) = body :: pieces.
Proof.
  induction body as [|c body IH].
  - intros _. now eexists.
  - intros [Hp Hrest]. rewrite append_cons in *.
    destruct (IH Hrest) as [pieces Hpieces].
    cbn [split_from]. rewrite Hp, Hpieces. now eexists.
Qed.

Lemma split_startswith (sep s : string) :
  sep <> "" ->
  startswith s sep = true ->
  exists piece rest, split s sep = "" :: piece :: rest.
Proof.
  intros Hsep H. destruct s as [|c s].
  - destruct sep; [contradiction | discriminate H].
  - unfold split. cbn [split_from]. rewrite H.
    destruct (split_from_nonempty sep s (String.length sep - 1)) as (piece & rest & ->).
    now do 2 eexists.
Qed.

(** X16. The fence removal never raises; what it returns has no white
    space at either end; and a text that does not begin with a fence is only
    stripped, fences further inside it included. *)
Theorem remove_code_fence_stripped (result_text : string) :
  exists text,
    remove_code_fence result_text = Ret text
    /\ strip text = text
    /\ (startswith result_text fence = false -> text = strip result_text).
Proof.
  unfold remove_code_fence, fence.
  destruct (startswith result_text "```") eqn:E; cbn [bind].
  - destruct (split_startswith "```" result_text ltac:(discriminate) E)
      as (piece & rest & ->).
    cbn [index nth_error bind]. eexists. split; [reflexivity|].
    split; [apply strip_idempotent | discriminate].
  - eexists. split; [reflexivity|]. split; [apply strip_idempotent | reflexivity].
Qed.

Lemma remove_code_fence_stripped_witness :
  remove_code_fence "see ```json {} ```" = Ret "see ```json {} ```".
Proof.
  destruct (remove_code_fence_stripped "see ```json {} ```") as (text & Htext & _ & Hplain).
  rewrite Htext, (Hplain eq_refl). reflexivity.
Defined.

Lemma split_fence_prefix (body : string) :
  split (fence +:+ body) fence = "" :: split_from fence O body.
Proof. reflexivity. Qed.

(** X17. The closing fence is optional and what follows it is ignored:
    for a completion [j] without a triple backtick, the text that opens with
    a fence (tagged json or not) and a newline and then breaks off after [j],
    and the fenced text followed by anything at all, both leave the fence
    removal as [strip j]. *)
Theorem fence_closing_optional (tag j rest : string) :
  tag = "" \/ tag = "json" ->
  occurs fence j = false ->
  remove_code_fence (strip (fence +:+ tag +:+ newline +:+ j)) = Ret (strip j)
  /\ remove_code_fence (strip (fenced tag j +:+ rest)) = Ret (strip j).
Proof.
  intros Htag Hj. split.
  - assert (Hstrip : strip (fence +:+ tag +:+ newline +:+ j)
                     = fence +:+ rstrip (tag +:+ newline +:+ j)).
    { unfold strip. rewrite lstrip_solid by reflexivity. now apply rstrip_app. }
    assert (Hbody : occurs fence (rstrip (tag +:+ newline +:+ j)) = false).
    { apply occurs_rstrip. destruct Htag as [-> | ->]; exact Hj. }
    rewrite Hstrip. unfold remove_code_fence.
    replace (startswith (fence +:+ rstrip (tag +:+ newline +:+ j)) "```") with true
      by reflexivity.
    change "```" with fence.
    rewrite split_fence_prefix, (split_from_no_occurrence _ Hbody).
    cbn [index nth_error bind].
    destruct Htag as [-> | ->].
    + rewrite append_nil in *.
      assert (Hnot : startswith (rstrip (newline +:+ j)) "json" = false).
      { pose proof (rstrip_is_prefix (newline +:+ j)) as [t Ht].
        destruct (rstrip (newline +:+ j)) as [|c r]; [reflexivity|].
        rewrite append_cons in Ht. unfold newline in Ht. rewrite append_cons in Ht.
        injection Ht as <- _. reflexivity. }
      rewrite Hnot. cbn [bind]. now rewrite strip_rstrip, strip_newline_l.
    + assert (Hjson : rstrip ("json" +:+ newline +:+ j) = "json" +:+ rstrip (newline +:+ j))
        by now apply rstrip_app.
      rewrite Hjson.
      replace (startswith ("json" +:+ rstrip (newline +:+ j)) "json") with true
        by reflexivity.
      replace (slice_from 4 ("json" +:+ rstrip (newline +:+ j)))
        with (rstrip (newline +:+ j)) by reflexivity.
      cbn [bind]. now rewrite strip_rstrip, strip_newline_l.
  - assert (Hstrip : strip (fenced tag j +:+ rest) = fenced tag j +:+ rstrip rest).
    { unfold strip. rewrite lstrip_solid by reflexivity.
      apply rstrip_app. pose proof (strip_fenced tag j) as Hf.
      unfold strip in Hf. now rewrite lstrip_solid in Hf by reflexivity. }
    rewrite Hstrip. unfold remove_code_fence.
    replace (startswith (fenced tag j +:+ rstrip rest) "```") with true by reflexivity.
    assert (Hbody : no_early_match fence (tag +:+ newline +:+ j +:+ newline)
                      (fence +:+ rstrip rest)).
    { pose proof (no_early_match_newline_then j (fence +:+ rstrip rest) Hj) as Hn.
      destruct Htag as [-> | ->]; repeat (split; [reflexivity|]); exact Hn. }
    apply split_from_body_then in Hbody as [pieces Hpieces].
    rewrite !append_assoc in Hpieces.
    unfold fenced. change "```" with fence. rewrite !append_assoc.
    rewrite split_fence_prefix, Hpieces. cbn [index nth_error bind].
    destruct Htag as [-> | ->].
    + rewrite append_nil.
      replace (startswith (newline +:+ j +:+ newline) "json") with false by reflexivity.
      cbn [bind]. now rewrite strip_newline_l, strip_newline_r.
    + replace (startswith ("json" +:+ newline +:+ j +:+ newline) "json") with true
        by reflexivity.
      replace (slice_from 4 ("json" +:+ newline +:+ j +:+ newline))
        with (newline +:+ j +:+ newline) by reflexivity.
      cbn [bind]. now rewrite strip_newline_l, strip_newline_r.
Qed.

Lemma fence_closing_optional_witness :
  remove_code_fence (strip (fence +:+ "json" +:+ newline +:+ "{}")) = Ret "{}"
  /\ remove_code_fence (strip (fenced "" "{}" +:+ " Let me know if this helps.")) = Ret "{}".
Proof.
  split.
  - exact (proj1 (fence_closing_optional "json" "{}" "" (or_intror eq_refl) eq_refl)).
  - exact (proj2 (fence_closing_optional "" "{}" " Let me know if this helps."
                    (or_introl eq_refl) eq_refl)).
Defined.

(** ** The knowledge base *)

(** X18. The knowledge base is loaded outside the [try] of
    [generate_draft_response]: a FAQ file that exists but cannot be loaded
    makes the function raise the loader's exception, and a loaded FAQ that is
    not an object makes it raise [AttributeError], whatever the service does;
    only missing files are skipped, and with both files missing the draft is
    the stripped completion, or [None] when the call raises. *)
Theorem knowledge_base_failures
    (messages_create : prompt -> outcome string)
    (read_json_file : string -> option (outcome value))
    (ticket : dict) (assigned_agent : string) :
  let draft := generate_draft_response messages_create read_json_file ticket assigned_agent in
  (forall e, read_json_file "shopify_faq.json" = Some (Raise e) -> draft = Raise e)
  /\ (forall e,
        read_json_file "shopify_faq.json" = None
        \/ (exists v, read_json_file "shopify_faq.json" = Some (Ret v)) ->
        read_json_file "payments_faq.json" = Some (Raise e) ->
        draft = Raise e)
  /\ (forall v,
        read_json_file "shopify_faq.json" = Some (Ret v) ->
        read_json_file "payments_faq.json" = None
        \/ (exists w, read_json_file "payments_faq.json" = Some (Ret w)) ->
        (forall d, v <> VDict d) ->
        draft = Raise AttributeError)
  /\ (forall s d c,
        read_json_file "shopify_faq.json" = None ->
        read_json_file "payments_faq.json" = None ->
        ticket !! "subject" = Some s ->
        ticket !! "description" = Some d ->
        ticket !! "customer_name" = Some c ->
        draft = Ret (match messages_create (draft_prompt s d c assigned_agent []) with
                     | Ret text => VStr (strip text)
                     | Raise _ => VNone
                     end)).
Proof.
  intros draft. subst draft.
  unfold generate_draft_response, load_knowledge_base, load_faq.
  split; [|split; [|split]].
  - intros e ->. reflexivity.
  - intros e [-> | [v ->]] ->; reflexivity.
  - intros v -> Hpayments Hv.
    assert (Hitems : items v = Raise AttributeError).
    { destruct v; try reflexivity. now destruct (Hv d). }
    destruct Hpayments as [-> | [w ->]]; cbn [bind app map_outcome category_context snd];
      unfold category_context; cbn [snd]; now rewrite Hitems.
  - intros s d c -> -> Hs Hd Hc. cbn [bind app map_outcome].
    rewrite (getitem_Some _ _ _ Hs), (getitem_Some _ _ _ Hd), (getitem_Some _ _ _ Hc).
    cbn [bind]. now destruct (messages_create _).
Qed.

Lemma knowledge_base_failures_witness :
  let broken := fun file : string =>
    if String.eqb file "payments_faq.json"
    then Some (Raise (JSONDecodeError "Expecting value: line 1 column 1 (char 0)"))
    else None in
  generate_draft_response on_list broken urgent_ticket "Billing Team"
  = Raise (JSONDecodeError "Expecting value: line 1 column 1 (char 0)")
  /\ generate_draft_response on_list (fun _ => Some (Ret (VList []))) urgent_ticket
       "Billing Team" = Raise AttributeError
  /\ generate_draft_response on_list no_files urgent_ticket "Billing Team"
     = Ret (VStr "Onboarding Team").
Proof.
  intros broken.
  destruct (knowledge_base_failures on_list broken urgent_ticket "Billing Team")
    as (_ & Hpayments & _).
  destruct (knowledge_base_failures on_list (fun _ => Some (Ret (VList []))) urgent_ticket
              "Billing Team") as (_ & _ & Hshape & _).
  destruct (knowledge_base_failures on_list no_files urgent_ticket "Billing Team")
    as (_ & _ & _ & Hmissing).
  split; [exact (Hpayments _ (or_introl eq_refl) eq_refl)|].
  split.
  - apply (Hshape (VList [])); [reflexivity | right; now eexists | discriminate].
  - exact (Hmissing _ _ _ eq_refl eq_refl eq_refl eq_refl eq_refl).
Defined.

(** ** The orchestrator *)

Lemma map_outcome_length {A B : Type} (f : A -> outcome B) (l : list A) (ys : list B) :
  map_outcome f l = Ret ys -> length ys = length l.
Proof.
  revert ys. induction l as [|x l IH]; intros ys; cbn [map_outcome].
  - now intros [= <-].
  - destruct (f x); cbn [bind]; [|discriminate].
    destruct (map_outcome f l) as [zs|]; cbn [bind]; [|discriminate].
    intros [= <-]. cbn [length]. now rewrite (IH zs eq_refl).
Qed.

Lemma dashboard_written
    (format_percent : nat -> nat -> nat -> string) (now : string)
    (results : list dict) (agents : list value)
    (written : list (string * document)) (path : string) :
  generate_html_dashboard format_percent now results agents = (written, Ret path) ->
  map fst written
  = ["zendesk_api_calls.json"; "guardian_alerts_log.json"; "opportunity_alerts_log.json";
     "triage_report.html"]
  /\ results <> [].
Proof.
  intros H. split.
  - unfold generate_html_dashboard in H.
    repeat match type of H with
           | match ?m with _ => _ end = _ =>
               destruct m as [?|?]; try discriminate H
           | (let (_, _) := ?p in _) = _ => destruct p
           | (let '(_, _) := ?p in _) = _ => destruct p
           end.
    repeat match goal with p : _ * _ |- _ => destruct p end.
    repeat match type of H with
           | match ?m with _ => _ end = _ =>
               destruct m as [?|?]; try discriminate H
           end.
    now injection H as <- <-.
  - intros ->. rewrite generate_html_dashboard_empty in H. discriminate H.
Qed.

(** X19. The orchestrator is all or nothing on the tickets: when one ticket
    of the loaded list makes [process_ticket] raise, [main] raises before any
    file is written; with no ticket at all it raises [ZeroDivisionError] after
    the three logs and before the report; and whenever it returns it has
    written the six files in the order of the source, one result per ticket. *)
Theorem main_all_or_nothing
    (messages_create : prompt -> outcome string)
    (json_loads : string -> outcome value)
    (environ : gmap string string)
    (sendgrid_send : mail -> outcome Z)
    (read_json_file : string -> option (outcome value))
    (format_percent : nat -> nat -> nat -> string) (now : string)
    (tickets : list dict) (agents : list value) :
  let run := main messages_create json_loads environ sendgrid_send read_json_file
               format_percent now (Ret tickets) (Ret agents) in
  (forall ticket e,
     In ticket tickets ->
     process_ticket messages_create json_loads environ sendgrid_send read_json_file
       ticket agents = Raise e ->
     fst run = [] /\ ~ returns (snd run))
  /\ (tickets = [] ->
      map fst (fst run)
      = ["zendesk_api_calls.json"; "guardian_alerts_log.json"; "opportunity_alerts_log.json"]
      /\ snd run = Raise ZeroDivisionError)
  /\ (returns (snd run) ->
      tickets <> []
      /\ map fst (fst run)
         = ["zendesk_api_calls.json"; "guardian_alerts_log.json";
            "opportunity_alerts_log.json"; "triage_report.html";
            "triage_results.json"; "metrics_summary.json"]
      /\ exists results,
           process_all messages_create json_loads environ sendgrid_send read_json_file
             tickets agents = Ret results
           /\ length results = length tickets
           /\ In ("triage_results.json", JsonDoc (VList (map VDict results))) (fst run)).
Proof.
  intros run. subst run. unfold main.
  split; [|split].
  - intros ticket e Hin Hraise.
    destruct (process_all _ _ _ _ _ tickets agents) as [results|e'] eqn:Hall.
    + unfold process_all in Hall.
      assert (Hret : returns (map_outcome
                (fun ticket => process_ticket messages_create json_loads environ
                                 sendgrid_send read_json_file ticket agents) tickets))
        by (rewrite Hall; now eexists).
      apply map_outcome_returns in Hret. rewrite Forall_forall in Hret.
      destruct (Hret ticket) as [r Hr]; [now apply list_elem_of_In|].
      cbn beta in Hr. rewrite Hraise in Hr. discriminate Hr.
    + cbn [fst snd]. split; [reflexivity|]. intros [r Hr]. discriminate Hr.
  - intros ->. cbn [process_all map_outcome].
    rewrite generate_html_dashboard_empty. cbn [fst snd map]. now split.
  - intros [r Hr].
    destruct (process_all _ _ _ _ _ tickets agents) as [results|e'] eqn:Hall;
      [|discriminate Hr].
    destruct (generate_html_dashboard format_percent now results agents)
      as [written [path|e']] eqn:Hdash; [|discriminate Hr].
    destruct (dashboard_written _ _ _ _ _ _ Hdash) as [Hnames Hresults].
    destruct (generate_metrics format_percent results) as [metrics|e'];
      [|discriminate Hr].
    cbn [fst snd]. split; [|split].
    + intros ->. apply Hresults. unfold process_all in Hall. cbn [map_outcome] in Hall.
      now injection Hall as <-.
    + rewrite !map_app, Hnames. reflexivity.
    + exists results. split; [reflexivity|]. split.
      * exact (map_outcome_length _ _ _ Hall).
      * apply in_or_app. left. apply in_or_app. right. now left.
Qed.

Lemma main_all_or_nothing_witness :
  let run := fun tickets : list dict =>
    main unreachable sample_loads ∅ mailer_down no_files (fun _ _ _ => "0.0%")
      "2024-05-01 09:00:00" (Ret tickets) (Ret sample_agents) in
  snd (run []) = Raise ZeroDivisionError
  /\ fst (run [urgent_ticket; ∅]) = []
  /\ map fst (fst (run [urgent_ticket]))
     = ["zendesk_api_calls.json"; "guardian_alerts_log.json";
        "opportunity_alerts_log.json"; "triage_report.html";
        "triage_results.json"; "metrics_summary.json"].
Proof.
  intros run. subst run. cbn beta.
  split; [|split].
  - destruct (main_all_or_nothing unreachable sample_loads ∅ mailer_down no_files
                (fun _ _ _ => "0.0%") "2024-05-01 09:00:00" [] sample_agents)
      as (_ & Hempty & _).
    exact (proj2 (Hempty eq_refl)).
  - destruct (main_all_or_nothing unreachable sample_loads ∅ mailer_down no_files
                (fun _ _ _ => "0.0%") "2024-05-01 09:00:00" [urgent_ticket; ∅] sample_agents)
      as (Hraise & _ & _).
    apply (Hraise ∅ (KeyError "ticket_id")); [right; now left | reflexivity].
  - destruct (main_all_or_nothing unreachable sample_loads ∅ mailer_down no_files
                (fun _ _ _ => "0.0%") "2024-05-01 09:00:00" [urgent_ticket] sample_agents)
      as (_ & _ & Hdone).
    apply Hdone. exists tt. vm_compute. reflexivity.
Defined.
